(** * The chat client's real-time core (static/index.js), embedded in Rocq

    The script keeps one global [state] object, normalises whatever the
    server sends into message records, stores them in a [Map] keyed by the
    message id and reconnects its WebSocket with a doubling delay.  The
    development follows the script section by section: JavaScript values
    and operators, "Message Handling", "WebSocket Management",
    "Authentication" and "Message Sending", then the event loop that
    drives the handlers, then the properties.

    Conventions of the embedding.
    - A value is what [JSON.parse] can return, or [undefined].
    - A number is an integer or [NaN].  The integers stand for doubles of
      magnitude below 2^53, which hold them exactly and print them in
      decimal; epoch milliseconds and reconnect delays are such numbers.
      The stored backoff doubles without bound and leaves that range
      after some forty doublings, but it is only ever compared with the
      ceiling, and a power of two times 500 is exact in a double until,
      at the 1016th doubling, it overflows to Infinity, which is still
      above the ceiling: the delays are those of the script for every
      number of failures, the stored value for up to 1015 doublings.
    - A string is a sequence of code units below 256.
    - An object or array carries the heap address [r] that makes it equal
      to itself and to nothing else.  [JSON.parse] is a function of the
      text here, so that equal texts get equal addresses; the statements
      about ids take the values as they are given and do not depend on
      it.
    - A value that cannot be converted to a primitive makes the
      conversion throw a TypeError; [toStringRaises] says which values
      these are, and every place where the script converts a value that
      came from the server is embedded with that exception.
    - [window.CHAT_CONFIG] belongs to the deployment, not to the input:
      the handlers are embedded for a base URL that converts to a string.
      [postJSON_request], which takes the configuration as a parameter,
      says what happens otherwise.
    - An [async] function is cut at each [await]: one definition runs up
      to the await, the next one resumes with the settled result.
    - Platform functions whose result cannot be computed here (date and
      number parsing, URL and JSON parsing, the WebSocket constructor) are
      the fields of a [Browser].
    - Styling, focus, scrolling and console output are left out. *)

From Stdlib Require Import ZArith List String Ascii Bool Lia.
From Stdlib Require Import Permutation Sorted DecimalString.
Import ListNotations.

#[local] Set Warnings "-register-all".

Local Open Scope Z_scope.
Local Open Scope string_scope.

(** ** JavaScript values *)

Module JS.

Inductive JsNum : Type :=
| NaN
| Num (z : Z).

Inductive JsVal : Type :=
| VUndef
| VNull
| VBool (b : bool)
| VNum (n : JsNum)
| VStr (s : string)
| VObj (r : positive) (fields : list (string * JsVal))
| VArr (r : positive) (items : list JsVal).

Inductive JsType : Type :=
| TUndefined | TObject | TBoolean | TNumber | TString.

(** [typeof v]; [typeof null] is "object". *)
Definition typeof (v : JsVal) : JsType :=
  match v with
  | VUndef => TUndefined
  | VNull | VObj _ _ | VArr _ _ => TObject
  | VBool _ => TBoolean
  | VNum _ => TNumber
  | VStr _ => TString
  end.

Definition isTObject (t : JsType) : bool :=
  match t with TObject => true | _ => false end.

Definition isTString (t : JsType) : bool :=
  match t with TString => true | _ => false end.

(** ToBoolean: the falsy values are undefined, null, false, 0, NaN and
    the empty string. *)
Definition truthy (v : JsVal) : bool :=
  match v with
  | VUndef | VNull => false
  | VBool b => b
  | VNum NaN => false
  | VNum (Num z) => negb (z =? 0)%Z
  | VStr s => negb (s =? "")%string
  | VObj _ _ | VArr _ _ => true
  end.

Definition nullish (v : JsVal) : bool :=
  match v with VUndef | VNull => true | _ => false end.

(** [a ?? b] and [a || b].  The right operands in the script have no
    effect on [state], so evaluating them eagerly changes nothing. *)
Definition coalesce (a b : JsVal) : JsVal := if nullish a then b else a.
Definition orElse (a b : JsVal) : JsVal := if truthy a then a else b.

Fixpoint lookupField (k : string) (fs : list (string * JsVal)) : JsVal :=
  match fs with
  | [] => VUndef
  | (k', v) :: fs' => if (k =? k')%string then v else lookupField k fs'
  end.

(** [v?.k] for the property names the script probes.  None of them is
    defined on the prototypes of strings, numbers, booleans or arrays, so
    only an object's own fields can answer. *)
Definition optGet (v : JsVal) (k : string) : JsVal :=
  match v with
  | VObj _ fs => lookupField k fs
  | _ => VUndef
  end.

Definition Array_isArray (v : JsVal) : bool :=
  match v with VArr _ _ => true | _ => false end.

Definition isString (v : JsVal) : bool :=
  match v with VStr _ => true | _ => false end.

(** An object in the sense of the specification: a non-null value whose
    [typeof] is "object". *)
Definition isObject (v : JsVal) : bool :=
  match v with VObj _ _ | VArr _ _ => true | _ => false end.

(** The decimal digits of an integer, which is how a double prints an
    integer below 2^53 in magnitude (see [inRange]). *)
Definition decimal (z : Z) : string := NilZero.string_of_int (Z.to_int z).

Definition numToString (n : JsNum) : string :=
  match n with NaN => "NaN" | Num z => decimal z end.

(** ToString, as a template literal applies it, where it returns.  An
    array joins its elements with commas, writing nothing for null and
    undefined.  [toStringRaises] below says when the conversion throws
    instead. *)
Fixpoint toString (v : JsVal) : string :=
  match v with
  | VUndef => "undefined"
  | VNull => "null"
  | VBool true => "true"
  | VBool false => "false"
  | VNum n => numToString n
  | VStr s => s
  | VObj _ _ => "[object Object]"
  | VArr _ items =>
      let elem (x : JsVal) := if nullish x then "" else toString x in
      (fix join (l : list JsVal) : string :=
         match l with
         | [] => ""
         | [x] => elem x
         | x :: l' => elem x ++ "," ++ join l'
         end) items
  end.

Definition hasOwn (k : string) (fs : list (string * JsVal)) : bool :=
  existsb (fun f => (fst f =? k)%string) fs.

(** Whether converting [v] to a primitive throws a TypeError, be it by
    ToString (a template literal, [setAttribute]), by ToNumber or by
    [new Date(v)].  An object converts through its [toString] method, and
    an own key of that name, which in parsed JSON never holds a function,
    hides the inherited one; an array converts through [join], which
    converts every element that is not null or undefined. *)
Fixpoint toStringRaises (v : JsVal) : bool :=
  match v with
  | VObj _ fs => hasOwn "toString" fs
  | VArr _ items =>
      (fix any (l : list JsVal) : bool :=
         match l with
         | [] => false
         | x :: l' => (negb (nullish x) && toStringRaises x) || any l'
         end) items
  | _ => false
  end.

(** Whether [v] lies within the numbers of the embedding: every integer
    in it is below 2^53 in magnitude, where a double holds it exactly and
    prints it in full decimal, as [decimal] does. *)
Fixpoint inRange (v : JsVal) : bool :=
  match v with
  | VNum (Num z) => (Z.abs z <? 2 ^ 53)%Z
  | VObj _ fs =>
      (fix all (l : list (string * JsVal)) : bool :=
         match l with
         | [] => true
         | (_, x) :: l' => inRange x && all l'
         end) fs
  | VArr _ items =>
      (fix all (l : list JsVal) : bool :=
         match l with
         | [] => true
         | x :: l' => inRange x && all l'
         end) items
  | _ => true
  end.

(** SameValueZero, the equality of [Map] keys: primitives by value (NaN
    equals NaN), objects and arrays by identity. *)
Definition sameValueZero (a b : JsVal) : bool :=
  match a, b with
  | VUndef, VUndef => true
  | VNull, VNull => true
  | VBool x, VBool y => Bool.eqb x y
  | VNum NaN, VNum NaN => true
  | VNum (Num x), VNum (Num y) => (x =? y)%Z
  | VStr x, VStr y => (x =? y)%string
  | VObj r _, VObj r' _ => (r =? r')%positive
  | VArr r _, VArr r' _ => (r =? r')%positive
  | _, _ => false
  end.

(** The platform functions the script calls and the embedding leaves
    open. *)
Record Browser : Type := {
  (** [Date.parse] on a string *)
  dateParse : string -> JsNum;
  (** StringToNumber, the string case of ToNumber *)
  stringToNumber : string -> JsNum;
  (** whether [new URL(x)] accepts [x] *)
  urlParses : JsVal -> bool;
  (** whether [new WebSocket(url)] returns instead of throwing *)
  socketConstructs : JsVal -> bool;
  (** [JSON.parse]; [None] when it throws *)
  jsonParse : string -> option JsVal
}.

(** TimeClip on an integer time value. *)
Definition timeClip (z : Z) : JsNum :=
  if (Z.abs z <=? 8640000000000000)%Z then Num z else NaN.

(** [new Date(v).getTime()], where the conversion of [v] returns
    ([toStringRaises] says when it does not).  A string is parsed, an
    object or array is first converted to its string, anything else goes
    through ToNumber. *)
Definition dateGetTime (B : Browser) (v : JsVal) : JsNum :=
  match v with
  | VUndef => NaN
  | VNull => Num 0
  | VBool b => Num (if b then 1 else 0)
  | VNum NaN => NaN
  | VNum (Num z) => timeClip z
  | VStr s => dateParse B s
  | VObj _ _ | VArr _ _ => dateParse B (toString v)
  end.

Definition toNumber (B : Browser) (v : JsVal) : JsNum :=
  match v with
  | VUndef => NaN
  | VNull => Num 0
  | VBool b => Num (if b then 1 else 0)
  | VNum n => n
  | VStr s => stringToNumber B s
  | VObj _ _ | VArr _ _ => stringToNumber B (toString v)
  end.

Definition numSub (a b : JsNum) : JsNum :=
  match a, b with
  | Num x, Num y => Num (x - y)
  | _, _ => NaN
  end.

(** White space and line terminators below 256, as [trim] removes them. *)
Definition isWhiteSpace (c : ascii) : bool :=
  let n := nat_of_ascii c in
  ((9 <=? n) && (n <=? 13) || (n =? 32) || (n =? 160))%nat.

Fixpoint trimStart (s : string) : string :=
  match s with
  | EmptyString => EmptyString
  | String c s' => if isWhiteSpace c then trimStart s' else s
  end.

Fixpoint trimEnd (s : string) : string :=
  match s with
  | EmptyString => EmptyString
  | String c s' =>
      let t := trimEnd s' in
      if isWhiteSpace c && (t =? "")%string then EmptyString else String c t
  end.

Definition trim (s : string) : string := trimEnd (trimStart s).

End JS.

Import JS.

Declare Scope js_scope.
Delimit Scope js_scope with js.
Notation "a ?? b" := (coalesce a b) (at level 62, right associativity) : js_scope.
Notation "a <|> b" := (orElse a b) (at level 62, right associativity) : js_scope.
Notation "v ?. k" := (optGet v k) (at level 25, left associativity) : js_scope.
Local Open Scope js_scope.

(** ** State: the script's [state] object, the page and the pending work *)

(** The canonical record [normalizeMessage] returns.  Each field holds
    whatever value the payload supplied: nothing converts it. *)
Record Message : Type := {
  id : JsVal;
  userName : JsVal;
  message : JsVal;
  timestamp : JsVal
}.

(** The clock and the random source, as one call of [normalizeMessage]
    reads them: [Date.now()] inside the synthesized id, the base-36 digits
    of [Math.random()], and [Date.now()] for the timestamp. *)
Record Entropy : Type := {
  dateNowId : Z;
  mathRandom : string;
  dateNowTs : Z
}.

(** The URL [connectWebSocket] builds: [state.wsUrl] with the query
    parameters [token] and [username]. *)
Record Url : Type := {
  href : JsVal;
  paramToken : JsVal;
  paramUsername : option string
}.

(** A [Map]: entries in insertion order, keys compared by SameValueZero. *)
Definition JsMap : Type := list (JsVal * Message).
Bind Scope list_scope with JsMap.

Record State : Type := {
  username : option string;
  token : JsVal;
  wsUrl : JsVal;
  ws : option Url;
  wsBackoffMs : Z;
  wsMaxBackoffMs : Z;
  connected : bool;
  messages : JsMap
}.

Inductive Alert : Type :=
| AlertEnterCredentials
| AlertLoginFailed
| AlertSendFailed.

(** The part of the page the handlers read and write. *)
Record Dom : Type := {
  statusConnected : bool;
  statusText : string;
  messagesContainer : list Message;
  messageInput : string;
  sendBtnDisabled : bool;
  loginBtnDisabled : bool;
  chatVisible : bool
}.

Inductive Request : Type :=
| PostLogin (user password : string)
| GetStoredMessages (tok : JsVal)
| PostAddMessages (senderId : option string) (content : string) (tok : JsVal).

(** What the script has handed to the browser: pending reconnect timers
    (their delays), sockets with listeners attached, requests issued,
    every delay ever passed to [setTimeout(connectWebSocket, _)], alerts
    shown, and the awaits that have not resumed yet. *)
Record Env : Type := {
  timers : list Z;
  sockets : list Url;
  outbox : list Request;
  scheduled : list Z;
  alerts : list Alert;
  pendingLogins : list string;
  pendingHistory : nat;
  pendingSends : nat
}.

Record World : Type := {
  state : State;
  dom : Dom;
  env : Env
}.

Inductive Completion : Type :=
| Normal
| Throw.

Definition initialState : State :=
  {| username := None; token := VNull; wsUrl := VNull; ws := None;
     wsBackoffMs := 500; wsMaxBackoffMs := 15000; connected := false;
     messages := [] |}.

(** The page after the script's last line,
    [setConnectionStatus(false, 'Disconnected')]. *)
Definition initialDom : Dom :=
  {| statusConnected := false; statusText := "Disconnected";
     messagesContainer := []; messageInput := ""; sendBtnDisabled := false;
     loginBtnDisabled := false; chatVisible := false |}.

Definition initialEnv : Env :=
  {| timers := []; sockets := []; outbox := []; scheduled := [];
     alerts := []; pendingLogins := []; pendingHistory := 0%nat;
     pendingSends := 0%nat |}.

Definition initialWorld : World :=
  {| state := initialState; dom := initialDom; env := initialEnv |}.

(** Field updates. *)
Definition withState (f : State -> State) (w : World) : World :=
  {| state := f (state w); dom := dom w; env := env w |}.
Definition withDom (f : Dom -> Dom) (w : World) : World :=
  {| state := state w; dom := f (dom w); env := env w |}.
Definition withEnv (f : Env -> Env) (w : World) : World :=
  {| state := state w; dom := dom w; env := f (env w) |}.

Definition setSession (u : option string) (t url : JsVal) (s : State) : State :=
  {| username := u; token := t; wsUrl := url; ws := ws s;
     wsBackoffMs := wsBackoffMs s; wsMaxBackoffMs := wsMaxBackoffMs s;
     connected := connected s; messages := messages s |}.
Definition setWs (x : option Url) (s : State) : State :=
  {| username := username s; token := token s; wsUrl := wsUrl s; ws := x;
     wsBackoffMs := wsBackoffMs s; wsMaxBackoffMs := wsMaxBackoffMs s;
     connected := connected s; messages := messages s |}.
Definition setWsBackoffMs (b : Z) (s : State) : State :=
  {| username := username s; token := token s; wsUrl := wsUrl s; ws := ws s;
     wsBackoffMs := b; wsMaxBackoffMs := wsMaxBackoffMs s;
     connected := connected s; messages := messages s |}.
Definition setConnected (c : bool) (s : State) : State :=
  {| username := username s; token := token s; wsUrl := wsUrl s; ws := ws s;
     wsBackoffMs := wsBackoffMs s; wsMaxBackoffMs := wsMaxBackoffMs s;
     connected := c; messages := messages s |}.
Definition setMessages (m : JsMap) (s : State) : State :=
  {| username := username s; token := token s; wsUrl := wsUrl s; ws := ws s;
     wsBackoffMs := wsBackoffMs s; wsMaxBackoffMs := wsMaxBackoffMs s;
     connected := connected s; messages := m |}.

Definition setStatus (c : bool) (t : string) (d : Dom) : Dom :=
  {| statusConnected := c; statusText := t;
     messagesContainer := messagesContainer d; messageInput := messageInput d;
     sendBtnDisabled := sendBtnDisabled d;
     loginBtnDisabled := loginBtnDisabled d; chatVisible := chatVisible d |}.
Definition setMessagesContainer (l : list Message) (d : Dom) : Dom :=
  {| statusConnected := statusConnected d; statusText := statusText d;
     messagesContainer := l; messageInput := messageInput d;
     sendBtnDisabled := sendBtnDisabled d;
     loginBtnDisabled := loginBtnDisabled d; chatVisible := chatVisible d |}.
Definition setMessageInput (v : string) (d : Dom) : Dom :=
  {| statusConnected := statusConnected d; statusText := statusText d;
     messagesContainer := messagesContainer d; messageInput := v;
     sendBtnDisabled := sendBtnDisabled d;
     loginBtnDisabled := loginBtnDisabled d; chatVisible := chatVisible d |}.
Definition setSendBtnDisabled (b : bool) (d : Dom) : Dom :=
  {| statusConnected := statusConnected d; statusText := statusText d;
     messagesContainer := messagesContainer d; messageInput := messageInput d;
     sendBtnDisabled := b;
     loginBtnDisabled := loginBtnDisabled d; chatVisible := chatVisible d |}.
Definition setLoginBtnDisabled (b : bool) (d : Dom) : Dom :=
  {| statusConnected := statusConnected d; statusText := statusText d;
     messagesContainer := messagesContainer d; messageInput := messageInput d;
     sendBtnDisabled := sendBtnDisabled d;
     loginBtnDisabled := b; chatVisible := chatVisible d |}.
Definition setChatVisible (b : bool) (d : Dom) : Dom :=
  {| statusConnected := statusConnected d; statusText := statusText d;
     messagesContainer := messagesContainer d; messageInput := messageInput d;
     sendBtnDisabled := sendBtnDisabled d;
     loginBtnDisabled := loginBtnDisabled d; chatVisible := b |}.

Definition setTimers (l : list Z) (e : Env) : Env :=
  {| timers := l; sockets := sockets e; outbox := outbox e;
     scheduled := scheduled e; alerts := alerts e;
     pendingLogins := pendingLogins e; pendingHistory := pendingHistory e;
     pendingSends := pendingSends e |}.
Definition setSockets (l : list Url) (e : Env) : Env :=
  {| timers := timers e; sockets := l; outbox := outbox e;
     scheduled := scheduled e; alerts := alerts e;
     pendingLogins := pendingLogins e; pendingHistory := pendingHistory e;
     pendingSends := pendingSends e |}.
Definition pushRequest (r : Request) (e : Env) : Env :=
  {| timers := timers e; sockets := sockets e; outbox := outbox e ++ [r];
     scheduled := scheduled e; alerts := alerts e;
     pendingLogins := pendingLogins e; pendingHistory := pendingHistory e;
     pendingSends := pendingSends e |}.
Definition pushTimer (d : Z) (e : Env) : Env :=
  {| timers := timers e ++ [d]; sockets := sockets e; outbox := outbox e;
     scheduled := scheduled e ++ [d]; alerts := alerts e;
     pendingLogins := pendingLogins e; pendingHistory := pendingHistory e;
     pendingSends := pendingSends e |}.
Definition pushAlert (a : Alert) (e : Env) : Env :=
  {| timers := timers e; sockets := sockets e; outbox := outbox e;
     scheduled := scheduled e; alerts := alerts e ++ [a];
     pendingLogins := pendingLogins e; pendingHistory := pendingHistory e;
     pendingSends := pendingSends e |}.
Definition setPending (l : list string) (h s : nat) (e : Env) : Env :=
  {| timers := timers e; sockets := sockets e; outbox := outbox e;
     scheduled := scheduled e; alerts := alerts e;
     pendingLogins := l; pendingHistory := h; pendingSends := s |}.

(** [statusText.textContent = text || 'Connected'] and its counterpart. *)
Definition setConnectionStatus (c : bool) (text : string) (w : World) : World :=
  let shown :=
    if (text =? "")%string
    then (if c then "Connected" else "Disconnected")
    else text in
  withDom (setStatus c shown) w.

(** ** Message handling *)

Definition Map_has (m : JsMap) (k : JsVal) : bool :=
  existsb (fun e => sameValueZero (fst e) k) m.

(** [Map.prototype.set]: a present key keeps its place and takes the new
    value, an absent one is appended. *)
Fixpoint Map_set (m : JsMap) (k : JsVal) (v : Message) : JsMap :=
  match m with
  | [] => [(k, v)]
  | (k', v') :: m' =>
      if sameValueZero k' k then (k', v) :: m' else (k', v') :: Map_set m' k v
  end.

(** The template literal that stands in for a missing id. *)
Definition synthesizedId (e : Entropy) (obj : JsVal) : JsVal :=
  VStr (toString (obj ?. "senderId" <|> obj ?. "userName" <|>
                  obj ?. "username" <|> VStr "user")
        ++ "-"
        ++ toString (obj ?. "createdAt" <|> obj ?. "timestamp" <|>
                     VNum (Num (dateNowId e)))
        ++ "-" ++ mathRandom e).

(** [normalizeMessage(raw)]; [None] is the script's [null].  The object
    literal [{ message: m }] wrapped around a string never leaves the
    function, so its address is immaterial. *)
Definition normalizeMessage (B : Browser) (e : Entropy) (raw : JsVal)
  : option Message :=
  let m := raw ?. "payload" ?. "message" ?? raw ?. "data" ?. "message" ??
           raw ?. "message" ?? raw ?. "payload" ?? raw ?. "data" ?? raw in
  if negb (truthy m)
     || (negb (isTObject (typeof m)) && negb (isTString (typeof m)))
  then
    if isTString (typeof raw)
    then Some {| id := VUndef; userName := VStr "unknown"; message := raw;
                 timestamp := VNum (Num (dateNowTs e)) |}
    else None
  else
    let obj := if isTString (typeof m)
               then VObj 1%positive [("message", m)] else m in
    Some {| id := obj ?. "id" ?? obj ?. "messageId" ?? obj ?. "pk" ??
                  obj ?. "sk" ?? synthesizedId e obj;
            userName := obj ?. "senderId" ?? obj ?. "userName" ??
                        obj ?. "username" ?? obj ?. "user" ??
                        obj ?. "author" ?? VStr "unknown";
            message := obj ?. "content" ?? obj ?. "message" ??
                       obj ?. "text" ?? obj ?. "body" ?? VStr "";
            timestamp := if truthy (obj ?. "createdAt")
                         then VNum (dateGetTime B (obj ?. "createdAt"))
                         else obj ?. "timestamp" ?? VNum (Num (dateNowTs e)) |}.

(** [el(tag, attrs, c)] appends the children after flattening arrays one
    level; a child that is neither a string nor a node makes
    [appendChild] throw. *)
Definition appendable (c : JsVal) : bool :=
  match c with
  | VStr _ => true
  | VArr _ items => forallb isString items
  | _ => false
  end.

(** Whether building the message node throws: [generateAvatarUrl] calls
    [charCodeAt] on the author, the bubble appends the body as a child,
    [setAttribute('data-id', msg.id)] converts an id that is not null or
    undefined to a string, and [formatTime] hands the timestamp to
    [new Date]. *)
Definition renderThrows (msg : Message) : bool :=
  negb (isString (userName msg)) || negb (appendable (message msg))
  || toStringRaises (id msg) || toStringRaises (timestamp msg).

(** [renderMessage(msg)].  The entry is written to [state.messages]
    before the node is built, so a throw leaves the message stored and
    not shown.  The node is recorded by the message it shows. *)
Definition renderMessage (w : World) (msg : option Message)
  : World * Completion :=
  match msg with
  | None => (w, Normal)
  | Some m =>
      if Map_has (messages (state w)) (id m) then (w, Normal)
      else
        let w1 := withState
                    (setMessages (Map_set (messages (state w)) (id m) m)) w in
        if renderThrows m then (w1, Throw)
        else (withDom (setMessagesContainer
                         (messagesContainer (dom w1) ++ [m])) w1, Normal)
  end.

(** [list.forEach(renderMessage)]: a throw ends the loop. *)
Fixpoint forEachRender (w : World) (l : list Message) : World * Completion :=
  match l with
  | [] => (w, Normal)
  | m :: l' =>
      match renderMessage w (Some m) with
      | (w', Normal) => forEachRender w' l'
      | (w', Throw) => (w', Throw)
      end
  end.

(** [raws.map(normalizeMessage)]: the i-th call reads [ents i]. *)
Fixpoint mapNormalize (B : Browser) (ents : nat -> Entropy) (i : nat)
  (raws : list JsVal) : list (option Message) :=
  match raws with
  | [] => []
  | raw :: raws' =>
      normalizeMessage B (ents i) raw :: mapNormalize B ents (S i) raws'
  end.

(** [.filter(Boolean)] on the outcome of the map. *)
Fixpoint filterBoolean (l : list (option Message)) : list Message :=
  match l with
  | [] => []
  | Some m :: l' => m :: filterBoolean l'
  | None :: l' => filterBoolean l'
  end.

(** *** The calls with their exceptions

    [normalizeMessage] above is the value the call returns.  The call can
    also end in a TypeError, where a value of the payload has to be
    converted to a string (in the template literal of the synthesized id)
    or to a time ([new Date(obj.createdAt)]) and cannot be. *)

Inductive Result (A : Type) : Type :=
| Returned (a : A)
| Thrown.
Arguments Returned {A} a.
Arguments Thrown {A}.

Definition toStringJs (v : JsVal) : Result string :=
  if toStringRaises v then Thrown else Returned (toString v).

(** The template literal, its two conversions in the order they occur. *)
Definition synthesizedIdJs (e : Entropy) (obj : JsVal) : Result JsVal :=
  match toStringJs (obj ?. "senderId" <|> obj ?. "userName" <|>
                    obj ?. "username" <|> VStr "user") with
  | Thrown => Thrown
  | Returned who =>
      match toStringJs (obj ?. "createdAt" <|> obj ?. "timestamp" <|>
                        VNum (Num (dateNowId e))) with
      | Thrown => Thrown
      | Returned when_ =>
          Returned (VStr (who ++ "-" ++ when_ ++ "-" ++ mathRandom e))
      end
  end.

Definition dateGetTimeJs (B : Browser) (v : JsVal) : Result JsNum :=
  if toStringRaises v then Thrown else Returned (dateGetTime B v).

(** [normalizeMessage(raw)] as a call: the object literal evaluates [id]
    first, whose template is reached only when no id key is present, then
    [timestamp]. *)
Definition normalizeMessageJs (B : Browser) (e : Entropy) (raw : JsVal)
  : Result (option Message) :=
  let m := raw ?. "payload" ?. "message" ?? raw ?. "data" ?. "message" ??
           raw ?. "message" ?? raw ?. "payload" ?? raw ?. "data" ?? raw in
  if negb (truthy m)
     || (negb (isTObject (typeof m)) && negb (isTString (typeof m)))
  then
    Returned
      (if isTString (typeof raw)
       then Some {| id := VUndef; userName := VStr "unknown"; message := raw;
                    timestamp := VNum (Num (dateNowTs e)) |}
       else None)
  else
    let obj := if isTString (typeof m)
               then VObj 1%positive [("message", m)] else m in
    let given := obj ?. "id" ?? obj ?. "messageId" ?? obj ?. "pk" ??
                 obj ?. "sk" ?? VUndef in
    match (if nullish given then synthesizedIdJs e obj else Returned given) with
    | Thrown => Thrown
    | Returned theId =>
        match (if truthy (obj ?. "createdAt")
               then match dateGetTimeJs B (obj ?. "createdAt") with
                    | Thrown => Thrown
                    | Returned t => Returned (VNum t)
                    end
               else Returned (obj ?. "timestamp" ??
                              VNum (Num (dateNowTs e)))) with
        | Thrown => Thrown
        | Returned theTime =>
            Returned
              (Some {| id := theId;
                       userName := obj ?. "senderId" ?? obj ?. "userName" ??
                                   obj ?. "username" ?? obj ?. "user" ??
                                   obj ?. "author" ?? VStr "unknown";
                       message := obj ?. "content" ?? obj ?. "message" ??
                                  obj ?. "text" ?? obj ?. "body" ?? VStr "";
                       timestamp := theTime |})
        end
    end.

(** [raws.map(normalizeMessage)] as a call: the first element that throws
    ends the map. *)
Fixpoint mapNormalizeJs (B : Browser) (ents : nat -> Entropy) (i : nat)
  (raws : list JsVal) : Result (list (option Message)) :=
  match raws with
  | [] => Returned []
  | raw :: raws' =>
      match normalizeMessageJs B (ents i) raw with
      | Thrown => Thrown
      | Returned r =>
          match mapNormalizeJs B ents (S i) raws' with
          | Thrown => Thrown
          | Returned l => Returned (r :: l)
          end
      end
  end.

(** The comparator [(a, b) => (a.timestamp || 0) - (b.timestamp || 0)],
    where the subtraction returns; it throws when a timestamp cannot be
    converted to a number ([toStringRaises]). *)
Definition compareTimestamps (B : Browser) (a b : Message) : JsNum :=
  numSub (toNumber B (timestamp a <|> VNum (Num 0)))
         (toNumber B (timestamp b <|> VNum (Num 0))).

(** How [Array.prototype.sort] reads a comparator's result: positive
    means "a after b"; NaN counts as 0. *)
Definition comesAfter (n : JsNum) : bool :=
  match n with
  | Num z => (0 <? z)%Z
  | NaN => false
  end.

Section ArraySort.
Variable cmp : Message -> Message -> JsNum.

Fixpoint sortInsert (x : Message) (l : list Message) : list Message :=
  match l with
  | [] => [x]
  | y :: l' => if comesAfter (cmp x y) then y :: sortInsert x l' else x :: l
  end.

(** [Array.prototype.sort(cmp)], which the language requires to be
    stable.  With a consistent comparator every conforming engine
    returns the one stable ordering, which this insertion sort computes;
    with an inconsistent one the order is the engine's choice and this
    definition fixes one. *)
Fixpoint Array_sort (l : list Message) : list Message :=
  match l with
  | [] => []
  | x :: l' => sortInsert x (Array_sort l')
  end.
End ArraySort.

(** Whether the chain of [renderInitialMessages] throws before it
    reaches [forEach]: in the map, or in the comparator, which a sort of
    two or more elements calls on every one of them. *)
Definition batchRaises (B : Browser) (ents : nat -> Entropy)
  (raws : list JsVal) : bool :=
  match mapNormalizeJs B ents 0%nat raws with
  | Thrown => true
  | Returned l =>
      (2 <=? List.length (filterBoolean l))%nat
      && existsb (fun m => toStringRaises (timestamp m)) (filterBoolean l)
  end.

(** The array [renderInitialMessages] hands to [forEach], when the chain
    gets there. *)
Definition initialBatch (B : Browser) (ents : nat -> Entropy)
  (raws : list JsVal) : list Message :=
  Array_sort (compareTimestamps B)
             (filterBoolean (mapNormalize B ents 0%nat raws)).

(** [renderInitialMessages(messages)] for a batch on which the map and
    the comparator return. *)
Definition renderInitialMessages (B : Browser) (ents : nat -> Entropy)
  (w : World) (msgs : JsVal) : World * Completion :=
  match msgs with
  | VArr _ raws => forEachRender w (initialBatch B ents raws)
  | _ => (w, Normal)
  end.

(** [renderInitialMessages(messages)] as a call: a throw in the map or in
    the comparator ends it before anything is admitted. *)
Definition renderInitialMessagesJs (B : Browser) (ents : nat -> Entropy)
  (w : World) (msgs : JsVal) : World * Completion :=
  match msgs with
  | VArr _ raws =>
      if batchRaises B ents raws then (w, Throw)
      else renderInitialMessages B ents w msgs
  | _ => (w, Normal)
  end.

(** ** WebSocket management *)

(** [setTimeout(connectWebSocket,
                Math.min(state.wsBackoffMs *= 2, state.wsMaxBackoffMs))]:
    the stored backoff is doubled first and the doubled value, capped, is
    the delay.  The expression occurs twice in the script, in the [catch]
    around the constructor and in the close listener.  The stored value
    is an integer here; the double it stands for is that integer for
    1015 doublings from 500 and Infinity afterwards, with the same
    delay. *)
Definition scheduleReconnect (w : World) : World :=
  let doubled := wsBackoffMs (state w) * 2 in
  let w1 := withState (setWsBackoffMs doubled) w in
  withEnv (pushTimer (Z.min doubled (wsMaxBackoffMs (state w1)))) w1.

(** [connectWebSocket()].  [new URL] and [searchParams.set('token', _)],
    which converts the token to a string, stand outside the [try]. *)
Definition connectWebSocket (B : Browser) (w : World) : World * Completion :=
  if negb (truthy (wsUrl (state w))) || negb (truthy (token (state w)))
  then (setConnectionStatus false "Missing WebSocket URL" w, Normal)
  else if negb (urlParses B (wsUrl (state w)))
          || toStringRaises (token (state w))
  then (w, Throw)
  else
    let url := {| href := wsUrl (state w);
                  paramToken := token (state w);
                  paramUsername := username (state w) |} in
    if socketConstructs B (href url)
    then (withEnv (fun e => setSockets (sockets e ++ [url]) e)
            (withState (setWs (Some url)) w), Normal)
    else (scheduleReconnect w, Normal).

(** The open listener. *)
Definition onOpen (w : World) : World :=
  setConnectionStatus true "Connected"
    (withState (setWsBackoffMs 500)
       (withState (setConnected true) w)).

(** The message listener; [evData] is the text of the frame. *)
Definition onMessage (B : Browser) (ents : nat -> Entropy) (w : World)
  (evData : string) : World * Completion :=
  let data := match jsonParse B evData with
              | Some v => v
              | None => VStr evData
              end in
  match data ?. "messages" with
  | VArr _ raws =>
      match mapNormalizeJs B ents 0%nat raws with
      | Thrown => (w, Throw)
      | Returned l => forEachRender w (filterBoolean l)
      end
  | _ =>
      match normalizeMessageJs B (ents 0%nat) data with
      | Thrown => (w, Throw)
      | Returned (Some msg) => renderMessage w (Some msg)
      | Returned None => (w, Normal)
      end
  end.

(** The close listener. *)
Definition onClose (w : World) : World :=
  scheduleReconnect
    (withState (setWs None)
       (setConnectionStatus false "Reconnecting..."
          (withState (setConnected false) w))).

(** ** Authentication *)

(** How an awaited [postJSON] settles: it rejects, or resolves to the
    parsed body ([{}] when the body is not JSON, which [postJSON] itself
    substitutes). *)
Inductive PostOutcome : Type :=
| Rejected
| Resolved (res : JsVal).

(** How the history request settles: [fetch] rejects, the response is not
    ok, its body is not JSON, or it parses to [data]. *)
Inductive HistoryOutcome : Type :=
| FetchRejected
| NotOk
| BodyNotJson
| Body (data : JsVal).

(** The [catch] and [finally] of [handleLogin]. *)
Definition loginCatch (w : World) : World :=
  setConnectionStatus false "Login failed"
    (withEnv (pushAlert AlertLoginFailed) w).
Definition loginFinally (w : World) : World :=
  withDom (setLoginBtnDisabled false) w.

(** [handleLogin] up to [await postJSON('/login', ...)]. *)
Definition handleLogin (w : World) (loginUsername loginPassword : string)
  : World :=
  let user := trim loginUsername in
  if (user =? "")%string || (loginPassword =? "")%string
  then withEnv (pushAlert AlertEnterCredentials) w
  else
    withEnv (fun e => setPending (pendingLogins e ++ [user])
                        (pendingHistory e) (pendingSends e)
                        (pushRequest (PostLogin user loginPassword) e))
      (setConnectionStatus false "Signing in..."
         (withDom (setLoginBtnDisabled true) w)).

(** The end of [handleLogin], from
    [setConnectionStatus(false, 'Connecting...')] on. *)
Definition handleLogin_connect (B : Browser) (w : World) : World :=
  match connectWebSocket B (setConnectionStatus false "Connecting..." w) with
  | (w2, Normal) => loginFinally w2
  | (w2, Throw) => loginFinally (loginCatch w2)
  end.

(** [handleLogin] from the login response to [await fetch(...)] of the
    history; [user] is the name the closure captured.  The argument of
    [fetch] converts the token to a string inside the inner [try]: when
    that throws no request is made, the inner [catch] logs it and the
    function runs on to its end in the same turn. *)
Definition handleLogin_afterLogin (B : Browser) (w : World) (user : string)
  (r : PostOutcome) : World :=
  match r with
  | Rejected => loginFinally (loginCatch w)
  | Resolved res =>
      if nullish res then loginFinally (loginCatch w)
      else if truthy (res ?. "token") then
        let w1 := withState
                    (setSession (Some user) (res ?. "token")
                       (res ?. "wsUrl" <|> res ?. "websocketUrl" <|> VNull)) w in
        let w2 := setConnectionStatus false "Loading messages..."
                    (withDom (setChatVisible true) w1) in
        if toStringRaises (token (state w2))
        then handleLogin_connect B w2
        else
          withEnv (fun e => setPending (pendingLogins e)
                              (S (pendingHistory e)) (pendingSends e)
                              (pushRequest (GetStoredMessages (token (state w2))) e))
            w2
      else loginFinally (loginCatch w)
  end.

(** [handleLogin] from the history response to its end.  Whatever the
    inner [try] throws is caught and logged, and the function goes on to
    [connectWebSocket]. *)
Definition handleLogin_afterHistory (B : Browser) (ents : nat -> Entropy)
  (w : World) (h : HistoryOutcome) : World :=
  let w1 :=
    match h with
    | Body data =>
        if nullish data then w
        else fst (renderInitialMessagesJs B ents w
                    (data ?. "messages" <|> VArr 1%positive []))
    | _ => w
    end in
  handleLogin_connect B w1.

(** ** Message sending *)

(** [sendMessage] after the await. *)
Definition sendMessage_afterPost (w : World) (r : PostOutcome) : World :=
  let w1 := match r with
            | Resolved _ => withDom (setMessageInput "") w
            | Rejected => withEnv (pushAlert AlertSendFailed) w
            end in
  withDom (setSendBtnDisabled false) w1.

(** [sendMessage] up to [await postJSON('/addMessages', ...)].
    [postJSON] converts the token to a string for the Authorization
    header before it calls [fetch]; when that throws no request is made,
    the promise is rejected and the function resumes in its [catch]
    before any other event is handled. *)
Definition sendMessage (w : World) : World :=
  let text := trim (messageInput (dom w)) in
  if (text =? "")%string || negb (truthy (token (state w)))
  then w
  else
    let w1 := withDom (setSendBtnDisabled true) w in
    if toStringRaises (token (state w))
    then sendMessage_afterPost w1 Rejected
    else
      withEnv (fun e => setPending (pendingLogins e) (pendingHistory e)
                          (S (pendingSends e))
                          (pushRequest
                             (PostAddMessages (username (state w)) text
                                (token (state w))) e))
        w1.

(** ** The event loop *)

(** What the browser can deliver to the script.  A timer, a response or a
    socket event can only arrive for a timer that is pending, an await
    that is outstanding, a socket that has listeners. *)
Inductive Event : Type :=
| EvInput (text : string)
| EvLoginSubmit (loginUsername loginPassword : string)
| EvLoginResponse (k : nat) (r : PostOutcome)
| EvHistoryResponse (h : HistoryOutcome) (ents : nat -> Entropy)
| EvSendClick
| EvSendResponse (r : PostOutcome)
| EvTimer (k : nat)
| EvSocketOpen (k : nat)
| EvSocketMessage (k : nat) (evData : string) (ents : nat -> Entropy)
| EvSocketError (k : nat)
| EvSocketClose (k : nat).

Fixpoint removeNth {A : Type} (k : nat) (l : list A) : list A :=
  match k, l with
  | _, [] => []
  | O, _ :: l' => l'
  | S k', x :: l' => x :: removeNth k' l'
  end.

(** One turn of the event loop; [None] when the event cannot occur.  An
    exception that reaches the top of a listener is reported by the
    browser and the loop goes on with the state as the listener left
    it. *)
Definition step (B : Browser) (w : World) (ev : Event) : option World :=
  match ev with
  | EvInput text => Some (withDom (setMessageInput text) w)
  | EvLoginSubmit u p => Some (handleLogin w u p)
  | EvLoginResponse k r =>
      match nth_error (pendingLogins (env w)) k with
      | Some user =>
          Some (handleLogin_afterLogin B
                  (withEnv (fun e => setPending (removeNth k (pendingLogins e))
                                       (pendingHistory e) (pendingSends e) e) w)
                  user r)
      | None => None
      end
  | EvHistoryResponse h ents =>
      match pendingHistory (env w) with
      | S n =>
          Some (handleLogin_afterHistory B ents
                  (withEnv (fun e => setPending (pendingLogins e) n
                                       (pendingSends e) e) w) h)
      | O => None
      end
  | EvSendClick => Some (sendMessage w)
  | EvSendResponse r =>
      match pendingSends (env w) with
      | S n =>
          Some (sendMessage_afterPost
                  (withEnv (fun e => setPending (pendingLogins e)
                                       (pendingHistory e) n e) w) r)
      | O => None
      end
  | EvTimer k =>
      match nth_error (timers (env w)) k with
      | Some _ =>
          Some (fst (connectWebSocket B
                       (withEnv (fun e => setTimers (removeNth k (timers e)) e) w)))
      | None => None
      end
  | EvSocketOpen k =>
      match nth_error (sockets (env w)) k with
      | Some _ => Some (onOpen w)
      | None => None
      end
  | EvSocketMessage k evData ents =>
      match nth_error (sockets (env w)) k with
      | Some _ => Some (fst (onMessage B ents w evData))
      | None => None
      end
  | EvSocketError k =>
      match nth_error (sockets (env w)) k with
      | Some _ => Some w
      | None => None
      end
  | EvSocketClose k =>
      match nth_error (sockets (env w)) k with
      | Some _ =>
          Some (onClose
                  (withEnv (fun e => setSockets (removeNth k (sockets e)) e) w))
      | None => None
      end
  end.

Fixpoint run (B : Browser) (w : World) (evs : list Event) : option World :=
  match evs with
  | [] => Some w
  | ev :: evs' =>
      match step B w ev with
      | Some w' => run B w' evs'
      | None => None
      end
  end.

(** The events of the live channel and its reconnect timer. *)
Definition isConnectionEvent (ev : Event) : bool :=
  match ev with
  | EvTimer _ | EvSocketOpen _ | EvSocketMessage _ _ _
  | EvSocketError _ | EvSocketClose _ => true
  | _ => false
  end.

(** The messages an event brings in from the server, normalised: the
    history batch, or the content of a frame. *)
Definition inboundMessages (B : Browser) (ev : Event) : list Message :=
  match ev with
  | EvHistoryResponse (Body data) ents =>
      match data ?. "messages" <|> VArr 1%positive [] with
      | VArr _ raws => initialBatch B ents raws
      | _ => []
      end
  | EvSocketMessage _ evData ents =>
      let data := match jsonParse B evData with
                  | Some v => v
                  | None => VStr evData
                  end in
      match data ?. "messages" with
      | VArr _ raws => filterBoolean (mapNormalize B ents 0%nat raws)
      | _ =>
          match normalizeMessage B (ents 0%nat) data with
          | Some msg => [msg]
          | None => []
          end
      end
  | _ => []
  end.

(** One connection failure as the script meets it: the socket closes,
    the reconnect timer fires and [connectWebSocket] runs again. *)
Fixpoint failures (n : nat) : list Event :=
  match n with
  | O => []
  | S n' => EvSocketClose 0 :: EvTimer 0 :: failures n'
  end.

(** Whether [connectWebSocket] gets as far as attaching listeners. *)
Definition canConnect (B : Browser) (w : World) : bool :=
  truthy (wsUrl (state w)) && truthy (token (state w))
  && urlParses B (wsUrl (state w))
  && negb (toStringRaises (token (state w)))
  && socketConstructs B (wsUrl (state w)).

(** ** Measures on the store used by the statements *)

(** The entries of the store whose message has the id [k]. *)
Definition entriesWithId (k : JsVal) (m : JsMap) : JsMap :=
  filter (fun e => sameValueZero (id (snd e)) k) m.

(** The [Map] invariant on the list that represents it: no key occurs
    twice, and every message sits under its own id. *)
Fixpoint storeOk (m : JsMap) : bool :=
  match m with
  | [] => true
  | (k, v) :: m' =>
      sameValueZero k (id v) && negb (Map_has m' k) && storeOk m'
  end.

(** The sort key of a message whose timestamp is a number. *)
Definition sentAt (m : Message) : Z :=
  match timestamp m with
  | VNum (Num z) => z
  | _ => 0
  end.

Definition numericTimestamp (m : Message) : bool :=
  match timestamp m with
  | VNum (Num _) => true
  | _ => false
  end.

Definition numeric (m : Message) : Prop := numericTimestamp m = true.

(** Chronological order. *)
Definition earlier (a b : Message) : Prop := (sentAt a <= sentAt b)%Z.

(** ** Fixtures for the examples *)

Module Example.

(** A browser as far as the examples need one: the only frames they
    deliver are the texts hi, yo and the empty text, none of which is
    JSON, and they parse no date and no numeric string. *)
Definition browser : Browser :=
  {| dateParse := fun _ => NaN;
     stringToNumber := fun _ => NaN;
     urlParses := fun v => match v with
                           | VStr s => String.prefix "wss://" s
                           | _ => false
                           end;
     socketConstructs := fun _ => true;
     jsonParse := fun _ => None |}.

Definition entropy (i : nat) : Entropy :=
  {| dateNowId := 1700000000000 + Z.of_nat i;
     mathRandom := "k3x9" ++ decimal (Z.of_nat i);
     dateNowTs := 1700000000000 + Z.of_nat i |}.

(** The body of a successful login response. *)
Definition loginBody : JsVal :=
  VObj 10 [("token", VStr "tok"); ("wsUrl", VStr "wss://chat.example/ws")].

Definition historyEntry (r : positive) (key : string) (t : Z) : JsVal :=
  VObj r [("id", VStr key); ("senderId", VStr "ann");
          ("content", VStr "hello"); ("timestamp", VNum (Num t))].

Definition historyBody (entries : list JsVal) : JsVal :=
  VObj 20 [("messages", VArr 21 entries)].

(** After the login response: session set, history request in flight. *)
Definition loggedIn : option World :=
  run browser initialWorld
    [EvLoginSubmit "ann" "password1"; EvLoginResponse 0 (Resolved loginBody)].

(** After an empty history: the first socket has its listeners. *)
Definition connecting : option World :=
  match loggedIn with
  | Some w => step browser w (EvHistoryResponse (Body (historyBody [])) entropy)
  | None => None
  end.

(** The world [loggedIn] as a value. *)
Definition loggedInWorld : World :=
  Eval vm_compute in
    match loggedIn with
    | Some w => w
    | None => initialWorld
    end.

(** The world [connecting] as a value. *)
Definition connectingWorld : World :=
  Eval vm_compute in
    match connecting with
    | Some w => w
    | None => initialWorld
    end.

(** The same page with a session whose login response carried no
    channel endpoint. *)
Definition noEndpoint : World :=
  withState (setSession (Some "ann") (VStr "tok") VNull) initialWorld.

Definition hello : Message :=
  {| id := VStr "m1"; userName := VStr "ann"; message := VStr "hello";
     timestamp := VNum (Num 100) |}.

(** A history delivered out of order. *)
Definition outOfOrder : list JsVal :=
  [historyEntry 31 "a" 300; historyEntry 32 "b" 100; historyEntry 33 "c" 200].

(** A composer holding text with blanks around it, in a session. *)
Definition composing : World :=
  withDom (setMessageInput "  hello ") connectingWorld.

(** A composer holding blanks only, in a session. *)
Definition blank : World :=
  withDom (setMessageInput "   ") connectingWorld.

(** A composer holding text before anybody has logged in. *)
Definition typing : World :=
  withDom (setMessageInput "hello") initialWorld.

(** A token that cannot be converted to a string, as the login reply
    [{"token": {"toString": 1}, "wsUrl": ...}] gives, and a session with
    it and text in the composer. *)
Definition badToken : JsVal := VObj 60 [("toString", VNum (Num 1))].

Definition objectToken : World :=
  withDom (setMessageInput "hello")
    (withState (setSession (Some "ann") badToken
                  (VStr "wss://chat.example/ws")) initialWorld).

End Example.

(** ** The store component of [renderMessage], for stating invariants *)

(** What [renderMessage] does to [state.messages], on its own. *)
Definition admitOne (store : JsMap) (m : Message) : JsMap :=
  if Map_has store (id m) then store else Map_set store (id m) m.

Definition admitAll (store : JsMap) (l : list Message) : JsMap :=
  fold_left admitOne l store.

(** What the rendering collaborator sees of the messages: the store and
    the nodes in the message container. *)
Definition shown (w : World) : JsMap * list Message :=
  (messages (state w), messagesContainer (dom w)).

(** The session fields of [state]. *)
Definition session (w : World) : option string * JsVal * JsVal :=
  (username (state w), token (state w), wsUrl (state w)).

(** Either nobody has logged in, or a login has stored a truthy token. *)
Definition sessionOk (w : World) : Prop :=
  session w = (None, VNull, VNull) \/ truthy (token (state w)) = true.

(** A session exists: a login has stored a user name and a truthy
    token. *)
Definition inSession (w : World) : Prop :=
  truthy (token (state w)) = true /\ username (state w) <> None.

(** ** The rest of the script: requests, registration, keys, avatars *)

(** What [postJSON] hands to [fetch]: the URL, the Authorization header
    if any, and the value it serialises as the body.  The method is POST
    and the content type JSON throughout. *)
Record HttpRequest : Type := {
  reqUrl : string;
  reqAuthorization : option string;
  reqBody : JsVal
}.

(** What [fetch] resolves to, as far as [postJSON] looks at it: the [ok]
    flag and the outcome of [res.json()], [None] when that throws. *)
Record HttpResponse : Type := {
  resOk : bool;
  resJson : option JsVal
}.

(** [API_BASE_URL], from [window.CHAT_CONFIG] when it is set. *)
Definition API_BASE_URL (chatConfig : JsVal) : JsVal :=
  if truthy chatConfig && truthy (chatConfig ?. "API_BASE_URL")
  then chatConfig ?. "API_BASE_URL"
  else VStr "https://lzypp0ol5j.execute-api.us-east-1.amazonaws.com".

(** [postJSON(path, body, token)] up to the call of [fetch]: the two
    template literals throw when the base URL or the token cannot be
    converted to a string, and then [fetch] is not called. *)
Definition postJSON_request (chatConfig : JsVal) (path : string)
  (body tok : JsVal) : Result HttpRequest :=
  if (negb (String.prefix "http" path)
      && toStringRaises (API_BASE_URL chatConfig))
     || (truthy tok && toStringRaises tok)
  then Thrown
  else
    Returned
      {| reqUrl := if String.prefix "http" path then path
                   else toString (API_BASE_URL chatConfig) ++ path;
         reqAuthorization := if truthy tok
                             then Some ("Bearer " ++ toString tok)
                             else None;
         reqBody := body <|> VObj 1%positive [] |}.

(** [postJSON] after [fetch] settles; [None] is a rejected [fetch]. *)
Definition postJSON_settle (r : option HttpResponse) : PostOutcome :=
  match r with
  | None => Rejected
  | Some resp =>
      if resOk resp
      then Resolved match resJson resp with
                    | Some v => v
                    | None => VObj 1%positive []
                    end
      else Rejected
  end.

Definition usernameValue (u : option string) : JsVal :=
  match u with
  | Some s => VStr s
  | None => VNull
  end.

(** The call of [postJSON] behind each request the handlers issue; the
    history request goes to [fetch] directly. *)
Definition wirePost (chatConfig : JsVal) (r : Request)
  : option (Result HttpRequest) :=
  match r with
  | PostLogin user password =>
      Some (postJSON_request chatConfig "/login"
              (VObj 1%positive [("username", VStr user);
                                ("password", VStr password)]) VUndef)
  | PostAddMessages senderId content tok =>
      Some (postJSON_request chatConfig "/addMessages"
              (VObj 1%positive [("senderId", usernameValue senderId);
                                ("content", VStr content)]) tok)
  | GetStoredMessages _ => None
  end.

(** What the handlers guarantee of a request: a login carries a trimmed,
    non-empty user name and a non-empty password, a message a trimmed,
    non-empty text and a truthy token that converts to a string, a
    history request such a token. *)
Definition requestOk (r : Request) : bool :=
  match r with
  | PostLogin user password =>
      negb (user =? "")%string && (trim user =? user)%string
      && negb (password =? "")%string
  | GetStoredMessages tok => truthy tok && negb (toStringRaises tok)
  | PostAddMessages _ content tok =>
      negb (content =? "")%string && (trim content =? content)%string
      && truthy tok && negb (toStringRaises tok)
  end.

(** The sign-in / sign-up card: the [active] class of the two tabs, the
    [hidden] class of the two forms, the fields and the sign-up button. *)
Record AuthForms : Type := {
  loginTabActive : bool;
  registerTabActive : bool;
  loginFormHidden : bool;
  registerFormHidden : bool;
  loginUsernameValue : string;
  registerUsernameValue : string;
  registerPasswordValue : string;
  registerBtnDisabled : bool
}.

(** The card as the script builds it. *)
Definition initialForms : AuthForms :=
  {| loginTabActive := true; registerTabActive := false;
     loginFormHidden := false; registerFormHidden := true;
     loginUsernameValue := ""; registerUsernameValue := "";
     registerPasswordValue := ""; registerBtnDisabled := false |}.

(** [switchTab(tab)]: anything but 'login' selects the sign-up tab. *)
Definition switchTab (tab : string) (f : AuthForms) : AuthForms :=
  let toLogin := (tab =? "login")%string in
  {| loginTabActive := toLogin; registerTabActive := negb toLogin;
     loginFormHidden := negb toLogin; registerFormHidden := toLogin;
     loginUsernameValue := loginUsernameValue f;
     registerUsernameValue := registerUsernameValue f;
     registerPasswordValue := registerPasswordValue f;
     registerBtnDisabled := registerBtnDisabled f |}.

Definition setRegisterBtnDisabled (b : bool) (f : AuthForms) : AuthForms :=
  {| loginTabActive := loginTabActive f;
     registerTabActive := registerTabActive f;
     loginFormHidden := loginFormHidden f;
     registerFormHidden := registerFormHidden f;
     loginUsernameValue := loginUsernameValue f;
     registerUsernameValue := registerUsernameValue f;
     registerPasswordValue := registerPasswordValue f;
     registerBtnDisabled := b |}.

(** The three assignments after a successful registration. *)
Definition fillAfterRegister (user : string) (f : AuthForms) : AuthForms :=
  {| loginTabActive := loginTabActive f;
     registerTabActive := registerTabActive f;
     loginFormHidden := loginFormHidden f;
     registerFormHidden := registerFormHidden f;
     loginUsernameValue := user;
     registerUsernameValue := "";
     registerPasswordValue := "";
     registerBtnDisabled := registerBtnDisabled f |}.

(** What [handleRegister] shows or sends. *)
Inductive RegisterEffect : Type :=
| AlertFillAllFields
| AlertPasswordTooShort
| AlertAccountCreated
| AlertRegistrationFailed
| PostRegister (user password : string).

(** [handleRegister] up to [await postJSON('/register', ...)]. *)
Definition handleRegister (w : World) (f : AuthForms)
  : World * AuthForms * list RegisterEffect :=
  let user := trim (registerUsernameValue f) in
  let password := registerPasswordValue f in
  if (user =? "")%string || (password =? "")%string
  then (w, f, [AlertFillAllFields])
  else if (String.length password <? 8)%nat
  then (w, f, [AlertPasswordTooShort])
  else (setConnectionStatus false "Creating account..." w,
        setRegisterBtnDisabled true f,
        [PostRegister user password]).

(** [handleRegister] after the await; [user] is the name the closure
    captured.  Reading a property of a [null] response throws into the
    same [catch] as the explicit [throw]. *)
Definition handleRegister_afterPost (w : World) (f : AuthForms)
  (user : string) (r : PostOutcome)
  : World * AuthForms * list RegisterEffect :=
  let ok := match r with
            | Rejected => false
            | Resolved res =>
                negb (nullish res)
                && truthy (res ?. "message" <|> res ?. "username")
            end in
  if ok
  then (w, setRegisterBtnDisabled false
             (fillAfterRegister user (switchTab "login" f)),
        [AlertAccountCreated])
  else (setConnectionStatus false "Registration failed" w,
        setRegisterBtnDisabled false f,
        [AlertRegistrationFailed]).

(** The keydown listener of the composer. *)
Definition onKeydown (w : World) (key : string) (shiftKey : bool) : World :=
  if (key =? "Enter")%string && negb shiftKey then sendMessage w else w.

(** The palette of [generateAvatarUrl]. *)
Definition colors : list string :=
  ["#ef4444"; "#f97316"; "#f59e0b"; "#eab308"; "#84cc16"; "#22c55e";
   "#10b981"; "#14b8a6"; "#06b6d4"; "#0ea5e9"; "#3b82f6"; "#6366f1";
   "#8b5cf6"; "#a855f7"; "#d946ef"; "#ec4899"; "#f43f5e"].

(** [username.charCodeAt(0)]: NaN on the empty string. *)
Definition charCodeAt0 (s : string) : JsNum :=
  match s with
  | EmptyString => NaN
  | String c _ => Num (Z.of_nat (nat_of_ascii c))
  end.

(** [colors[username.charCodeAt(0) % colors.length]], the [color] of
    [generateAvatarUrl]; indexing with NaN gives [undefined]. *)
Definition avatarColor (user : string) : JsVal :=
  match charCodeAt0 user with
  | NaN => VUndef
  | Num z =>
      match nth_error colors (Z.to_nat (z mod Z.of_nat (List.length colors))) with
      | Some c => VStr c
      | None => VUndef
      end
  end.

(** ** Measures for the further properties *)

(** The entry [renderMessage] writes for a message. *)
Definition entryOf (m : Message) : JsVal * Message := (id m, m).

(** Whether the ids of [l] are absent from the store and from one
    another, so that every message of [l] is new when its turn comes. *)
Fixpoint allFresh (store : JsMap) (l : list Message) : bool :=
  match l with
  | [] => true
  | m :: l' =>
      negb (Map_has store (id m))
      && negb (existsb (fun m' => sameValueZero (id m) (id m')) l')
      && allFresh store l'
  end.

(** The stored messages whose node can be built. *)
Definition renderable (store : JsMap) : list Message :=
  filter (fun m => negb (renderThrows m)) (map snd store).

(** The page shows the stored messages that can be rendered, in store
    order. *)
Definition pageMatchesStore (sh : JsMap * list Message) : Prop :=
  snd sh = renderable (fst sh).

Fixpoint historyResponses (evs : list Event) : nat :=
  match evs with
  | [] => O
  | EvHistoryResponse _ _ :: evs' => S (historyResponses evs')
  | _ :: evs' => historyResponses evs'
  end.

(** Sockets with listeners plus reconnect timers pending. *)
Definition channels (w : World) : nat :=
  (List.length (sockets (env w)) + List.length (timers (env w)))%nat.

Definition delayOk (d : Z) : Prop := 1000 <= d <= 15000.

(** The ceiling is the initial one, the stored backoff is at least the
    floor, and every delay handed to [setTimeout] lies between twice the
    floor and the ceiling. *)
Definition backoffOk (w : World) : Prop :=
  wsMaxBackoffMs (state w) = 15000
  /\ 500 <= wsBackoffMs (state w)
  /\ Forall delayOk (scheduled (env w))
  /\ Forall delayOk (timers (env w)).

(** The fields of a world that rendering never touches. *)
Definition beside (w : World)
  : (option string * JsVal * JsVal * option Url * Z * Z * bool)
    * (bool * string * string * bool * bool * bool) * Env :=
  ((username (state w), token (state w), wsUrl (state w), ws (state w),
    wsBackoffMs (state w), wsMaxBackoffMs (state w), connected (state w)),
   (statusConnected (dom w), statusText (dom w), messageInput (dom w),
    sendBtnDisabled (dom w), loginBtnDisabled (dom w), chatVisible (dom w)),
   env w).

(** A payload that is its own record: no [payload], [data] or [message]
    key to unwrap. *)
Definition noEnvelope (raw : JsVal) : bool :=
  nullish (raw ?. "payload") && nullish (raw ?. "data")
  && nullish (raw ?. "message").

(** Whether the values the normaliser converts when it reads the record
    [obj] can be converted: the author keys and the time keys, which go
    into the synthesized id and into [new Date]. *)
Definition convertsKeys (obj : JsVal) : bool :=
  forallb (fun k => negb (toStringRaises (obj ?. k)))
          ["senderId"; "userName"; "username"; "createdAt"; "timestamp"].

(** A record without any of the keys an id is read from. *)
Definition noIdKeys (obj : JsVal) : bool :=
  nullish (obj ?. "id") && nullish (obj ?. "messageId")
  && nullish (obj ?. "pk") && nullish (obj ?. "sk").

(** ** Further fixtures *)

Module Sample.

Definition quote : string := String (Ascii.ascii_of_nat 34) EmptyString.

Definition jsonString (s : string) : string := quote ++ s ++ quote.

Definition jsonEntry (key body : string) (t : Z) : string :=
  "{" ++ jsonString "id" ++ ":" ++ jsonString key ++ ","
  ++ jsonString "content" ++ ":" ++ jsonString body ++ ","
  ++ jsonString "timestamp" ++ ":" ++ decimal t ++ "}".

(** The text of a batch frame listing a later message before an earlier
    one. *)
Definition batchText : string :=
  "{" ++ jsonString "messages" ++ ":[" ++ jsonEntry "p" "second" 300 ++ ","
  ++ jsonEntry "q" "first" 100 ++ "]}".

Definition batchValue : JsVal :=
  VObj 50 [("messages",
            VArr 51 [VObj 52 [("id", VStr "p"); ("content", VStr "second");
                              ("timestamp", VNum (Num 300))];
                     VObj 53 [("id", VStr "q"); ("content", VStr "first");
                              ("timestamp", VNum (Num 100))]])].

(** A browser that parses that one text and whose WebSocket constructor
    throws. *)
Definition browser : Browser :=
  {| dateParse := fun _ => NaN;
     stringToNumber := fun _ => NaN;
     urlParses := fun v => match v with
                           | VStr s => String.prefix "wss://" s
                           | _ => false
                           end;
     socketConstructs := fun _ => false;
     jsonParse := fun s => if (s =? batchText)%string
                           then Some batchValue else None |}.

(** A message whose author is a number, as a payload with a numeric
    [senderId] gives. *)
Definition numericAuthor : Message :=
  {| id := VStr "n1"; userName := VNum (Num 7); message := VStr "hello";
     timestamp := VNum (Num 50) |}.

(** A history entry whose author is a number. *)
Definition unrenderableEntry : JsVal :=
  VObj 32 [("id", VStr "n1"); ("senderId", VNum (Num 7));
           ("content", VStr "hello"); ("timestamp", VNum (Num 150))].

(** A login whose history holds a message that can be shown and, after
    it, one that cannot. *)
Definition opening : list Event :=
  [EvLoginSubmit "ann" "password1";
   EvLoginResponse 0 (Resolved Example.loginBody);
   EvHistoryResponse
     (Body (Example.historyBody [Example.historyEntry 31 "m1" 100;
                                 unrenderableEntry]))
     Example.entropy].

(** The world after [opening]: two messages stored, one shown. *)
Definition listening : World :=
  Eval vm_compute in
    match run Example.browser initialWorld opening with
    | Some w => w
    | None => initialWorld
    end.

(** The frame that then arrives on the socket. *)
Definition arrival : list Event := [EvSocketMessage 0 "hi" Example.entropy].

(** The world after it: three messages stored, two shown. *)
Definition chatting : World :=
  Eval vm_compute in
    match run Example.browser listening arrival with
    | Some w => w
    | None => initialWorld
    end.

(** A session whose endpoint is not a URL. *)
Definition badEndpoint : World :=
  withState (setSession (Some "ann") (VStr "tok") (VStr "chat.example"))
    initialWorld.

(** A session with one reconnect timer pending and no socket. *)
Definition waiting : World :=
  withEnv (pushTimer 1000)
    (withState (setWsBackoffMs 1000)
       (withState (setSession (Some "ann") (VStr "tok")
                     (VStr "wss://chat.example/ws")) initialWorld)).

(** The sign-up form filled in. *)
Definition signingUp : AuthForms :=
  {| loginTabActive := false; registerTabActive := true;
     loginFormHidden := true; registerFormHidden := false;
     loginUsernameValue := ""; registerUsernameValue := " ann ";
     registerPasswordValue := "password1"; registerBtnDisabled := false |}.

End Sample.

(** * Properties *)

(** ** SameValueZero is an equivalence *)

Ltac svz_cases :=
  repeat match goal with
         | n : JsNum |- _ => destruct n
         end;
  simpl in *; try discriminate; try reflexivity.

Lemma sameValueZero_refl (a : JsVal) : sameValueZero a a = true.
Proof.
  destruct a; svz_cases;
    auto using Z.eqb_refl, String.eqb_refl, Pos.eqb_refl, Bool.eqb_reflx.
Qed.

Lemma sameValueZero_sym (a b : JsVal) : sameValueZero a b = sameValueZero b a.
Proof.
  destruct a, b; svz_cases;
    auto using Z.eqb_sym, String.eqb_sym, Pos.eqb_sym.
  destruct b, b0; reflexivity.
Qed.

Lemma sameValueZero_congr (a b c : JsVal) :
  sameValueZero a b = true -> sameValueZero a c = sameValueZero b c.
Proof.
  destruct a, b; svz_cases; intros H.
  - apply Bool.eqb_prop in H. now subst.
  - apply Z.eqb_eq in H. now subst.
  - apply String.eqb_eq in H. now subst.
  - apply Pos.eqb_eq in H. subst. destruct c; reflexivity.
  - apply Pos.eqb_eq in H. subst. destruct c; reflexivity.
Qed.

(** ** The [Map] operations on the list representation *)

Lemma Map_has_congr (m : JsMap) (k k' : JsVal) :
  sameValueZero k k' = true -> Map_has m k = Map_has m k'.
Proof.
  intros H. unfold Map_has. induction m as [|[k0 v0] m IH]; simpl; auto.
  rewrite IH. f_equal.
  rewrite (sameValueZero_sym k0 k), (sameValueZero_sym k0 k').
  now apply sameValueZero_congr.
Qed.

Lemma Map_has_app (m1 m2 : JsMap) (k : JsVal) :
  Map_has (m1 ++ m2) k = Map_has m1 k || Map_has m2 k.
Proof. unfold Map_has. apply existsb_app. Qed.

Lemma Map_set_absent (m : JsMap) (k : JsVal) (v : Message) :
  Map_has m k = false -> Map_set m k v = (m ++ [(k, v)])%list.
Proof.
  induction m as [|[k0 v0] m IH]; simpl; auto.
  intros H. apply Bool.orb_false_iff in H as [H1 H2].
  rewrite H1. now rewrite IH.
Qed.

Lemma admitOne_absent (store : JsMap) (m : Message) :
  Map_has store (id m) = false -> admitOne store m = (store ++ [(id m, m)])%list.
Proof.
  intros H. unfold admitOne. rewrite H. now apply Map_set_absent.
Qed.

Lemma admitOne_present (store : JsMap) (m : Message) :
  Map_has store (id m) = true -> admitOne store m = store.
Proof. intros H. unfold admitOne. now rewrite H. Qed.

Lemma admitOne_has (store : JsMap) (m : Message) :
  Map_has (admitOne store m) (id m) = true.
Proof.
  destruct (Map_has store (id m)) eqn:H.
  - now rewrite admitOne_present.
  - rewrite admitOne_absent, Map_has_app by assumption.
    simpl. rewrite sameValueZero_refl. apply Bool.orb_true_r.
Qed.

Lemma admitOne_has_mono (store : JsMap) (m : Message) (k : JsVal) :
  Map_has store k = true -> Map_has (admitOne store m) k = true.
Proof.
  intros H. destruct (Map_has store (id m)) eqn:Hm.
  - now rewrite admitOne_present.
  - rewrite admitOne_absent, Map_has_app, H by assumption. reflexivity.
Qed.

Lemma admitAll_has_mono (l : list Message) (store : JsMap) (k : JsVal) :
  Map_has store k = true -> Map_has (admitAll store l) k = true.
Proof.
  revert store. induction l as [|m l IH]; simpl; intros store H; auto.
  apply IH. now apply admitOne_has_mono.
Qed.

Lemma admitAll_app (store : JsMap) (l1 l2 : list Message) :
  admitAll store (l1 ++ l2) = admitAll (admitAll store l1) l2.
Proof. apply fold_left_app. Qed.

Lemma storeOk_app_one (m : JsMap) (k : JsVal) (v : Message) :
  storeOk m = true -> Map_has m k = false -> sameValueZero k (id v) = true ->
  storeOk (m ++ [(k, v)]) = true.
Proof.
  induction m as [|[k0 v0] m IH]; simpl; intros Hok Hk Hid.
  - now rewrite Hid.
  - apply Bool.andb_true_iff in Hok as [Hok H3].
    apply Bool.andb_true_iff in Hok as [H1 H2].
    apply Bool.orb_false_iff in Hk as [Hk1 Hk2].
    rewrite H1, Map_has_app, IH by assumption. simpl.
    apply Bool.negb_true_iff in H2. rewrite H2. simpl.
    rewrite sameValueZero_sym, Hk1. reflexivity.
Qed.

Lemma admitOne_storeOk (store : JsMap) (m : Message) :
  storeOk store = true -> storeOk (admitOne store m) = true.
Proof.
  intros H. destruct (Map_has store (id m)) eqn:Hm.
  - now rewrite admitOne_present.
  - rewrite admitOne_absent by assumption.
    apply storeOk_app_one; auto using sameValueZero_refl.
Qed.

Lemma admitAll_storeOk (l : list Message) (store : JsMap) :
  storeOk store = true -> storeOk (admitAll store l) = true.
Proof.
  revert store. induction l as [|m l IH]; simpl; intros store H; auto.
  apply IH. now apply admitOne_storeOk.
Qed.

Lemma entriesWithId_absent (m : JsMap) (k : JsVal) :
  storeOk m = true -> Map_has m k = false -> entriesWithId k m = [].
Proof.
  induction m as [|[k0 v0] m IH]; simpl; intros Hok Hk; auto.
  apply Bool.andb_true_iff in Hok as [Hok H3].
  apply Bool.andb_true_iff in Hok as [H1 H2].
  apply Bool.orb_false_iff in Hk as [Hk1 Hk2].
  rewrite <- (sameValueZero_congr _ _ k H1), Hk1. now apply IH.
Qed.

Lemma entriesWithId_present (m : JsMap) (k : JsVal) :
  storeOk m = true -> Map_has m k = true ->
  List.length (entriesWithId k m) = 1%nat.
Proof.
  induction m as [|[k0 v0] m IH]; simpl; intros Hok Hk; try discriminate.
  apply Bool.andb_true_iff in Hok as [Hok H3].
  apply Bool.andb_true_iff in Hok as [H1 H2].
  apply Bool.negb_true_iff in H2.
  rewrite <- (sameValueZero_congr _ _ k H1).
  destruct (sameValueZero k0 k) eqn:E; simpl in *.
  - rewrite entriesWithId_absent; auto.
    now rewrite <- (Map_has_congr m k0 k E).
  - now apply IH.
Qed.

(** ** The calls and the values they return *)

Lemma append_eqb_l (p a b : string) :
  ((p ++ a) =? (p ++ b))%string = (a =? b)%string.
Proof.
  induction p as [|c p IH]; [reflexivity|].
  cbn. now rewrite Ascii.eqb_refl.
Qed.

Lemma coalesce_given (a1 a2 a3 a4 b : JsVal) :
  a1 ?? a2 ?? a3 ?? a4 ?? b
  = if nullish (a1 ?? a2 ?? a3 ?? a4 ?? VUndef) then b
    else a1 ?? a2 ?? a3 ?? a4 ?? VUndef.
Proof.
  unfold coalesce.
  destruct (nullish a1) eqn:E1; [|now rewrite E1].
  destruct (nullish a2) eqn:E2; [|now rewrite E2].
  destruct (nullish a3) eqn:E3; [|now rewrite E3].
  destruct (nullish a4) eqn:E4; [|now rewrite E4].
  reflexivity.
Qed.

(** A call of the normaliser either throws or returns what
    [normalizeMessage] computes. *)
Lemma normalizeMessageJs_cases (B : Browser) (e : Entropy) (raw : JsVal) :
  normalizeMessageJs B e raw = Thrown
  \/ normalizeMessageJs B e raw = Returned (normalizeMessage B e raw).
Proof.
  unfold normalizeMessageJs, normalizeMessage.
  set (m := raw ?. "payload" ?. "message" ?? raw ?. "data" ?. "message" ??
            raw ?. "message" ?? raw ?. "payload" ?? raw ?. "data" ?? raw).
  destruct (negb (truthy m)
            || negb (isTObject (typeof m)) && negb (isTString (typeof m)));
    [now right|].
  set (obj := if isTString (typeof m) then VObj 1 [("message", m)] else m).
  rewrite (coalesce_given (obj ?. "id") (obj ?. "messageId") (obj ?. "pk")
             (obj ?. "sk") (synthesizedId e obj)).
  destruct (nullish (obj ?. "id" ?? obj ?. "messageId" ?? obj ?. "pk" ??
                     obj ?. "sk" ?? VUndef)).
  - unfold synthesizedIdJs, toStringJs, dateGetTimeJs, synthesizedId.
    destruct (toStringRaises (obj ?. "senderId" <|> obj ?. "userName" <|>
                              obj ?. "username" <|> VStr "user"));
      [now left|].
    destruct (toStringRaises (obj ?. "createdAt" <|> obj ?. "timestamp" <|>
                              VNum (Num (dateNowId e)))); [now left|].
    destruct (truthy (obj ?. "createdAt")); [|now right].
    destruct (toStringRaises (obj ?. "createdAt")); [now left | now right].
  - unfold dateGetTimeJs.
    destruct (truthy (obj ?. "createdAt")); [|now right].
    destruct (toStringRaises (obj ?. "createdAt")); [now left | now right].
Qed.

Lemma normalizeMessageJs_returned (B : Browser) (e : Entropy) (raw : JsVal)
  (r : option Message) :
  normalizeMessageJs B e raw = Returned r -> r = normalizeMessage B e raw.
Proof.
  intros H. destruct (normalizeMessageJs_cases B e raw) as [E|E];
    rewrite E in H; [discriminate|]. now injection H as <-.
Qed.

Lemma mapNormalizeJs_returned (B : Browser) (ents : nat -> Entropy)
  (raws : list JsVal) (i : nat) (l : list (option Message)) :
  mapNormalizeJs B ents i raws = Returned l -> l = mapNormalize B ents i raws.
Proof.
  revert i l. induction raws as [|raw raws IH]; intros i l; cbn.
  - intros H. now injection H as <-.
  - destruct (normalizeMessageJs B (ents i) raw) as [r|] eqn:E; [|discriminate].
    destruct (mapNormalizeJs B ents (S i) raws) as [l'|] eqn:E';
      [|discriminate].
    intros H. injection H as <-.
    now rewrite (normalizeMessageJs_returned _ _ _ _ E), (IH _ _ E').
Qed.

(** ** [renderMessage] and [forEach]: effect on the store and the page *)

Lemma renderMessage_present (w : World) (m : Message) :
  Map_has (messages (state w)) (id m) = true ->
  renderMessage w (Some m) = (w, Normal).
Proof. intros H. unfold renderMessage. now rewrite H. Qed.

Lemma renderMessage_store (w : World) (m : Message) :
  messages (state (fst (renderMessage w (Some m))))
  = admitOne (messages (state w)) m.
Proof.
  unfold renderMessage, admitOne.
  destruct (Map_has (messages (state w)) (id m)); [reflexivity|].
  destruct (renderThrows m); reflexivity.
Qed.

Lemma renderMessage_container (w : World) (m : Message) :
  exists l, incl l [m] /\
    messagesContainer (dom (fst (renderMessage w (Some m))))
    = (messagesContainer (dom w) ++ l)%list.
Proof.
  unfold renderMessage.
  destruct (Map_has (messages (state w)) (id m)).
  - exists []. split; [apply incl_nil_l | now rewrite app_nil_r].
  - destruct (renderThrows m); simpl.
    + exists []. split; [apply incl_nil_l | now rewrite app_nil_r].
    + exists [m]. split; [apply incl_refl | reflexivity].
Qed.

(** Nothing but the store and the container decides what [renderMessage]
    does to them. *)
Lemma renderMessage_shown (w1 w2 : World) (om : option Message) :
  shown w1 = shown w2 ->
  shown (fst (renderMessage w1 om)) = shown (fst (renderMessage w2 om))
  /\ snd (renderMessage w1 om) = snd (renderMessage w2 om).
Proof.
  unfold shown. intros H. injection H as Hm Hc.
  destruct om as [m|]; simpl; [|now rewrite Hm, Hc].
  rewrite Hm. destruct (Map_has (messages (state w2)) (id m)); simpl.
  - now rewrite Hm, Hc.
  - destruct (renderThrows m); simpl; now rewrite ?Hm, ?Hc.
Qed.

Lemma forEachRender_shown (l : list Message) (w1 w2 : World) :
  shown w1 = shown w2 ->
  shown (fst (forEachRender w1 l)) = shown (fst (forEachRender w2 l))
  /\ snd (forEachRender w1 l) = snd (forEachRender w2 l).
Proof.
  revert w1 w2. induction l as [|m l IH]; intros w1 w2 H;
    cbn [forEachRender]; auto.
  destruct (renderMessage_shown w1 w2 (Some m) H) as [Hs Hc].
  destruct (renderMessage w1 (Some m)) as [w1' c1].
  destruct (renderMessage w2 (Some m)) as [w2' c2].
  cbn [fst snd] in Hs, Hc. subst c2. destruct c1; cbn [fst snd].
  - now apply IH.
  - now split.
Qed.

Lemma forEachRender_store (l : list Message) (w : World) :
  exists l', incl l' l /\
    messages (state (fst (forEachRender w l)))
    = admitAll (messages (state w)) l'.
Proof.
  revert w. induction l as [|m l IH]; intros w; cbn [forEachRender].
  - exists []. split; [apply incl_refl | reflexivity].
  - pose proof (renderMessage_store w m) as Hs.
    destruct (renderMessage w (Some m)) as [w' c]. simpl in Hs.
    destruct c.
    + destruct (IH w') as [l' [Hi He]].
      exists (m :: l'). split.
      * apply incl_cons; [now left | now apply incl_tl].
      * simpl. now rewrite He, Hs.
    + exists [m]. split.
      * apply incl_cons; [now left | apply incl_nil_l].
      * simpl. now rewrite Hs.
Qed.

Lemma forEachRender_container (l : list Message) (w : World) :
  exists l', incl l' l /\
    messagesContainer (dom (fst (forEachRender w l)))
    = (messagesContainer (dom w) ++ l')%list.
Proof.
  revert w. induction l as [|m l IH]; intros w; cbn [forEachRender].
  - exists []. split; [apply incl_refl | now rewrite app_nil_r].
  - destruct (renderMessage_container w m) as [l0 [Hi0 He0]].
    destruct (renderMessage w (Some m)) as [w' c]. simpl in He0.
    assert (Hin : incl l0 (m :: l)).
    { intros x Hx. apply Hi0 in Hx. destruct Hx as [<-|[]]. now left. }
    destruct c.
    + destruct (IH w') as [l' [Hi He]].
      exists (l0 ++ l')%list. split.
      * apply incl_app; [assumption | now apply incl_tl].
      * now rewrite He, He0, app_assoc.
    + exists l0. split; assumption.
Qed.

(** The handlers around the rendering leave the store and the container
    alone. *)
Lemma connectWebSocket_shown (B : Browser) (w : World) :
  shown (fst (connectWebSocket B w)) = shown w.
Proof.
  unfold connectWebSocket.
  destruct (negb (truthy (wsUrl (state w))) || negb (truthy (token (state w))));
    [reflexivity|].
  destruct (negb (urlParses B (wsUrl (state w)))
            || toStringRaises (token (state w))); [reflexivity|].
  simpl. destruct (socketConstructs B (wsUrl (state w))); reflexivity.
Qed.

Lemma sendMessage_afterPost_shown (w : World) (r : PostOutcome) :
  shown (sendMessage_afterPost w r) = shown w.
Proof. destruct r; reflexivity. Qed.

Lemma sendMessage_shown (w : World) : shown (sendMessage w) = shown w.
Proof.
  unfold sendMessage.
  destruct ((trim (messageInput (dom w)) =? "")%string
            || negb (truthy (token (state w)))); [reflexivity|].
  destruct (toStringRaises (token (state w))); reflexivity.
Qed.

Lemma handleLogin_shown (w : World) (u p : string) :
  shown (handleLogin w u p) = shown w.
Proof.
  unfold handleLogin.
  destruct ((trim u =? "")%string || (p =? "")%string); reflexivity.
Qed.

Lemma handleLogin_connect_shown (B : Browser) (w : World) :
  shown (handleLogin_connect B w) = shown w.
Proof.
  unfold handleLogin_connect.
  match goal with
  | |- context [connectWebSocket B ?x] =>
      pose proof (connectWebSocket_shown B x) as H;
      destruct (connectWebSocket B x) as [w2 c]
  end.
  cbn [fst] in H. destruct c; exact H.
Qed.

Lemma handleLogin_afterLogin_shown (B : Browser) (w : World) (u : string)
  (r : PostOutcome) :
  shown (handleLogin_afterLogin B w u r) = shown w.
Proof.
  unfold handleLogin_afterLogin. destruct r as [|res]; [reflexivity|].
  destruct (nullish res); [reflexivity|].
  destruct (truthy (res ?. "token")); [|reflexivity].
  match goal with
  | |- context [toStringRaises ?t] => destruct (toStringRaises t)
  end; [|reflexivity].
  now rewrite handleLogin_connect_shown.
Qed.

Lemma handleLogin_afterHistory_shown (B : Browser) (ents : nat -> Entropy)
  (w : World) (h : HistoryOutcome) :
  shown (handleLogin_afterHistory B ents w h) = shown w
  \/ exists data r raws,
       h = Body data
       /\ data ?. "messages" <|> VArr 1%positive [] = VArr r raws
       /\ shown (handleLogin_afterHistory B ents w h)
          = shown (fst (forEachRender w (initialBatch B ents raws))).
Proof.
  unfold handleLogin_afterHistory.
  rewrite handleLogin_connect_shown.
  destruct h as [| | |data]; try (now left).
  destruct (nullish data); [now left|].
  unfold renderInitialMessagesJs.
  destruct (data ?. "messages" <|> VArr 1 []) as [| | | | | |r raws] eqn:Em;
    try (now left).
  destruct (batchRaises B ents raws); [now left|].
  right. exists data, r, raws.
  split; [reflexivity|]. split; [exact Em | reflexivity].
Qed.

(** ** One turn of the event loop: what can reach the store *)

Lemma shown_unchanged (L : list Message) (w w' : World) :
  shown w' = shown w ->
  exists l1 l2,
    incl l1 L /\ incl l2 L /\
    messages (state w') = admitAll (messages (state w)) l1 /\
    messagesContainer (dom w') = (messagesContainer (dom w) ++ l2)%list.
Proof.
  unfold shown. intros H. injection H as Hm Hc.
  exists [], []. repeat split; try apply incl_nil_l; auto.
  now rewrite app_nil_r.
Qed.

Lemma forEachRender_both (l : list Message) (w : World) :
  exists l1 l2,
    incl l1 l /\ incl l2 l /\
    messages (state (fst (forEachRender w l)))
    = admitAll (messages (state w)) l1 /\
    messagesContainer (dom (fst (forEachRender w l)))
    = (messagesContainer (dom w) ++ l2)%list.
Proof.
  destruct (forEachRender_store l w) as [l1 [H1 E1]].
  destruct (forEachRender_container l w) as [l2 [H2 E2]].
  exists l1, l2. auto.
Qed.

Lemma renderMessage_both (w : World) (msg : Message) :
  exists l1 l2,
    incl l1 [msg] /\ incl l2 [msg] /\
    messages (state (fst (renderMessage w (Some msg))))
    = admitAll (messages (state w)) l1 /\
    messagesContainer (dom (fst (renderMessage w (Some msg))))
    = (messagesContainer (dom w) ++ l2)%list.
Proof.
  destruct (forEachRender_both [msg] w) as [l1 [l2 H]].
  cbn [forEachRender] in H.
  destruct (renderMessage w (Some msg)) as [w1 []]; exists l1, l2; exact H.
Qed.

Lemma step_shown (B : Browser) (w w' : World) (ev : Event) :
  step B w ev = Some w' ->
  exists l1 l2,
    incl l1 (inboundMessages B ev) /\ incl l2 (inboundMessages B ev) /\
    messages (state w') = admitAll (messages (state w)) l1 /\
    messagesContainer (dom w') = (messagesContainer (dom w) ++ l2)%list.
Proof.
  destruct ev as [text|u p|k r|h ents| |r|k|k|k evData ents|k|k];
    cbn [step]; intros H.
  - injection H as <-. now apply shown_unchanged.
  - injection H as <-. apply shown_unchanged, handleLogin_shown.
  - destruct (nth_error (pendingLogins (env w)) k); [|discriminate].
    injection H as <-. apply shown_unchanged.
    now rewrite handleLogin_afterLogin_shown.
  - destruct (pendingHistory (env w)) as [|n]; [discriminate|].
    injection H as <-.
    destruct (handleLogin_afterHistory_shown B ents
                (withEnv (fun e => setPending (pendingLogins e) n
                                     (pendingSends e) e) w) h)
      as [E|[data [r [raws [-> [Em E]]]]]]; [now apply shown_unchanged|].
    cbn [inboundMessages]. rewrite Em.
    unfold shown in E. injection E as E1 E2. rewrite E1, E2.
    match goal with
    | |- context [forEachRender ?x ?l] => exact (forEachRender_both l x)
    end.
  - injection H as <-. apply shown_unchanged, sendMessage_shown.
  - destruct (pendingSends (env w)); [discriminate|].
    injection H as <-. apply shown_unchanged.
    now rewrite sendMessage_afterPost_shown.
  - destruct (nth_error (timers (env w)) k); [|discriminate].
    injection H as <-. apply shown_unchanged.
    now rewrite connectWebSocket_shown.
  - destruct (nth_error (sockets (env w)) k); [|discriminate].
    injection H as <-. now apply shown_unchanged.
  - destruct (nth_error (sockets (env w)) k); [|discriminate].
    injection H as <-. unfold onMessage. cbn [inboundMessages].
    set (data := match jsonParse B evData with
                 | Some v => v
                 | None => VStr evData
                 end).
    destruct (data ?. "messages");
      try (destruct (normalizeMessageJs_cases B (ents 0%nat) data) as [E|E];
           rewrite E; [now apply shown_unchanged|];
           destruct (normalizeMessage B (ents 0%nat) data) as [msg|];
           [apply renderMessage_both | now apply shown_unchanged]).
    destruct (mapNormalizeJs B ents 0%nat items) as [l|] eqn:E;
      [|now apply shown_unchanged].
    rewrite (mapNormalizeJs_returned _ _ _ _ _ E).
    apply forEachRender_both.
  - destruct (nth_error (sockets (env w)) k); [|discriminate].
    injection H as <-. now apply shown_unchanged.
  - destruct (nth_error (sockets (env w)) k); [|discriminate].
    injection H as <-. now apply shown_unchanged.
Qed.

Lemma run_store (B : Browser) (evs : list Event) (w w' : World) :
  run B w evs = Some w' ->
  exists l, messages (state w') = admitAll (messages (state w)) l.
Proof.
  revert w. induction evs as [|ev evs IH]; cbn [run]; intros w H.
  - injection H as <-. now exists [].
  - destruct (step B w ev) as [w1|] eqn:Hs; [|discriminate].
    destruct (step_shown B w w1 ev Hs) as [l1 [_ [_ [_ [E _]]]]].
    destruct (IH w1 H) as [l E'].
    exists (l1 ++ l)%list. now rewrite admitAll_app, <- E.
Qed.

Lemma admitOne_In (store : JsMap) (m : Message) (e : JsVal * Message) :
  In e (admitOne store m) -> In e store \/ snd e = m.
Proof.
  destruct (Map_has store (id m)) eqn:H.
  - rewrite admitOne_present by assumption. auto.
  - rewrite admitOne_absent by assumption. intros Hin.
    apply in_app_or in Hin as [Hin|[<-|[]]]; auto.
Qed.

Lemma admitAll_In (l : list Message) (store : JsMap) (e : JsVal * Message) :
  In e (admitAll store l) -> In e store \/ In (snd e) l.
Proof.
  revert store. induction l as [|m l IH]; simpl; intros store H; auto.
  apply IH in H as [H|H]; auto.
  apply admitOne_In in H as [H|H]; auto.
Qed.

(** ** Invariants of every run from the initial world *)

(** X10. The list that stands for [state.messages] is a [Map] in every world
    the script can reach. *)
Lemma reachable_storeOk (B : Browser) (evs : list Event) (w : World) :
  run B initialWorld evs = Some w -> storeOk (messages (state w)) = true.
Proof.
  intros H. destruct (run_store B evs initialWorld w H) as [l E].
  rewrite E. now apply admitAll_storeOk.
Qed.

Lemma renderMessage_session (w : World) (om : option Message) :
  session (fst (renderMessage w om)) = session w.
Proof.
  destruct om as [m|]; [|reflexivity]. unfold renderMessage.
  destruct (Map_has (messages (state w)) (id m)); [reflexivity|].
  destruct (renderThrows m); reflexivity.
Qed.

Lemma forEachRender_session (l : list Message) (w : World) :
  session (fst (forEachRender w l)) = session w.
Proof.
  revert w. induction l as [|m l IH]; intros w; cbn [forEachRender];
    [reflexivity|].
  pose proof (renderMessage_session w (Some m)) as H.
  destruct (renderMessage w (Some m)) as [w' []]; cbn [fst] in *.
  - now rewrite IH.
  - assumption.
Qed.

Lemma connectWebSocket_session (B : Browser) (w : World) :
  session (fst (connectWebSocket B w)) = session w.
Proof.
  unfold connectWebSocket.
  destruct (negb (truthy (wsUrl (state w))) || negb (truthy (token (state w))));
    [reflexivity|].
  destruct (negb (urlParses B (wsUrl (state w)))
            || toStringRaises (token (state w))); [reflexivity|].
  simpl. destruct (socketConstructs B (wsUrl (state w))); reflexivity.
Qed.

Lemma handleLogin_connect_session (B : Browser) (w : World) :
  session (handleLogin_connect B w) = session w.
Proof.
  unfold handleLogin_connect.
  match goal with
  | |- context [connectWebSocket B ?x] =>
      pose proof (connectWebSocket_session B x) as H;
      destruct (connectWebSocket B x) as [w2 c]
  end.
  cbn [fst] in H. destruct c; exact H.
Qed.

Lemma sendMessage_session (w : World) : session (sendMessage w) = session w.
Proof.
  unfold sendMessage.
  destruct ((trim (messageInput (dom w)) =? "")%string
            || negb (truthy (token (state w)))); [reflexivity|].
  destruct (toStringRaises (token (state w))); reflexivity.
Qed.

Lemma handleLogin_afterHistory_session (B : Browser) (ents : nat -> Entropy)
  (w : World) (h : HistoryOutcome) :
  session (handleLogin_afterHistory B ents w h) = session w.
Proof.
  unfold handleLogin_afterHistory.
  rewrite handleLogin_connect_session.
  destruct h as [| | |data]; try reflexivity.
  destruct (nullish data); [reflexivity|].
  unfold renderInitialMessagesJs, renderInitialMessages.
  destruct (data ?. "messages" <|> VArr 1 []); try reflexivity.
  destruct (batchRaises B ents items); [reflexivity|].
  match goal with
  | |- context [forEachRender ?x ?l] =>
      exact (forEachRender_session l x)
  end.
Qed.

Lemma onMessage_session (B : Browser) (ents : nat -> Entropy) (w : World)
  (evData : string) :
  session (fst (onMessage B ents w evData)) = session w.
Proof.
  unfold onMessage.
  set (data := match jsonParse B evData with
               | Some v => v
               | None => VStr evData
               end).
  destruct (data ?. "messages");
    try (destruct (normalizeMessageJs B (ents 0%nat) data) as [[msg|]|];
         [apply renderMessage_session | reflexivity | reflexivity]).
  destruct (mapNormalizeJs B ents 0%nat items); [|reflexivity].
  apply forEachRender_session.
Qed.

Lemma step_sessionOk (B : Browser) (w w' : World) (ev : Event) :
  step B w ev = Some w' -> sessionOk w -> sessionOk w'.
Proof.
  assert (K : forall w1 w2, session w2 = session w1 ->
                            sessionOk w1 -> sessionOk w2).
  { unfold sessionOk. intros w1 w2 E [H|H]; [left; congruence|right].
    unfold session in E. injection E as _ Et _. now rewrite Et. }
  destruct ev as [text|u p|k r|h ents| |r|k|k|k evData ents|k|k];
    cbn [step]; intros H.
  - injection H as <-. now apply K.
  - injection H as <-. apply K. unfold handleLogin.
    destruct ((trim u =? "")%string || (p =? "")%string); reflexivity.
  - destruct (nth_error (pendingLogins (env w)) k) as [user|]; [|discriminate].
    injection H as <-. unfold handleLogin_afterLogin.
    destruct r as [|res]; [now apply K|].
    destruct (nullish res); [now apply K|].
    destruct (truthy (res ?. "token")) eqn:Et; [|now apply K].
    intros _. right.
    match goal with
    | |- context [toStringRaises ?t] => destruct (toStringRaises t)
    end; [|exact Et].
    match goal with
    | |- context [handleLogin_connect B ?x] =>
        pose proof (handleLogin_connect_session B x) as E
    end.
    unfold session in E. injection E as _ E _. rewrite E. exact Et.
  - destruct (pendingHistory (env w)); [discriminate|].
    injection H as <-. apply K.
    now rewrite handleLogin_afterHistory_session.
  - injection H as <-. apply K. apply sendMessage_session.
  - destruct (pendingSends (env w)); [discriminate|].
    injection H as <-. apply K. destruct r; reflexivity.
  - destruct (nth_error (timers (env w)) k); [|discriminate].
    injection H as <-. apply K. now rewrite connectWebSocket_session.
  - destruct (nth_error (sockets (env w)) k); [|discriminate].
    injection H as <-. now apply K.
  - destruct (nth_error (sockets (env w)) k); [|discriminate].
    injection H as <-. apply K. apply onMessage_session.
  - destruct (nth_error (sockets (env w)) k); [|discriminate].
    injection H as <-. now apply K.
  - destruct (nth_error (sockets (env w)) k); [|discriminate].
    injection H as <-. now apply K.
Qed.

(** X18. In every reachable world a falsy token means that no login has
    succeeded: the three session fields are still null. *)
Lemma reachable_sessionOk (B : Browser) (evs : list Event) (w : World) :
  run B initialWorld evs = Some w -> sessionOk w.
Proof.
  assert (G : forall w0, sessionOk w0 -> run B w0 evs = Some w -> sessionOk w).
  { induction evs as [|ev evs IH]; cbn [run]; intros w0 H0 H.
    - now injection H as <-.
    - destruct (step B w0 ev) as [w1|] eqn:Hs; [|discriminate].
      eapply IH; [|exact H]. eapply step_sessionOk; eassumption. }
  apply G. now left.
Qed.

(** ** The claims about the normaliser *)

(** C5. Normalizer tolerance: the object with senderId, content and
    createdAt, the object with userName, message and timestamp, and the
    bare string hi each normalise to a message whose body is hi, whatever
    the clock and the random source give.  The first object has its time
    value T read, so T has to be a value that converts (every number and
    every string is); the second has its string body unwrapped and T is
    not looked at.  For the bare string the author is "unknown" and the
    timestamp is the current time. *)
Theorem C5_normalizer_tolerance :
  forall (B : Browser) (e : Entropy) (T : JsVal) (r1 r2 : positive),
    (toStringRaises T = false ->
     exists m,
       normalizeMessageJs B e
         (VObj r1 [("senderId", VStr "a"); ("content", VStr "hi");
                   ("createdAt", T)]) = Returned (Some m)
       /\ message m = VStr "hi")
    /\ (exists m,
          normalizeMessageJs B e
            (VObj r2 [("userName", VStr "a"); ("message", VStr "hi");
                      ("timestamp", T)]) = Returned (Some m)
          /\ message m = VStr "hi")
    /\ (exists m,
          normalizeMessageJs B e (VStr "hi") = Returned (Some m)
          /\ message m = VStr "hi"
          /\ userName m = VStr "unknown"
          /\ timestamp m = VNum (Num (dateNowTs e))).
Proof.
  intros B e T r1 r2. split; [|split].
  - intros HT. unfold normalizeMessageJs, synthesizedIdJs, toStringJs,
      dateGetTimeJs. cbn.
    unfold orElse.
    destruct (truthy T) eqn:Et; cbn; rewrite ?Et, ?HT; cbn;
      eexists; split; reflexivity.
  - eexists. split; reflexivity.
  - eexists. repeat split; reflexivity.
Qed.

Lemma C5_normalizer_tolerance_witness :
  exists m,
    normalizeMessageJs Example.browser (Example.entropy 0)
      (VObj 1 [("senderId", VStr "a"); ("content", VStr "hi");
               ("createdAt", VNum (Num 1700000000000))]) = Returned (Some m)
    /\ message m = VStr "hi".
Proof.
  destruct (C5_normalizer_tolerance Example.browser (Example.entropy 0)
              (VNum (Num 1700000000000)) 1 2) as [H _].
  exact (H eq_refl).
Defined.

(** C6, as the script behaves.  Every input that is neither an object
    nor a string, in particular null, 42 and undefined, makes the call
    return the "not a message" signal; a string always makes it return a
    message with that string as its body; and the call can throw on
    objects and arrays only. *)
Theorem C6_normalizer_rejection :
  forall (B : Browser) (e : Entropy),
    (forall raw,
        isObject raw = false -> isString raw = false ->
        normalizeMessageJs B e raw = Returned None)
    /\ normalizeMessageJs B e VNull = Returned None
    /\ normalizeMessageJs B e (VNum (Num 42)) = Returned None
    /\ normalizeMessageJs B e VUndef = Returned None
    /\ (forall s, exists m,
           normalizeMessageJs B e (VStr s) = Returned (Some m)
           /\ message m = VStr s)
    /\ (forall raw, normalizeMessageJs B e raw = Thrown -> isObject raw = true).
Proof.
  intros B e.
  assert (R : forall raw, isObject raw = false -> isString raw = false ->
                          normalizeMessageJs B e raw = Returned None).
  { intros raw Ho Hs.
    destruct raw as [| |b|n|s|r fs|r items]; try discriminate;
      try reflexivity.
    - destruct b; reflexivity.
    - destruct n as [|z]; [reflexivity|].
      unfold normalizeMessageJs. cbn.
      destruct (z =? 0)%Z; reflexivity. }
  assert (S : forall s, exists m,
                normalizeMessageJs B e (VStr s) = Returned (Some m)
                /\ message m = VStr s).
  { intros s. destruct s as [|c s]; eexists; split; reflexivity. }
  split; [exact R|]. repeat split; try exact S.
  intros raw H.
  destruct raw as [| |b|n|s|r fs|r items]; try reflexivity;
    try (rewrite R in H by reflexivity; discriminate).
  destruct (S s) as [m [E _]]. rewrite E in H. discriminate.
Qed.

Lemma C6_normalizer_rejection_witness :
  normalizeMessageJs Example.browser (Example.entropy 0) (VBool true)
  = Returned None
  /\ isObject (VObj 1 [("createdAt", Example.badToken)]) = true.
Proof.
  destruct (C6_normalizer_rejection Example.browser (Example.entropy 0))
    as [H1 [_ [_ [_ [_ H2]]]]].
  split.
  - apply H1; reflexivity.
  - apply H2. reflexivity.
Defined.

(** C6, as claimed, fails: on a record whose author is an object with a
    key named toString, the normaliser does not return.  The record has
    no id, so the author goes into the template literal of the
    synthesized id, and converting it to a string throws a TypeError. *)
Lemma C6_counterexample :
  normalizeMessageJs Example.browser (Example.entropy 0)
    (VObj 1 [("senderId", VObj 2 [("toString", VNum (Num 1))]);
             ("content", VStr "x")]) = Thrown.
Proof. reflexivity. Qed.

(** C10, as the script behaves.  A bare string reaches the
    [id: undefined] branch only when it is empty; a non-empty one is
    wrapped as [{ message: m }] and gets the synthesized id
    user-<Date.now()>-<random digits>.  Once a message with id undefined
    is in the store, every later empty string is dropped as its
    duplicate.  Two non-empty strings normalised in the same millisecond
    get different ids exactly when their random digits differ; when the
    digits agree as well, the second string is dropped as a duplicate of
    the first, whatever it says. *)
Theorem C10_bare_string_ids :
  forall (B : Browser) (e : Entropy),
    (forall s, s <> "" ->
       normalizeMessageJs B e (VStr s)
       = Returned
           (Some {| id := VStr ("user-" ++ decimal (dateNowId e) ++ "-"
                                ++ mathRandom e);
                    userName := VStr "unknown";
                    message := VStr s;
                    timestamp := VNum (Num (dateNowTs e)) |}))
    /\ normalizeMessageJs B e (VStr "")
       = Returned
           (Some {| id := VUndef; userName := VStr "unknown";
                    message := VStr "";
                    timestamp := VNum (Num (dateNowTs e)) |})
    /\ (forall (w : World) (e' : Entropy) (m m' : Message),
          normalizeMessageJs B e (VStr "") = Returned (Some m) ->
          normalizeMessageJs B e' (VStr "") = Returned (Some m') ->
          let w1 := fst (renderMessage w (Some m)) in
          Map_has (messages (state w1)) VUndef = true
          /\ renderMessage w1 (Some m') = (w1, Normal))
    /\ (forall (e' : Entropy) (s s' : string) (m m' : Message),
          normalizeMessageJs B e (VStr s) = Returned (Some m) ->
          normalizeMessageJs B e' (VStr s') = Returned (Some m') ->
          s <> "" -> s' <> "" ->
          dateNowId e' = dateNowId e ->
          (sameValueZero (id m) (id m') = true
           <-> mathRandom e' = mathRandom e)
          /\ (mathRandom e' = mathRandom e ->
              forall w,
                let w1 := fst (renderMessage w (Some m)) in
                renderMessage w1 (Some m') = (w1, Normal))).
Proof.
  intros B e.
  assert (N : forall e0 s, s <> "" ->
                normalizeMessageJs B e0 (VStr s)
                = Returned
                    (Some {| id := VStr ("user-" ++ decimal (dateNowId e0)
                                         ++ "-" ++ mathRandom e0);
                             userName := VStr "unknown";
                             message := VStr s;
                             timestamp := VNum (Num (dateNowTs e0)) |})).
  { intros e0 s Hs. destruct s as [|c s]; [contradiction|]. reflexivity. }
  split; [apply N|]. split; [reflexivity|]. split.
  - intros w e' m m' Hm Hm'.
    injection Hm as <-. injection Hm' as <-. cbv zeta.
    match goal with
    | |- context [renderMessage w (Some ?m)] =>
        pose proof (renderMessage_store w m) as Hs;
        pose proof (admitOne_has (messages (state w)) m) as Hh
    end.
    rewrite <- Hs in Hh. cbn [id] in Hh.
    split; [exact Hh|].
    now apply renderMessage_present.
  - intros e' s s' m m' Hm Hm' Hs Hs' Hd.
    rewrite (N e s Hs) in Hm. rewrite (N e' s' Hs') in Hm'.
    injection Hm as <-. injection Hm' as <-. cbn [id sameValueZero].
    assert (Q : (("user-" ++ decimal (dateNowId e) ++ "-" ++ mathRandom e)
                 =? ("user-" ++ decimal (dateNowId e') ++ "-" ++ mathRandom e'))
                %string = true
                <-> mathRandom e' = mathRandom e).
    { rewrite Hd.
      change ("user-" ++ decimal (dateNowId e) ++ "-" ++ mathRandom e)
        with ("user-" ++ (decimal (dateNowId e) ++ ("-" ++ mathRandom e))).
      change ("user-" ++ decimal (dateNowId e) ++ "-" ++ mathRandom e')
        with ("user-" ++ (decimal (dateNowId e) ++ ("-" ++ mathRandom e'))).
      rewrite !append_eqb_l. rewrite String.eqb_eq.
      split; intros H; now rewrite H. }
    split; [exact Q|].
    intros Hr w. rewrite Hd, Hr.
    apply renderMessage_present.
    match goal with
    | |- context [renderMessage w (Some ?m)] =>
        pose proof (renderMessage_store w m) as Hst;
        pose proof (admitOne_has (messages (state w)) m) as Hh
    end.
    rewrite <- Hst in Hh. exact Hh.
Qed.

Lemma C10_bare_string_ids_witness :
  normalizeMessageJs Example.browser (Example.entropy 0) (VStr "hi")
  = Returned
      (Some {| id := VStr "user-1700000000000-k3x90";
               userName := VStr "unknown";
               message := VStr "hi";
               timestamp := VNum (Num 1700000000000) |})
  /\ (let w1 := fst (renderMessage Example.connectingWorld
                       (Some {| id := VUndef; userName := VStr "unknown";
                                message := VStr "";
                                timestamp := VNum (Num 1700000000000) |})) in
      renderMessage w1
        (Some {| id := VUndef; userName := VStr "unknown";
                 message := VStr "";
                 timestamp := VNum (Num 1700000000001) |}) = (w1, Normal))
  /\ (let w1 := fst (renderMessage Example.connectingWorld
                       (Some {| id := VStr "user-1700000000000-k3x90";
                                userName := VStr "unknown";
                                message := VStr "hi";
                                timestamp := VNum (Num 1700000000000) |})) in
      renderMessage w1
        (Some {| id := VStr "user-1700000000000-k3x90";
                 userName := VStr "unknown";
                 message := VStr "yo";
                 timestamp := VNum (Num 1700000000000) |}) = (w1, Normal)).
Proof.
  destruct (C10_bare_string_ids Example.browser (Example.entropy 0))
    as [H1 [_ [H3 H4]]].
  split; [|split].
  - apply H1. discriminate.
  - exact (proj2 (H3 Example.connectingWorld (Example.entropy 1) _ _
                    eq_refl eq_refl)).
  - destruct (H4 (Example.entropy 0) "hi" "yo" _ _ eq_refl eq_refl
                ltac:(discriminate) ltac:(discriminate) eq_refl) as [_ H].
    exact (H eq_refl Example.connectingWorld).
Defined.

(** C10, as claimed, fails: the bare string hi normalises to a message
    whose id is a synthesized string, not undefined, and a second bare
    string arriving on the socket after it is stored and shown as well. *)
Lemma C10_counterexample :
  (exists m,
      normalizeMessageJs Example.browser (Example.entropy 0) (VStr "hi")
      = Returned (Some m)
      /\ id m <> VUndef)
  /\ (exists w,
        run Example.browser Example.connectingWorld
          [EvSocketMessage 0 "hi" Example.entropy;
           EvSocketMessage 0 "yo" (fun i => Example.entropy (S i))] = Some w
        /\ map (fun e => message (snd e)) (messages (state w))
           = [VStr "hi"; VStr "yo"]
        /\ map message (messagesContainer (dom w)) = [VStr "hi"; VStr "yo"]).
Proof.
  split.
  - eexists. split; [reflexivity|]. discriminate.
  - eexists. split; [reflexivity|]. split; reflexivity.
Qed.

(** ** The claims about the store *)

(** C3. Idempotent admission: in a store that is a [Map] (no key twice,
    each message under its id), admitting m twice leaves exactly one
    entry whose id is m's, the second call changes nothing, and from then
    on, whatever events follow, there is still exactly one such entry
    and a message with the same id is neither stored nor shown again. *)
Theorem C3_idempotent_admission :
  forall (w : World) (m : Message),
    storeOk (messages (state w)) = true ->
    let w1 := fst (renderMessage w (Some m)) in
    let w2 := fst (renderMessage w1 (Some m)) in
    List.length (entriesWithId (id m) (messages (state w2))) = 1%nat
    /\ renderMessage w1 (Some m) = (w1, Normal)
    /\ (forall (B : Browser) (evs : list Event) (w' : World),
           run B w1 evs = Some w' ->
           List.length (entriesWithId (id m) (messages (state w'))) = 1%nat
           /\ forall m', sameValueZero (id m') (id m) = true ->
                         renderMessage w' (Some m') = (w', Normal)).
Proof.
  intros w m Hok w1 w2.
  assert (Hs : messages (state w1) = admitOne (messages (state w)) m)
    by apply renderMessage_store.
  assert (Hh : Map_has (messages (state w1)) (id m) = true)
    by (rewrite Hs; apply admitOne_has).
  assert (Hok1 : storeOk (messages (state w1)) = true)
    by (rewrite Hs; now apply admitOne_storeOk).
  assert (Hsame : renderMessage w1 (Some m) = (w1, Normal))
    by now apply renderMessage_present.
  split; [|split].
  - subst w2. rewrite Hsame. now apply entriesWithId_present.
  - exact Hsame.
  - intros B evs w' Hrun.
    destruct (run_store B evs w1 w' Hrun) as [l E].
    assert (Hh' : Map_has (messages (state w')) (id m) = true)
      by (rewrite E; now apply admitAll_has_mono).
    split.
    + apply entriesWithId_present; [|assumption].
      rewrite E. now apply admitAll_storeOk.
    + intros m' Hid. apply renderMessage_present.
      now rewrite (Map_has_congr _ _ _ Hid).
Qed.

Lemma C3_idempotent_admission_witness :
  let w1 := fst (renderMessage initialWorld (Some Example.hello)) in
  List.length (entriesWithId (VStr "m1") (messages (state w1))) = 1%nat
  /\ renderMessage w1 (Some Example.hello) = (w1, Normal).
Proof.
  destruct (C3_idempotent_admission initialWorld Example.hello eq_refl)
    as [H1 [H2 _]].
  split; [exact H1 | exact H2].
Defined.

(** ** The claims about sending *)

(** C8, as the script behaves.  When the composer's text is empty after
    trimming, or there is no session token, [sendMessage] returns at once
    and changes nothing, so no request leaves.  Otherwise, with a token
    that converts to a string, it issues exactly one request, to
    /addMessages, carrying the current user name, the text with the
    blanks around it removed, and the token; with a token that does not
    convert, no request leaves and the failure alert is shown. *)
Theorem C8_send_precondition :
  forall (w : World),
    (trim (messageInput (dom w)) = "" \/ truthy (token (state w)) = false ->
     sendMessage w = w)
    /\ (trim (messageInput (dom w)) <> "" ->
        truthy (token (state w)) = true ->
        toStringRaises (token (state w)) = false ->
        outbox (env (sendMessage w))
        = (outbox (env w)
           ++ [PostAddMessages (username (state w))
                 (trim (messageInput (dom w))) (token (state w))])%list
        /\ state (sendMessage w) = state w)
    /\ (trim (messageInput (dom w)) <> "" ->
        truthy (token (state w)) = true ->
        toStringRaises (token (state w)) = true ->
        outbox (env (sendMessage w)) = outbox (env w)
        /\ alerts (env (sendMessage w))
           = (alerts (env w) ++ [AlertSendFailed])%list
        /\ state (sendMessage w) = state w).
Proof.
  intros w. unfold sendMessage. split; [|split].
  - intros [H|H].
    + rewrite H. reflexivity.
    + rewrite H, Bool.orb_true_r. reflexivity.
  - intros Ht Hk Hr. apply String.eqb_neq in Ht. rewrite Ht, Hk, Hr.
    split; reflexivity.
  - intros Ht Hk Hr. apply String.eqb_neq in Ht. rewrite Ht, Hk, Hr.
    repeat split.
Qed.

Lemma C8_send_precondition_witness :
  sendMessage Example.blank = Example.blank
  /\ sendMessage Example.typing = Example.typing
  /\ outbox (env (sendMessage Example.composing))
     = (outbox (env Example.composing)
        ++ [PostAddMessages (Some "ann") "hello" (VStr "tok")])%list
  /\ outbox (env (sendMessage Example.objectToken))
     = outbox (env Example.objectToken)
  /\ alerts (env (sendMessage Example.objectToken)) = [AlertSendFailed].
Proof.
  split; [|split; [|split]].
  - apply (C8_send_precondition Example.blank). left. reflexivity.
  - apply (C8_send_precondition Example.typing). right. reflexivity.
  - apply (C8_send_precondition Example.composing).
    + discriminate.
    + reflexivity.
    + reflexivity.
  - destruct (C8_send_precondition Example.objectToken) as [_ [_ H]].
    destruct (H ltac:(discriminate) eq_refl eq_refl) as [H1 [H2 _]].
    split; [exact H1 | exact H2].
Defined.

(** C8, as claimed, fails: with the body "  hello " in the composer of a
    session, the one request that leaves carries hello, not the body; and
    in a session whose token is an object with a key named toString, the
    body hello leaves no request at all. *)
Lemma C8_counterexample :
  (messageInput (dom Example.composing) = "  hello "
   /\ truthy (token (state Example.composing)) = true
   /\ outbox (env (sendMessage Example.composing))
      = (outbox (env Example.composing)
         ++ [PostAddMessages (Some "ann") "hello" (VStr "tok")])%list
   /\ "hello" <> "  hello ")
  /\ (messageInput (dom Example.objectToken) = "hello"
      /\ truthy (token (state Example.objectToken)) = true
      /\ outbox (env (sendMessage Example.objectToken))
         = outbox (env Example.objectToken)).
Proof.
  split; repeat split. discriminate.
Qed.

(** C7. No local echo: for every body, putting it in the composer and
    calling [sendMessage], and later resuming after the request settles,
    leaves the store and the message container as they were; and in any
    turn of the event loop an entry that is new in the store, or a node
    that is new in the container, is one of the messages normalised from
    the data that turn received from the server. *)
Theorem C7_no_local_echo :
  forall (B : Browser) (w : World),
    (forall body,
        shown (sendMessage (withDom (setMessageInput body) w)) = shown w)
    /\ (forall r, shown (sendMessage_afterPost w r) = shown w)
    /\ (forall ev w',
           step B w ev = Some w' ->
           (forall e, In e (messages (state w')) ->
                      In e (messages (state w))
                      \/ In (snd e) (inboundMessages B ev))
           /\ (forall m, In m (messagesContainer (dom w')) ->
                         In m (messagesContainer (dom w))
                         \/ In m (inboundMessages B ev))).
Proof.
  intros B w. split; [|split].
  - intros body. now rewrite sendMessage_shown.
  - apply sendMessage_afterPost_shown.
  - intros ev w' Hstep.
    destruct (step_shown B w w' ev Hstep) as [l1 [l2 [H1 [H2 [E1 E2]]]]].
    split.
    + intros e He. rewrite E1 in He.
      apply admitAll_In in He as [He|He]; auto.
    + intros m Hm. rewrite E2 in Hm.
      apply in_app_or in Hm as [Hm|Hm]; auto.
Qed.

Lemma C7_no_local_echo_witness :
  In (VStr "m1", Example.hello) (messages (state Example.connectingWorld))
  \/ In Example.hello
       (inboundMessages Example.browser
          (EvHistoryResponse
             (Body (Example.historyBody [Example.historyEntry 31 "m1" 100]))
             Example.entropy)).
Proof.
  destruct (C7_no_local_echo Example.browser
              (withEnv (fun e => setPending [] 1 0 e) Example.connectingWorld))
    as [_ [_ H]].
  destruct (H (EvHistoryResponse
                 (Body (Example.historyBody [Example.historyEntry 31 "m1" 100]))
                 Example.entropy) _ eq_refl) as [H1 _].
  apply (H1 (VStr "m1", Example.hello)).
  vm_compute. left. reflexivity.
Defined.

(** ** The claims about the connection *)

(** C9. Configuration error: when the channel endpoint or the token is
    missing, [connectWebSocket] only sets the status to disconnected with
    the text Missing WebSocket URL and returns: the script's state is
    untouched, no timer is set, no socket is made, nothing is scheduled.
    Started with no timer pending and no socket, the manager is then
    stuck: no timer can fire and no socket event can arrive. *)
Theorem C9_configuration_error :
  forall (B : Browser) (w : World),
    truthy (wsUrl (state w)) = false \/ truthy (token (state w)) = false ->
    let w' := fst (connectWebSocket B w) in
    connectWebSocket B w
    = (setConnectionStatus false "Missing WebSocket URL" w, Normal)
    /\ state w' = state w
    /\ env w' = env w
    /\ statusConnected (dom w') = false
    /\ statusText (dom w') = "Missing WebSocket URL"
    /\ (timers (env w) = [] -> sockets (env w) = [] ->
        forall ev, isConnectionEvent ev = true -> step B w' ev = None).
Proof.
  intros B w H w'.
  assert (E : connectWebSocket B w
              = (setConnectionStatus false "Missing WebSocket URL" w, Normal)).
  { unfold connectWebSocket.
    destruct H as [H|H]; rewrite H; [|rewrite Bool.orb_true_r]; reflexivity. }
  subst w'. rewrite E. cbn [fst].
  repeat split.
  intros Ht Hs ev Hev.
  destruct ev as [text|u p|k r|h ents| |r|k|k|k evData ents|k|k];
    try discriminate; cbn [step];
    cbn; rewrite ?Ht, ?Hs; destruct k; reflexivity.
Qed.

Lemma C9_configuration_error_witness :
  connectWebSocket Example.browser Example.noEndpoint
  = (setConnectionStatus false "Missing WebSocket URL" Example.noEndpoint,
     Normal)
  /\ step Example.browser
       (fst (connectWebSocket Example.browser Example.noEndpoint))
       (EvTimer 0) = None.
Proof.
  assert (H : truthy (wsUrl (state Example.noEndpoint)) = false
              \/ truthy (token (state Example.noEndpoint)) = false)
    by (left; reflexivity).
  destruct (C9_configuration_error Example.browser Example.noEndpoint H)
    as [H1 [_ [_ [_ [_ H2]]]]].
  split; [exact H1|].
  apply H2; reflexivity.
Defined.

(** ** Sorting the history batch *)

Section SortProperties.
Variable B : Browser.

(** On numeric timestamps the comparator orders by [sentAt]. *)
Lemma compareTimestamps_numeric (a b : Message) :
  numeric a -> numeric b ->
  comesAfter (compareTimestamps B a b) = (sentAt b <? sentAt a)%Z.
Proof.
  unfold numeric, numericTimestamp, compareTimestamps, sentAt.
  destruct (timestamp a) as [| | |[|x]| | |]; try discriminate.
  destruct (timestamp b) as [| | |[|y]| | |]; try discriminate.
  intros _ _.
  assert (E : forall z, toNumber B (VNum (Num z) <|> VNum (Num 0)) = Num z).
  { intros z. unfold orElse, truthy.
    destruct (Z.eqb_spec z 0) as [->|Hz]; reflexivity. }
  rewrite !E. cbn [numSub comesAfter].
  destruct (Z.ltb_spec 0 (x - y)), (Z.ltb_spec y x); try reflexivity; lia.
Qed.

Lemma sortInsert_perm (cmp : Message -> Message -> JsNum) (x : Message)
  (l : list Message) :
  Permutation (x :: l) (sortInsert cmp x l).
Proof.
  induction l as [|y l IH]; simpl; [apply Permutation_refl|].
  destruct (comesAfter (cmp x y)); [|apply Permutation_refl].
  eapply perm_trans; [apply perm_swap|]. now apply perm_skip.
Qed.

Lemma Array_sort_perm (cmp : Message -> Message -> JsNum)
  (l : list Message) :
  Permutation l (Array_sort cmp l).
Proof.
  induction l as [|x l IH]; simpl; [apply perm_nil|].
  eapply perm_trans; [|apply sortInsert_perm]. now apply perm_skip.
Qed.

Lemma sortInsert_sorted (x : Message) (l : list Message) :
  numeric x -> Forall numeric l ->
  StronglySorted earlier l ->
  StronglySorted earlier (sortInsert (compareTimestamps B) x l).
Proof.
  intros Hx Hl Hs. induction Hs as [|y l Hs IH Hy]; simpl.
  - repeat constructor.
  - inversion Hl as [|? ? Hny Hnl]; subst.
    rewrite compareTimestamps_numeric by assumption.
    destruct (Z.ltb_spec (sentAt y) (sentAt x)) as [Hlt|Hge].
    + constructor; [now apply IH|].
      eapply Permutation_Forall; [apply sortInsert_perm|].
      constructor; [unfold earlier; lia | assumption].
    + constructor; [now constructor|].
      constructor; [assumption|].
      eapply Forall_impl; [|exact Hy].
      unfold earlier. intros; lia.
Qed.

Lemma Array_sort_sorted (l : list Message) :
  Forall numeric l ->
  StronglySorted earlier (Array_sort (compareTimestamps B) l).
Proof.
  induction l as [|x l IH]; simpl; intros H; [constructor|].
  inversion H; subst.
  apply sortInsert_sorted; auto.
  eapply Permutation_Forall; [apply Array_sort_perm|assumption].
Qed.


End SortProperties.



(** ** Reconnecting *)

Lemma scheduleReconnect_backoff (w : World) :
  wsBackoffMs (state (scheduleReconnect w)) = wsBackoffMs (state w) * 2
  /\ wsMaxBackoffMs (state (scheduleReconnect w)) = wsMaxBackoffMs (state w)
  /\ scheduled (env (scheduleReconnect w))
     = (scheduled (env w)
        ++ [Z.min (wsBackoffMs (state w) * 2) (wsMaxBackoffMs (state w))])%list.
Proof. repeat split. Qed.

(** One failure: the socket closes, the timer fires, a new socket gets its
    listeners.  The stored backoff has doubled and the doubled value,
    capped, was the delay. *)
Lemma failure_cycle (B : Browser) (w : World) :
  canConnect B w = true -> sockets (env w) <> [] ->
  exists w',
    run B w [EvSocketClose 0; EvTimer 0] = Some w'
    /\ wsBackoffMs (state w') = wsBackoffMs (state w) * 2
    /\ wsMaxBackoffMs (state w') = wsMaxBackoffMs (state w)
    /\ scheduled (env w')
       = (scheduled (env w)
          ++ [Z.min (wsBackoffMs (state w) * 2) (wsMaxBackoffMs (state w))])%list
    /\ canConnect B w' = true
    /\ sockets (env w') <> [].
Proof.
  intros Hc Hs. unfold canConnect in Hc.
  apply Bool.andb_true_iff in Hc as [Hc H4].
  apply Bool.andb_true_iff in Hc as [Hc H5].
  apply Bool.andb_true_iff in Hc as [Hc H3].
  apply Bool.andb_true_iff in Hc as [H1 H2].
  apply Bool.negb_true_iff in H5.
  destruct (sockets (env w)) as [|u us] eqn:Es; [contradiction|].
  cbn [run step]. rewrite Es. cbn [nth_error].
  assert (Et : exists d ds,
             timers (env (onClose
               (withEnv (fun e => setSockets (removeNth 0 (sockets e)) e) w)))
             = d :: ds).
  { cbn. destruct (timers (env w)); cbn; eauto. }
  destruct Et as [d [ds Et]]. rewrite Et. cbn [nth_error].
  unfold connectWebSocket. cbn. rewrite H1, H2, H3, H5, H4. cbn.
  eexists. split; [reflexivity|]. cbn.
  unfold canConnect. cbn. rewrite H1, H2, H3, H5, H4, Es.
  repeat split. destruct us; discriminate.
Qed.

Lemma failures_delays (B : Browser) (n : nat) (w : World) :
  canConnect B w = true -> sockets (env w) <> [] ->
  exists w',
    run B w (failures n) = Some w'
    /\ wsBackoffMs (state w') = wsBackoffMs (state w) * 2 ^ Z.of_nat n
    /\ wsMaxBackoffMs (state w') = wsMaxBackoffMs (state w)
    /\ scheduled (env w')
       = (scheduled (env w)
          ++ map (fun k => Z.min (wsBackoffMs (state w) * 2 ^ Z.of_nat k)
                                 (wsMaxBackoffMs (state w)))
                 (seq 1 n))%list
    /\ canConnect B w' = true
    /\ sockets (env w') <> [].
Proof.
  revert w. induction n as [|n IH]; intros w Hc Hs.
  - exists w. cbn. rewrite app_nil_r. repeat split; auto; lia.
  - destruct (failure_cycle B w Hc Hs) as [w1 [R1 [B1 [M1 [S1 [C1 N1]]]]]].
    destruct (IH w1 C1 N1) as [w' [R [Bk [Mx [Sc [Cn Ne]]]]]].
    exists w'. cbn [failures].
    cbn [run] in R1 |- *.
    destruct (step B w (EvSocketClose 0)) as [wa|]; [|discriminate].
    destruct (step B wa (EvTimer 0)) as [wb|]; [|discriminate].
    injection R1 as ->.
    split; [exact R|].
    rewrite Bk, Mx, Sc, B1, M1, S1, Nat2Z.inj_succ, Z.pow_succ_r by lia.
    repeat split; auto; try lia.
    rewrite <- app_assoc. f_equal. cbn [seq map app].
    rewrite <- (seq_shift n 1), map_map.
    apply (f_equal2 (@cons Z)).
    + change (Z.of_nat 1) with 1%Z. now rewrite Z.pow_1_r.
    + apply map_ext. intros k.
      rewrite Nat2Z.inj_succ, Z.pow_succ_r by lia. f_equal. lia.
Qed.

(** C1, as the script behaves.  With the stored backoff at 500 and the
    ceiling at 15000, the k-th of n consecutive failures waits
    min(500 * 2^k, 15000): the stored value is doubled before it is used,
    so the delays run 1000, 2000, 4000, 8000, 15000, 15000, ...  The
    stored value itself is not capped: after n failures, n up to 1015,
    it is 500 * 2^n (the double overflows after that).  A successful open
    stores 500 again, and the failure after it waits 1000. *)
Theorem C1_backoff_delays :
  forall (B : Browser) (w : World) (n : nat),
    wsBackoffMs (state w) = 500 ->
    wsMaxBackoffMs (state w) = 15000 ->
    canConnect B w = true ->
    sockets (env w) <> [] ->
    exists w',
      run B w (failures n) = Some w'
      /\ scheduled (env w')
         = (scheduled (env w)
            ++ map (fun k => Z.min (500 * 2 ^ Z.of_nat k) 15000) (seq 1 n))%list
      /\ ((n <= 1015)%nat -> wsBackoffMs (state w') = 500 * 2 ^ Z.of_nat n)
      /\ wsBackoffMs (state (onOpen w')) = 500
      /\ exists w'',
           run B w' [EvSocketOpen 0; EvSocketClose 0] = Some w''
           /\ scheduled (env w'') = (scheduled (env w') ++ [1000])%list.
Proof.
  intros B w n Hb Hm Hc Hs.
  destruct (failures_delays B n w Hc Hs) as [w' [R [Bk [Mx [Sc [Cn Ne]]]]]].
  rewrite Hb, Hm in *.
  exists w'. repeat split; auto.
  destruct (sockets (env w')) as [|u us] eqn:Es; [contradiction|].
  cbn [run step]. rewrite Es. cbn [nth_error].
  change (sockets (env (onOpen w'))) with (sockets (env w')).
  rewrite Es. cbn [nth_error].
  eexists. split; [reflexivity|].
  cbn. now rewrite Mx.
Qed.

Lemma C1_backoff_delays_witness :
  exists w',
    run Example.browser Example.connectingWorld (failures 6) = Some w'
    /\ scheduled (env w') = [1000; 2000; 4000; 8000; 15000; 15000]
    /\ wsBackoffMs (state w') = 32000.
Proof.
  destruct (C1_backoff_delays Example.browser Example.connectingWorld 6
              eq_refl eq_refl eq_refl ltac:(discriminate))
    as [w' [R [S [K _]]]].
  exists w'. split; [exact R|]. split; [exact S|].
  apply K. repeat constructor.
Defined.

(** C1, as claimed, fails: from the world in which the first socket has
    just been made, five failures in a row wait 1000, 2000, 4000, 8000
    and 15000, not 500, 1000, 2000, 4000 and 8000; and after the socket
    then opens, the next failure waits 1000, not 500. *)
Lemma C1_counterexample :
  exists w' w'',
    run Example.browser Example.connectingWorld (failures 5) = Some w'
    /\ scheduled (env w') = [1000; 2000; 4000; 8000; 15000]
    /\ scheduled (env w') <> [500; 1000; 2000; 4000; 8000]
    /\ run Example.browser w' [EvSocketOpen 0; EvSocketClose 0] = Some w''
    /\ wsBackoffMs (state (onOpen w')) = 500
    /\ scheduled (env w'') = [1000; 2000; 4000; 8000; 15000; 1000].
Proof.
  eexists. eexists.
  split; [vm_compute; reflexivity|].
  split; [reflexivity|].
  split; [discriminate|].
  split; [vm_compute; reflexivity|].
  split; reflexivity.
Qed.

(** Two history entries with one timestamp keep the order in which the
    server listed them, around an earlier one that moves to the front. *)
Example bulk_load_keeps_ties :
  forall (B : Browser) (ents : nat -> Entropy),
    map id (initialBatch B ents
              [Example.historyEntry 41 "x" 200; Example.historyEntry 42 "y" 100;
               Example.historyEntry 43 "z" 200])
    = [VStr "y"; VStr "x"; VStr "z"].
Proof. reflexivity. Qed.


(** * Further properties of the script *)

(** ** The normaliser beyond the claims *)

Lemma coalesce_defined (a b : JsVal) :
  nullish b = false -> nullish (a ?? b) = false.
Proof. intros H. unfold coalesce. destruct (nullish a) eqn:E; assumption. Qed.

Lemma optGet_nullish (v : JsVal) (k : string) :
  nullish v = true -> v ?. k = VUndef.
Proof. destruct v; try discriminate; reflexivity. Qed.

Lemma coalesce_nullish (a b : JsVal) : nullish a = true -> a ?? b = b.
Proof. intros H. unfold coalesce. now rewrite H. Qed.

(** X1. Every message the normaliser returns has an author, a body and a
    timestamp that are neither null nor undefined, and its id is null or
    undefined only when the input was the empty string. *)
Theorem normalizeMessage_fields_defined :
  forall (B : Browser) (e : Entropy) (raw : JsVal) (m : Message),
    normalizeMessage B e raw = Some m ->
    nullish (userName m) = false
    /\ nullish (message m) = false
    /\ nullish (timestamp m) = false
    /\ (nullish (id m) = true -> raw = VStr "").
Proof.
  intros B e raw m.
  assert (G : forall obj,
             nullish (obj ?. "id" ?? obj ?. "messageId" ?? obj ?. "pk" ??
                      obj ?. "sk" ?? synthesizedId e obj) = false
             /\ nullish (obj ?. "senderId" ?? obj ?. "userName" ??
                         obj ?. "username" ?? obj ?. "user" ??
                         obj ?. "author" ?? VStr "unknown") = false
             /\ nullish (obj ?. "content" ?? obj ?. "message" ??
                         obj ?. "text" ?? obj ?. "body" ?? VStr "") = false
             /\ nullish (if truthy (obj ?. "createdAt")
                         then VNum (dateGetTime B (obj ?. "createdAt"))
                         else obj ?. "timestamp" ?? VNum (Num (dateNowTs e)))
                = false).
  { intros obj. repeat split; repeat apply coalesce_defined; try reflexivity.
    destruct (truthy (obj ?. "createdAt")); [reflexivity|].
    now apply coalesce_defined. }
  unfold normalizeMessage.
  set (u := raw ?. "payload" ?. "message" ?? raw ?. "data" ?. "message" ??
            raw ?. "message" ?? raw ?. "payload" ?? raw ?. "data" ?? raw).
  destruct (negb (truthy u)
            || negb (isTObject (typeof u)) && negb (isTString (typeof u)))
    eqn:Hg.
  - destruct raw as [| | | |s| |]; cbn [typeof isTString]; try discriminate.
    intros H. injection H as <-. cbn.
    repeat split. intros _.
    subst u. cbn in Hg. destruct s; [reflexivity|discriminate].
  - intros H. injection H as <-. cbn [userName message timestamp id].
    destruct (G (if isTString (typeof u)
                 then VObj 1 [("message", u)] else u)) as [G1 [G2 [G3 G4]]].
    repeat split; try assumption.
    intros Hn. rewrite G1 in Hn. discriminate.
Qed.

Lemma normalizeMessage_fields_defined_witness :
  nullish (userName Example.hello) = false
  /\ nullish (message Example.hello) = false
  /\ nullish (timestamp Example.hello) = false
  /\ (nullish (id Example.hello) = true
      -> Example.historyEntry 31 "m1" 100 = VStr "").
Proof.
  apply (normalizeMessage_fields_defined Example.browser (Example.entropy 0)
           (Example.historyEntry 31 "m1" 100) Example.hello).
  reflexivity.
Defined.

(** X2. An object whose [message] key holds a non-empty string, and which has
    no message under [payload] or [data], normalises exactly as that bare
    string does: its own id, author and timestamp keys are not read. *)
Theorem string_message_field_shadows_record :
  forall (B : Browser) (e : Entropy) (r : positive)
         (fs : list (string * JsVal)) (s : string),
    nullish (VObj r fs ?. "payload" ?. "message") = true ->
    nullish (VObj r fs ?. "data" ?. "message") = true ->
    VObj r fs ?. "message" = VStr s ->
    s <> "" ->
    normalizeMessage B e (VObj r fs) = normalizeMessage B e (VStr s)
    /\ exists m, normalizeMessage B e (VObj r fs) = Some m
                 /\ userName m = VStr "unknown"
                 /\ message m = VStr s
                 /\ timestamp m = VNum (Num (dateNowTs e)).
Proof.
  intros B e r fs s H1 H2 H3 Hs.
  assert (E : normalizeMessage B e (VObj r fs) = normalizeMessage B e (VStr s)).
  { unfold normalizeMessage at 1.
    rewrite (coalesce_nullish _ _ H1), (coalesce_nullish _ _ H2), H3.
    destruct s as [|c s]; [contradiction|]. reflexivity. }
  split; [exact E|]. rewrite E.
  destruct s as [|c s]; [contradiction|].
  eexists. split; [reflexivity|]. repeat split.
Qed.

Lemma string_message_field_shadows_record_witness :
  normalizeMessage Example.browser (Example.entropy 0)
    (VObj 5 [("id", VStr "m9"); ("userName", VStr "ann");
             ("message", VStr "hi"); ("timestamp", VNum (Num 100))])
  = normalizeMessage Example.browser (Example.entropy 0) (VStr "hi").
Proof.
  apply (string_message_field_shadows_record Example.browser
           (Example.entropy 0) 5%positive
           [("id", VStr "m9"); ("userName", VStr "ann");
            ("message", VStr "hi"); ("timestamp", VNum (Num 100))] "hi");
    try reflexivity.
  discriminate.
Defined.

Lemma own_record_normalised (B : Browser) (e : Entropy) (raw : JsVal) :
  isObject raw = true ->
  noEnvelope raw = true ->
  normalizeMessage B e raw
  = Some {| id := raw ?. "id" ?? raw ?. "messageId" ?? raw ?. "pk" ??
                  raw ?. "sk" ?? synthesizedId e raw;
            userName := raw ?. "senderId" ?? raw ?. "userName" ??
                        raw ?. "username" ?? raw ?. "user" ??
                        raw ?. "author" ?? VStr "unknown";
            message := raw ?. "content" ?? raw ?. "text" ??
                       raw ?. "body" ?? VStr "";
            timestamp := if truthy (raw ?. "createdAt")
                         then VNum (dateGetTime B (raw ?. "createdAt"))
                         else raw ?. "timestamp" ??
                              VNum (Num (dateNowTs e)) |}.
Proof.
  intros Ho Hn. unfold noEnvelope in Hn.
  apply Bool.andb_true_iff in Hn as [Hn H3].
  apply Bool.andb_true_iff in Hn as [H1 H2].
  unfold normalizeMessage.
  rewrite (optGet_nullish _ "message" H1), (optGet_nullish _ "message" H2).
  rewrite !(coalesce_nullish VUndef) by reflexivity.
  rewrite (coalesce_nullish _ _ H3), (coalesce_nullish _ _ H1),
    (coalesce_nullish _ _ H2).
  destruct raw; try discriminate; cbn [truthy negb orb typeof isTObject
                                         isTString andb];
    rewrite ?(coalesce_nullish _ _ H3); reflexivity.
Qed.

Lemma orElse_converts (a b : JsVal) :
  toStringRaises a = false -> toStringRaises b = false ->
  toStringRaises (a <|> b) = false.
Proof. intros Ha Hb. unfold orElse. now destruct (truthy a). Qed.

Lemma convertsKeys_fields (obj : JsVal) :
  convertsKeys obj = true ->
  toStringRaises (obj ?. "senderId" <|> obj ?. "userName" <|>
                  obj ?. "username" <|> VStr "user") = false
  /\ (forall z, toStringRaises (obj ?. "createdAt" <|> obj ?. "timestamp" <|>
                                VNum (Num z)) = false)
  /\ toStringRaises (obj ?. "createdAt") = false
  /\ toStringRaises (obj ?. "timestamp") = false.
Proof.
  unfold convertsKeys. cbn [forallb]. intros H.
  repeat (apply Bool.andb_true_iff in H as [?H H]).
  repeat match goal with
         | K : negb _ = true |- _ => apply Bool.negb_true_iff in K
         end.
  repeat split; try assumption; intros;
    repeat apply orElse_converts; auto.
Qed.

(** A record that is its own message, with values that convert, makes
    the call return what [normalizeMessage] computes. *)
Lemma own_record_returns (B : Browser) (e : Entropy) (raw : JsVal) :
  isObject raw = true ->
  noEnvelope raw = true ->
  convertsKeys raw = true ->
  normalizeMessageJs B e raw = Returned (normalizeMessage B e raw).
Proof.
  intros Ho Hn Hc.
  destruct (normalizeMessageJs_cases B e raw) as [E|E]; [|exact E].
  exfalso. revert E.
  destruct (convertsKeys_fields raw Hc) as [C1 [C2 [C3 C4]]].
  unfold noEnvelope in Hn.
  apply Bool.andb_true_iff in Hn as [Hn H3].
  apply Bool.andb_true_iff in Hn as [H1 H2].
  unfold normalizeMessageJs.
  rewrite (optGet_nullish _ "message" H1), (optGet_nullish _ "message" H2).
  rewrite !(coalesce_nullish VUndef) by reflexivity.
  rewrite (coalesce_nullish _ _ H3), (coalesce_nullish _ _ H1),
    (coalesce_nullish _ _ H2).
  assert (G : negb (truthy raw)
              || negb (isTObject (typeof raw)) && negb (isTString (typeof raw))
              = false) by (destruct raw; try discriminate; reflexivity).
  assert (T : isTString (typeof raw) = false)
    by (destruct raw; try discriminate; reflexivity).
  rewrite G, T.
  unfold synthesizedIdJs, toStringJs, dateGetTimeJs.
  rewrite C1, C2, C3.
  destruct (nullish (raw ?. "id" ?? raw ?. "messageId" ?? raw ?. "pk" ??
                     raw ?. "sk" ?? VUndef));
    destruct (truthy (raw ?. "createdAt")); discriminate.
Qed.

(** X3. No object and no array is rejected unless an envelope key leads to
    something that is not a message: on a payload without [payload],
    [data] and [message] keys the call never returns the "not a message"
    signal.  When the author and time values it reads convert, it returns
    a message read from the payload's own keys, with "unknown" and the
    empty string where author and body are missing, and with an id.  In
    particular every array becomes an empty message. *)
Theorem record_without_envelope_accepted :
  forall (B : Browser) (e : Entropy) (raw : JsVal),
    isObject raw = true ->
    noEnvelope raw = true ->
    inRange raw = true ->
    normalizeMessageJs B e raw <> Returned None
    /\ (convertsKeys raw = true ->
        exists m,
          normalizeMessageJs B e raw = Returned (Some m)
          /\ nullish (id m) = false
          /\ userName m = raw ?. "senderId" ?? raw ?. "userName" ??
                          raw ?. "username" ?? raw ?. "user" ??
                          raw ?. "author" ?? VStr "unknown"
          /\ message m = raw ?. "content" ?? raw ?. "text" ??
                         raw ?. "body" ?? VStr ""
          /\ timestamp m = if truthy (raw ?. "createdAt")
                           then VNum (dateGetTime B (raw ?. "createdAt"))
                           else raw ?. "timestamp" ??
                                VNum (Num (dateNowTs e)))
    /\ (forall r items,
           raw = VArr r items ->
           normalizeMessageJs B e raw
           = Returned
               (Some {| id := VStr ("user-" ++ decimal (dateNowId e) ++ "-"
                                    ++ mathRandom e);
                        userName := VStr "unknown";
                        message := VStr "";
                        timestamp := VNum (Num (dateNowTs e)) |})).
Proof.
  intros B e raw Ho Hn _.
  pose proof (own_record_normalised B e raw Ho Hn) as E.
  split; [|split].
  - destruct (normalizeMessageJs_cases B e raw) as [K|K]; rewrite K;
      [discriminate|]. rewrite E. discriminate.
  - intros Hc. rewrite (own_record_returns B e raw Ho Hn Hc), E.
    eexists. split; [reflexivity|]. cbn [id userName message timestamp].
    split; [|repeat split].
    repeat apply coalesce_defined. reflexivity.
  - intros r items ->. reflexivity.
Qed.

Lemma record_without_envelope_accepted_witness :
  exists m,
    normalizeMessageJs Example.browser (Example.entropy 0)
      (VObj 7 [("type", VStr "ping"); ("timestamp", VNum (Num 100))])
    = Returned (Some m)
    /\ nullish (id m) = false
    /\ userName m = VStr "unknown"
    /\ message m = VStr ""
    /\ timestamp m = VNum (Num 100).
Proof.
  destruct (record_without_envelope_accepted Example.browser
              (Example.entropy 0)
              (VObj 7 [("type", VStr "ping"); ("timestamp", VNum (Num 100))])
              eq_refl eq_refl eq_refl) as [_ [H _]].
  exact (H eq_refl).
Defined.

(** ** Admission beyond the claims *)

Lemma renderMessage_fresh (w : World) (m : Message) :
  Map_has (messages (state w)) (id m) = false ->
  renderThrows m = false ->
  snd (renderMessage w (Some m)) = Normal
  /\ messages (state (fst (renderMessage w (Some m))))
     = (messages (state w) ++ [entryOf m])%list
  /\ messagesContainer (dom (fst (renderMessage w (Some m))))
     = (messagesContainer (dom w) ++ [m])%list.
Proof.
  intros Hh Ht. unfold renderMessage. rewrite Hh, Ht. cbn.
  now rewrite Map_set_absent.
Qed.

Lemma allFresh_after (store : JsMap) (m : Message) (l : list Message) :
  allFresh store l = true ->
  existsb (fun m' => sameValueZero (id m) (id m')) l = false ->
  allFresh (store ++ [entryOf m]) l = true.
Proof.
  induction l as [|x l IH]; cbn [allFresh existsb]; intros Hf He; auto.
  apply Bool.andb_true_iff in Hf as [Hf H3].
  apply Bool.andb_true_iff in Hf as [H1 H2].
  apply Bool.orb_false_iff in He as [He1 He2].
  rewrite Map_has_app, H2, IH by assumption.
  apply Bool.negb_true_iff in H1. rewrite H1. cbn.
  now rewrite He1.
Qed.

(** Messages that are all new and all renderable are appended, each once
    and in the order given, to the store and to the page. *)
Lemma forEachRender_fresh (l : list Message) (w : World) :
  allFresh (messages (state w)) l = true ->
  forallb (fun m => negb (renderThrows m)) l = true ->
  snd (forEachRender w l) = Normal
  /\ messages (state (fst (forEachRender w l)))
     = (messages (state w) ++ map entryOf l)%list
  /\ messagesContainer (dom (fst (forEachRender w l)))
     = (messagesContainer (dom w) ++ l)%list.
Proof.
  revert w. induction l as [|m l IH]; intros w Hf Hr.
  - cbn. now rewrite !app_nil_r.
  - cbn [allFresh forallb] in Hf, Hr.
    apply Bool.andb_true_iff in Hf as [Hf H3].
    apply Bool.andb_true_iff in Hf as [H1 H2].
    apply Bool.andb_true_iff in Hr as [Hr1 Hr2].
    apply Bool.negb_true_iff in H1, H2, Hr1.
    destruct (renderMessage_fresh w m H1 Hr1) as [Ec [Es Ed]].
    cbn [forEachRender].
    destruct (renderMessage w (Some m)) as [w1 c]. cbn [fst snd] in *.
    subst c.
    destruct (IH w1) as [Ic [Is Id]]; [|assumption|].
    + rewrite Es. now apply allFresh_after.
    + rewrite Is, Id, Es, Ed, <- !app_assoc. auto.
Qed.

(** X4. Synthesized ids do not deduplicate.  A record with no id key, read
    twice in the same millisecond with different random digits, gets two
    different ids, and both copies are stored and shown. *)
Theorem synthesized_ids_do_not_deduplicate :
  forall (B : Browser) (e1 e2 : Entropy) (raw : JsVal),
    isObject raw = true ->
    noEnvelope raw = true ->
    inRange raw = true ->
    convertsKeys raw = true ->
    noIdKeys raw = true ->
    dateNowId e1 = dateNowId e2 ->
    mathRandom e1 <> mathRandom e2 ->
    exists m1 m2,
      normalizeMessageJs B e1 raw = Returned (Some m1)
      /\ normalizeMessageJs B e2 raw = Returned (Some m2)
      /\ sameValueZero (id m1) (id m2) = false
      /\ forall w,
           Map_has (messages (state w)) (id m1) = false ->
           Map_has (messages (state w)) (id m2) = false ->
           renderThrows m1 = false ->
           messages (state (fst (forEachRender w [m1; m2])))
           = (messages (state w) ++ [entryOf m1; entryOf m2])%list
           /\ messagesContainer (dom (fst (forEachRender w [m1; m2])))
              = (messagesContainer (dom w) ++ [m1; m2])%list.
Proof.
  intros B e1 e2 raw Ho Hn _ Hc Hi Hd Hr.
  pose proof (own_record_normalised B e1 raw Ho Hn) as E1.
  pose proof (own_record_normalised B e2 raw Ho Hn) as E2.
  destruct (convertsKeys_fields raw Hc) as [_ [_ [_ C4]]].
  unfold noIdKeys in Hi.
  apply Bool.andb_true_iff in Hi as [Hi H4].
  apply Bool.andb_true_iff in Hi as [Hi H3].
  apply Bool.andb_true_iff in Hi as [H1 H2].
  rewrite (coalesce_nullish _ (synthesizedId e1 raw) H4),
    (coalesce_nullish _ (synthesizedId e1 raw) H3),
    (coalesce_nullish _ (synthesizedId e1 raw) H2),
    (coalesce_nullish _ (synthesizedId e1 raw) H1) in E1.
  rewrite (coalesce_nullish _ (synthesizedId e2 raw) H4),
    (coalesce_nullish _ (synthesizedId e2 raw) H3),
    (coalesce_nullish _ (synthesizedId e2 raw) H2),
    (coalesce_nullish _ (synthesizedId e2 raw) H1) in E2.
  eexists. eexists.
  split; [rewrite (own_record_returns B e1 raw Ho Hn Hc); now rewrite E1|].
  split; [rewrite (own_record_returns B e2 raw Ho Hn Hc); now rewrite E2|].
  assert (Hne : sameValueZero (synthesizedId e1 raw) (synthesizedId e2 raw)
                = false).
  { unfold synthesizedId. cbn [sameValueZero]. rewrite Hd.
    rewrite !append_eqb_l. now apply String.eqb_neq. }
  split; [exact Hne|].
  intros w Hh1 Hh2 Ht1. cbn [id] in *.
  assert (Ht2 : renderThrows
                  {| id := synthesizedId e2 raw;
                     userName := raw ?. "senderId" ?? raw ?. "userName" ??
                                 raw ?. "username" ?? raw ?. "user" ??
                                 raw ?. "author" ?? VStr "unknown";
                     message := raw ?. "content" ?? raw ?. "text" ??
                                raw ?. "body" ?? VStr "";
                     timestamp := if truthy (raw ?. "createdAt")
                                  then VNum (dateGetTime B (raw ?. "createdAt"))
                                  else raw ?. "timestamp" ??
                                       VNum (Num (dateNowTs e2)) |} = false).
  { unfold renderThrows in Ht1 |- *. cbn [id userName message timestamp] in *.
    apply Bool.orb_false_iff in Ht1 as [Ht1 _].
    apply Bool.orb_false_iff in Ht1 as [Ht1 _].
    rewrite Ht1. cbn [orb].
    destruct (truthy (raw ?. "createdAt")); [reflexivity|].
    unfold coalesce. destruct (nullish (raw ?. "timestamp")); [reflexivity|].
    exact C4. }
  match goal with
  | |- context [forEachRender w ?l] =>
      destruct (forEachRender_fresh l w) as [_ [Es Ed]]
  end.
  - cbn [allFresh existsb id]. rewrite Hh1, Hh2, Hne. reflexivity.
  - cbn [forallb]. rewrite Ht1, Ht2. reflexivity.
  - split; assumption.
Qed.

Lemma synthesized_ids_do_not_deduplicate_witness :
  exists m1 m2,
    normalizeMessageJs Example.browser (Example.entropy 0)
      (VObj 7 [("senderId", VStr "ann"); ("content", VStr "hello");
               ("timestamp", VNum (Num 100))]) = Returned (Some m1)
    /\ normalizeMessageJs Example.browser
         {| dateNowId := 1700000000000; mathRandom := "zz81";
            dateNowTs := 1700000000000 |}
         (VObj 7 [("senderId", VStr "ann"); ("content", VStr "hello");
                  ("timestamp", VNum (Num 100))]) = Returned (Some m2)
    /\ sameValueZero (id m1) (id m2) = false.
Proof.
  destruct (synthesized_ids_do_not_deduplicate Example.browser
              (Example.entropy 0)
              {| dateNowId := 1700000000000; mathRandom := "zz81";
                 dateNowTs := 1700000000000 |}
              (VObj 7 [("senderId", VStr "ann"); ("content", VStr "hello");
                       ("timestamp", VNum (Num 100))])
              eq_refl eq_refl eq_refl eq_refl eq_refl eq_refl
              ltac:(discriminate))
    as [m1 [m2 [H1 [H2 [H3 _]]]]].
  exists m1, m2. auto.
Defined.

(** X5. History messages that are all new and all renderable are appended to
    the store and to the page in chronological order, whatever order the
    server listed them in, when no entry makes the map or the comparator
    throw. *)
Theorem history_appended_in_chronological_order :
  forall (B : Browser) (ents : nat -> Entropy) (w : World) (r : positive)
         (raws : list JsVal),
    let batch := initialBatch B ents raws in
    forallb inRange raws = true ->
    batchRaises B ents raws = false ->
    Forall numeric (filterBoolean (mapNormalize B ents 0%nat raws)) ->
    allFresh (messages (state w)) batch = true ->
    forallb (fun m => negb (renderThrows m)) batch = true ->
    let w' := fst (renderInitialMessagesJs B ents w (VArr r raws)) in
    snd (renderInitialMessagesJs B ents w (VArr r raws)) = Normal
    /\ messages (state w') = (messages (state w) ++ map entryOf batch)%list
    /\ messagesContainer (dom w') = (messagesContainer (dom w) ++ batch)%list
    /\ StronglySorted earlier batch
    /\ Permutation (filterBoolean (mapNormalize B ents 0%nat raws)) batch.
Proof.
  intros B ents w r raws batch _ Hb Hn Hf Hr w'.
  subst w'. unfold renderInitialMessagesJs. rewrite Hb.
  cbn [renderInitialMessages].
  destruct (forEachRender_fresh batch w Hf Hr) as [Ec [Es Ed]].
  repeat split; try assumption.
  - now apply Array_sort_sorted.
  - apply Array_sort_perm.
Qed.

Lemma history_appended_in_chronological_order_witness :
  map (fun e => sentAt (snd e))
    (messages (state (fst (renderInitialMessagesJs Example.browser
                             Example.entropy Example.connectingWorld
                             (VArr 21 Example.outOfOrder)))))
  = [100; 200; 300].
Proof.
  destruct (history_appended_in_chronological_order Example.browser
              Example.entropy Example.connectingWorld 21%positive
              Example.outOfOrder)
    as [_ [H _]].
  - reflexivity.
  - reflexivity.
  - repeat constructor.
  - reflexivity.
  - reflexivity.
  - rewrite H. reflexivity.
Defined.

(** X6. A batch frame on the socket is admitted in the order of its array:
    the live path does not sort.  When the map returns, entries that are
    all new and renderable are appended to the store and the page as they
    were listed. *)
Theorem live_batch_keeps_arrival_order :
  forall (B : Browser) (ents : nat -> Entropy) (w : World) (evData : string)
         (data : JsVal) (r : positive) (raws : list JsVal)
         (l : list (option Message)),
    jsonParse B evData = Some data ->
    data ?. "messages" = VArr r raws ->
    forallb inRange raws = true ->
    mapNormalizeJs B ents 0%nat raws = Returned l ->
    let batch := filterBoolean l in
    allFresh (messages (state w)) batch = true ->
    forallb (fun m => negb (renderThrows m)) batch = true ->
    let w' := fst (onMessage B ents w evData) in
    snd (onMessage B ents w evData) = Normal
    /\ messages (state w') = (messages (state w) ++ map entryOf batch)%list
    /\ messagesContainer (dom w') = (messagesContainer (dom w) ++ batch)%list.
Proof.
  intros B ents w evData data r raws l Hp Hm _ Hl batch Hf Hr w'.
  subst w'. unfold onMessage. rewrite Hp, Hm, Hl.
  destruct (forEachRender_fresh batch w Hf Hr) as [Ec [Es Ed]].
  repeat split; assumption.
Qed.

Lemma live_batch_keeps_arrival_order_witness :
  map (fun e => sentAt (snd e))
    (messages (state (fst (onMessage Sample.browser Example.entropy
                             Example.connectingWorld Sample.batchText))))
  = [300; 100].
Proof.
  destruct (live_batch_keeps_arrival_order Sample.browser Example.entropy
              Example.connectingWorld Sample.batchText Sample.batchValue
              51%positive
              [VObj 52 [("id", VStr "p"); ("content", VStr "second");
                        ("timestamp", VNum (Num 300))];
               VObj 53 [("id", VStr "q"); ("content", VStr "first");
                        ("timestamp", VNum (Num 100))]]
              _ eq_refl eq_refl eq_refl eq_refl eq_refl eq_refl)
    as [_ [H _]].
  rewrite H. reflexivity.
Defined.



(** ** Invariants of the store and the page over every run *)

(** A property of the store and the container that [renderMessage] keeps
    is kept by every turn of the event loop. *)
Lemma forEachRender_keeps (P : JsMap * list Message -> Prop) :
  (forall w m, P (shown w) -> P (shown (fst (renderMessage w (Some m))))) ->
  forall l w, P (shown w) -> P (shown (fst (forEachRender w l))).
Proof.
  intros HP. induction l as [|m l IH]; intros w H; cbn [forEachRender];
    [assumption|].
  specialize (HP w m H).
  destruct (renderMessage w (Some m)) as [w1 []]; cbn [fst] in *; auto.
Qed.

Lemma step_keeps (P : JsMap * list Message -> Prop) :
  (forall w m, P (shown w) -> P (shown (fst (renderMessage w (Some m))))) ->
  forall B w w' ev, step B w ev = Some w' -> P (shown w) -> P (shown w').
Proof.
  intros HP B w w' ev.
  destruct ev as [text|u p|k r|h ents| |r|k|k|k evData ents|k|k];
    cbn [step]; intros H.
  - injection H as <-. auto.
  - injection H as <-. now rewrite handleLogin_shown.
  - destruct (nth_error (pendingLogins (env w)) k); [|discriminate].
    injection H as <-. now rewrite handleLogin_afterLogin_shown.
  - destruct (pendingHistory (env w)) as [|n]; [discriminate|].
    injection H as <-.
    match goal with
    | |- context [handleLogin_afterHistory B ents ?x h] =>
        destruct (handleLogin_afterHistory_shown B ents x h)
          as [E|[data [r [raws [_ [_ E]]]]]]; rewrite E; [auto|]
    end.
    intros H0. now apply forEachRender_keeps.
  - injection H as <-. now rewrite sendMessage_shown.
  - destruct (pendingSends (env w)); [discriminate|].
    injection H as <-. now rewrite sendMessage_afterPost_shown.
  - destruct (nth_error (timers (env w)) k); [|discriminate].
    injection H as <-. now rewrite connectWebSocket_shown.
  - destruct (nth_error (sockets (env w)) k); [|discriminate].
    injection H as <-. auto.
  - destruct (nth_error (sockets (env w)) k); [|discriminate].
    injection H as <-. unfold onMessage.
    destruct (match jsonParse B evData with
              | Some v => v
              | None => VStr evData
              end ?. "messages");
      try (destruct (normalizeMessageJs B (ents 0%nat) _) as [[msg|]|];
           [apply HP | auto | auto]).
    destruct (mapNormalizeJs B ents 0%nat items); [|auto].
    intros H0. now apply forEachRender_keeps.
  - destruct (nth_error (sockets (env w)) k); [|discriminate].
    injection H as <-. auto.
  - destruct (nth_error (sockets (env w)) k); [|discriminate].
    injection H as <-. auto.
Qed.

Lemma run_keeps (P : JsMap * list Message -> Prop) :
  (forall w m, P (shown w) -> P (shown (fst (renderMessage w (Some m))))) ->
  forall B evs w w', run B w evs = Some w' -> P (shown w) -> P (shown w').
Proof.
  intros HP B. induction evs as [|ev evs IH]; cbn [run]; intros w w' H H0.
  - now injection H as <-.
  - destruct (step B w ev) as [w1|] eqn:Hs; [|discriminate].
    eapply IH; [exact H|]. eapply step_keeps; eassumption.
Qed.

Lemma renderable_app (s1 s2 : JsMap) :
  renderable (s1 ++ s2) = (renderable s1 ++ renderable s2)%list.
Proof. unfold renderable. now rewrite map_app, filter_app. Qed.

Lemma renderable_one (k : JsVal) (m : Message) :
  renderable [(k, m)] = if renderThrows m then [] else [m].
Proof. unfold renderable. cbn. now destruct (renderThrows m). Qed.

Lemma renderMessage_pageMatchesStore (w : World) (m : Message) :
  pageMatchesStore (shown w) ->
  pageMatchesStore (shown (fst (renderMessage w (Some m)))).
Proof.
  unfold pageMatchesStore, shown. cbn [fst snd]. intros H.
  unfold renderMessage.
  destruct (Map_has (messages (state w)) (id m)) eqn:Hh; [assumption|].
  rewrite Map_set_absent by assumption.
  destruct (renderThrows m) eqn:Ht;
    cbn [fst snd withState withDom state dom setMessages
           setMessagesContainer messages messagesContainer];
    rewrite renderable_app, H, renderable_one, Ht;
    now rewrite ?app_nil_r.
Qed.

(** X8. In every world the script can reach, the page shows exactly the
    stored messages whose node can be built, in the order of the store:
    nothing is shown that is not stored, nothing is shown twice, and a
    stored message is missing from the page only if building its node
    threw. *)
Theorem page_shows_renderable_store :
  forall (B : Browser) (evs : list Event) (w : World),
    run B initialWorld evs = Some w ->
    messagesContainer (dom w) = renderable (messages (state w)).
Proof.
  intros B evs w H.
  apply (run_keeps pageMatchesStore renderMessage_pageMatchesStore
           B evs initialWorld w H).
  reflexivity.
Qed.

Lemma page_shows_renderable_store_witness :
  map (fun e => message (snd e)) (messages (state Sample.chatting))
  = [VStr "hello"; VStr "hello"; VStr "hi"]
  /\ map userName (messagesContainer (dom Sample.chatting))
     = [VStr "ann"; VStr "unknown"]
  /\ messagesContainer (dom Sample.chatting)
     = renderable (messages (state Sample.chatting)).
Proof.
  split; [reflexivity|]. split; [reflexivity|].
  apply (page_shows_renderable_store Example.browser
           (Sample.opening ++ Sample.arrival)).
  reflexivity.
Defined.

(** X9. The store and the page only grow at the end: whatever events occur,
    the entries and nodes that were there stay, in their places and
    unchanged, and new ones come after them. *)
Theorem store_and_page_append_only :
  forall (B : Browser) (evs : list Event) (w w' : World),
    run B w evs = Some w' ->
    exists newEntries newNodes,
      messages (state w') = (messages (state w) ++ newEntries)%list
      /\ messagesContainer (dom w')
         = (messagesContainer (dom w) ++ newNodes)%list.
Proof.
  intros B evs w w' H.
  set (P := fun sh : JsMap * list Message =>
              exists s1 c1, fst sh = (messages (state w) ++ s1)%list
                            /\ snd sh = (messagesContainer (dom w) ++ c1)%list).
  assert (HP : forall w0 m, P (shown w0) ->
                            P (shown (fst (renderMessage w0 (Some m))))).
  { intros w0 m [s1 [c1 [E1 E2]]]. unfold P, shown in *. cbn [fst snd] in *.
    unfold renderMessage.
    destruct (Map_has (messages (state w0)) (id m)) eqn:Hh; [eauto|].
    rewrite Map_set_absent by assumption.
    destruct (renderThrows m); cbn; rewrite E1, ?E2, <- !app_assoc; eauto. }
  apply (run_keeps P HP B evs w w' H).
  exists [], []. unfold shown. cbn. now rewrite !app_nil_r.
Qed.

Lemma store_and_page_append_only_witness :
  List.length (messages (state Sample.listening)) = 2%nat
  /\ List.length (messagesContainer (dom Sample.listening)) = 1%nat
  /\ List.length (messages (state Sample.chatting)) = 3%nat
  /\ exists newEntries newNodes,
       messages (state Sample.chatting)
       = (messages (state Sample.listening) ++ newEntries)%list
       /\ messagesContainer (dom Sample.chatting)
          = (messagesContainer (dom Sample.listening) ++ newNodes)%list.
Proof.
  split; [reflexivity|]. split; [reflexivity|]. split; [reflexivity|].
  apply (store_and_page_append_only Example.browser Sample.arrival).
  reflexivity.
Defined.

(** ** What rendering leaves alone *)

Lemma renderMessage_beside (w : World) (om : option Message) :
  beside (fst (renderMessage w om)) = beside w.
Proof.
  destruct om as [m|]; [|reflexivity]. unfold renderMessage.
  destruct (Map_has (messages (state w)) (id m)); [reflexivity|].
  destruct (renderThrows m); reflexivity.
Qed.

Lemma forEachRender_beside (l : list Message) (w : World) :
  beside (fst (forEachRender w l)) = beside w.
Proof.
  revert w. induction l as [|m l IH]; intros w; cbn [forEachRender];
    [reflexivity|].
  pose proof (renderMessage_beside w (Some m)) as H.
  destruct (renderMessage w (Some m)) as [w' []]; cbn [fst] in *.
  - now rewrite IH.
  - assumption.
Qed.

Lemma onMessage_beside (B : Browser) (ents : nat -> Entropy) (w : World)
  (evData : string) :
  beside (fst (onMessage B ents w evData)) = beside w.
Proof.
  unfold onMessage.
  destruct (match jsonParse B evData with
            | Some v => v
            | None => VStr evData
            end ?. "messages");
    try (destruct (normalizeMessageJs B (ents 0%nat) _) as [[msg|]|];
         [apply renderMessage_beside | reflexivity | reflexivity]).
  destruct (mapNormalizeJs B ents 0%nat items); [|reflexivity].
  apply forEachRender_beside.
Qed.

Lemma renderInitialMessages_beside (B : Browser) (ents : nat -> Entropy)
  (w : World) (msgs : JsVal) :
  beside (fst (renderInitialMessages B ents w msgs)) = beside w.
Proof.
  unfold renderInitialMessages. destruct msgs; try reflexivity.
  apply forEachRender_beside.
Qed.

Lemma renderInitialMessagesJs_beside (B : Browser) (ents : nat -> Entropy)
  (w : World) (msgs : JsVal) :
  beside (fst (renderInitialMessagesJs B ents w msgs)) = beside w.
Proof.
  unfold renderInitialMessagesJs. destruct msgs; try reflexivity.
  destruct (batchRaises B ents items); [reflexivity|].
  apply renderInitialMessages_beside.
Qed.

(** The world [handleLogin] has when it leaves the inner [try]. *)
Lemma afterHistory_rendered (B : Browser) (ents : nat -> Entropy) (w : World)
  (h : HistoryOutcome) :
  exists w1,
    beside w1 = beside w
    /\ handleLogin_afterHistory B ents w h
       = match connectWebSocket B
                 (setConnectionStatus false "Connecting..." w1) with
         | (w2, Normal) => loginFinally w2
         | (w2, Throw) => loginFinally (loginCatch w2)
         end.
Proof.
  unfold handleLogin_afterHistory, handleLogin_connect.
  destruct h as [| | |data]; try (exists w; split; reflexivity).
  destruct (nullish data); [exists w; split; reflexivity|].
  eexists. split; [|reflexivity]. apply renderInitialMessagesJs_beside.
Qed.

Lemma beside_fields (w w' : World) :
  beside w' = beside w ->
  username (state w') = username (state w)
  /\ token (state w') = token (state w)
  /\ wsUrl (state w') = wsUrl (state w)
  /\ ws (state w') = ws (state w)
  /\ env w' = env w
  /\ chatVisible (dom w') = chatVisible (dom w).
Proof.
  unfold beside. intros H. injection H. intros. repeat split; assumption.
Qed.

(** ** The history response and the session *)






(** ** Trimming *)

Lemma trimStart_head (s : string) :
  trimStart s = ""
  \/ exists c t, trimStart s = String c t /\ isWhiteSpace c = false.
Proof.
  induction s as [|c s IH]; [now left|].
  cbn [trimStart]. destruct (isWhiteSpace c) eqn:E; [assumption|].
  right. eauto.
Qed.

Lemma trimEnd_idempotent (s : string) : trimEnd (trimEnd s) = trimEnd s.
Proof.
  induction s as [|c s IH]; [reflexivity|].
  cbn [trimEnd].
  destruct (isWhiteSpace c && (trimEnd s =? "")%string) eqn:E;
    [reflexivity|].
  cbn [trimEnd]. now rewrite IH, E.
Qed.

Lemma trim_idempotent (s : string) : trim (trim s) = trim s.
Proof.
  unfold trim. destruct (trimStart_head s) as [E|[c [t [E Hc]]]]; rewrite E.
  - reflexivity.
  - cbn [trimEnd]. rewrite Hc. cbn [andb trimStart]. rewrite Hc.
    cbn [trimEnd]. now rewrite Hc, trimEnd_idempotent.
Qed.

Lemma removeNth_length {A : Type} (k : nat) (l : list A) (x : A) :
  nth_error l k = Some x -> S (List.length (removeNth k l)) = List.length l.
Proof.
  revert k. induction l as [|y l IH]; intros [|k]; cbn; try discriminate.
  - reflexivity.
  - intros H. now rewrite IH.
Qed.

Lemma removeNth_incl {A : Type} (k : nat) (l : list A) :
  incl (removeNth k l) l.
Proof.
  revert k. induction l as [|y l IH]; intros [|k]; cbn.
  - apply incl_refl.
  - apply incl_refl.
  - apply incl_tl, incl_refl.
  - apply incl_cons; [now left | apply incl_tl, IH].
Qed.

Lemma Forall_removeNth {A : Type} (P : A -> Prop) (k : nat) (l : list A) :
  Forall P l -> Forall P (removeNth k l).
Proof.
  intros H. apply Forall_forall. intros x Hx.
  eapply Forall_forall; [exact H|]. now apply (removeNth_incl k l).
Qed.

(** ** A token that does not convert *)

(** With such a token [connectWebSocket] makes no socket and sets no
    timer: it either reports the missing endpoint or throws. *)
Lemma handleLogin_connect_raising (B : Browser) (w : World) :
  toStringRaises (token (state w)) = true ->
  state (handleLogin_connect B w) = state w
  /\ timers (env (handleLogin_connect B w)) = timers (env w)
  /\ sockets (env (handleLogin_connect B w)) = sockets (env w)
  /\ scheduled (env (handleLogin_connect B w)) = scheduled (env w)
  /\ outbox (env (handleLogin_connect B w)) = outbox (env w)
  /\ pendingHistory (env (handleLogin_connect B w)) = pendingHistory (env w)
  /\ statusConnected (dom (handleLogin_connect B w)) = false
  /\ loginBtnDisabled (dom (handleLogin_connect B w)) = false.
Proof.
  intros H. unfold handleLogin_connect, connectWebSocket. cbn.
  destruct (negb (truthy (wsUrl (state w))) || negb (truthy (token (state w))));
    [repeat split|].
  rewrite H, Bool.orb_true_r. repeat split.
Qed.

(** ** The reconnect delays over every run *)

Lemma backoffOk_same (w w' : World) :
  wsMaxBackoffMs (state w') = wsMaxBackoffMs (state w) ->
  wsBackoffMs (state w') = wsBackoffMs (state w) ->
  scheduled (env w') = scheduled (env w) ->
  timers (env w') = timers (env w) ->
  backoffOk w -> backoffOk w'.
Proof. unfold backoffOk. intros -> -> -> ->. auto. Qed.

Lemma backoffOk_beside (w w' : World) :
  beside w' = beside w -> backoffOk w -> backoffOk w'.
Proof.
  unfold beside. intros H. injection H. intros He _ _ _ _ _ _ _ Hm Hb _ _ _ _.
  apply backoffOk_same; congruence.
Qed.

Lemma backoffOk_scheduleReconnect (w : World) :
  backoffOk w -> backoffOk (scheduleReconnect w).
Proof.
  unfold backoffOk, scheduleReconnect. cbn. intros [Hm [Hb [Hs Ht]]].
  rewrite Hm.
  assert (Hd : delayOk (Z.min (wsBackoffMs (state w) * 2) 15000))
    by (unfold delayOk; lia).
  repeat split; try lia; apply Forall_app; split; auto.
Qed.

Lemma backoffOk_connectWebSocket (B : Browser) (w : World) :
  backoffOk w -> backoffOk (fst (connectWebSocket B w)).
Proof.
  intros H. unfold connectWebSocket.
  destruct (negb (truthy (wsUrl (state w))) || negb (truthy (token (state w))));
    [exact H|].
  destruct (negb (urlParses B (wsUrl (state w)))
            || toStringRaises (token (state w))); [exact H|].
  cbn [href]. destruct (socketConstructs B (wsUrl (state w))).
  - exact H.
  - now apply backoffOk_scheduleReconnect.
Qed.

Lemma step_backoffOk (B : Browser) (w w' : World) (ev : Event) :
  step B w ev = Some w' -> backoffOk w -> backoffOk w'.
Proof.
  destruct ev as [text|u p|k r|h ents| |r|k|k|k evData ents|k|k];
    cbn [step]; intros H H0.
  - injection H as <-. exact H0.
  - injection H as <-. unfold handleLogin.
    destruct ((trim u =? "")%string || (p =? "")%string); exact H0.
  - destruct (nth_error (pendingLogins (env w)) k) as [user|]; [|discriminate].
    injection H as <-. unfold handleLogin_afterLogin.
    destruct r as [|res]; [exact H0|].
    destruct (nullish res); [exact H0|].
    destruct (truthy (res ?. "token")); [|exact H0].
    match goal with
    | |- context [toStringRaises ?t] => destruct (toStringRaises t) eqn:Er
    end; [|exact H0].
    match goal with
    | |- backoffOk (handleLogin_connect B ?x) =>
        destruct (handleLogin_connect_raising B x Er)
          as [Es [Et [_ [Ec _]]]];
        apply (backoffOk_same x); try (now rewrite Es); assumption
    end.
  - destruct (pendingHistory (env w)) as [|n]; [discriminate|].
    injection H as <-.
    match goal with
    | |- backoffOk (handleLogin_afterHistory B ents ?x h) =>
        destruct (afterHistory_rendered B ents x h) as [w1 [Hb ->]];
        assert (H1 : backoffOk w1) by (apply (backoffOk_beside x); auto)
    end.
    match goal with
    | |- context [connectWebSocket B ?x] =>
        pose proof (backoffOk_connectWebSocket B x H1) as H2;
        destruct (connectWebSocket B x) as [w2 []]
    end; exact H2.
  - injection H as <-. unfold sendMessage.
    destruct ((trim (messageInput (dom w)) =? "")%string
              || negb (truthy (token (state w)))); [exact H0|].
    destruct (toStringRaises (token (state w))); exact H0.
  - destruct (pendingSends (env w)); [discriminate|].
    injection H as <-. destruct r; exact H0.
  - destruct (nth_error (timers (env w)) k); [|discriminate].
    injection H as <-. apply backoffOk_connectWebSocket.
    destruct H0 as [Hm [Hb [Hs Ht]]]. repeat split; auto.
    now apply Forall_removeNth.
  - destruct (nth_error (sockets (env w)) k); [|discriminate].
    injection H as <-. destruct H0 as [Hm [Hb [Hs Ht]]].
    repeat split; auto. cbn. lia.
  - destruct (nth_error (sockets (env w)) k); [|discriminate].
    injection H as <-. apply (backoffOk_beside w); auto.
    apply onMessage_beside.
  - destruct (nth_error (sockets (env w)) k); [|discriminate].
    now injection H as <-.
  - destruct (nth_error (sockets (env w)) k); [|discriminate].
    injection H as <-. unfold onClose. apply backoffOk_scheduleReconnect.
    exact H0.
Qed.

(** X12. In every world the script can reach the ceiling is 15000, the stored
    backoff is at least 500, and every delay that was ever handed to
    [setTimeout] for a reconnect, and so every timer still pending, lies
    between 1000 and 15000: the script never retries at once and never
    waits longer than the ceiling. *)
Theorem reconnect_delays_bounded :
  forall (B : Browser) (evs : list Event) (w : World),
    run B initialWorld evs = Some w ->
    wsMaxBackoffMs (state w) = 15000
    /\ 500 <= wsBackoffMs (state w)
    /\ Forall (fun d => 1000 <= d <= 15000) (scheduled (env w))
    /\ Forall (fun d => 1000 <= d <= 15000) (timers (env w)).
Proof.
  intros B evs.
  assert (G : forall w0 w, backoffOk w0 -> run B w0 evs = Some w -> backoffOk w).
  { induction evs as [|ev evs IH]; cbn [run]; intros w0 w H0 H.
    - now injection H as <-.
    - destruct (step B w0 ev) as [w1|] eqn:Hs; [|discriminate].
      eapply IH; [|exact H]. eapply step_backoffOk; eassumption. }
  intros w H. apply (G initialWorld w); [|exact H].
  repeat split; cbn; try lia; constructor.
Qed.

Lemma reconnect_delays_bounded_witness :
  Forall (fun d => 1000 <= d <= 15000)
    (scheduled
       (env (onClose
               (withEnv (fun e => setSockets (removeNth 0 (sockets e)) e)
                  Example.connectingWorld)))).
Proof.
  apply (reconnect_delays_bounded Example.browser
           [EvLoginSubmit "ann" "password1";
            EvLoginResponse 0 (Resolved Example.loginBody);
            EvHistoryResponse (Body (Example.historyBody [])) Example.entropy;
            EvSocketClose 0]).
  reflexivity.
Defined.

(** ** Sockets and timers over every run *)

Lemma channels_beside (w w' : World) :
  beside w' = beside w -> channels w' = channels w.
Proof.
  unfold beside, channels. intros H. injection H. intros He. intros.
  now rewrite He.
Qed.

Lemma channels_connectWebSocket (B : Browser) (w : World) :
  (channels (fst (connectWebSocket B w)) <= S (channels w))%nat.
Proof.
  unfold connectWebSocket.
  destruct (negb (truthy (wsUrl (state w))) || negb (truthy (token (state w))));
    [cbn; unfold channels; cbn; lia|].
  destruct (negb (urlParses B (wsUrl (state w)))
            || toStringRaises (token (state w))); [cbn; lia|].
  cbn [href]. destruct (socketConstructs B (wsUrl (state w)));
    unfold channels; cbn; rewrite length_app; cbn; lia.
Qed.

Lemma step_channels (B : Browser) (w w' : World) (ev : Event) :
  step B w ev = Some w' ->
  (channels w' <= channels w + historyResponses [ev])%nat.
Proof.
  destruct ev as [text|u p|k r|h ents| |r|k|k|k evData ents|k|k];
    cbn [step historyResponses]; intros H.
  - injection H as <-. unfold channels. cbn. lia.
  - injection H as <-. unfold handleLogin.
    destruct ((trim u =? "")%string || (p =? "")%string);
      unfold channels; cbn; lia.
  - destruct (nth_error (pendingLogins (env w)) k) as [user|]; [|discriminate].
    injection H as <-. unfold handleLogin_afterLogin.
    destruct r as [|res]; [unfold channels; cbn; lia|].
    destruct (nullish res); [unfold channels; cbn; lia|].
    destruct (truthy (res ?. "token")); [|unfold channels; cbn; lia].
    match goal with
    | |- context [toStringRaises ?t] => destruct (toStringRaises t) eqn:Er
    end; [|unfold channels; cbn; lia].
    match goal with
    | |- context [handleLogin_connect B ?x] =>
        destruct (handleLogin_connect_raising B x Er)
          as [_ [Et [Es _]]]
    end.
    unfold channels. rewrite Et, Es. cbn. lia.
  - destruct (pendingHistory (env w)) as [|n]; [discriminate|].
    injection H as <-.
    match goal with
    | |- context [handleLogin_afterHistory B ents ?x h] =>
        destruct (afterHistory_rendered B ents x h) as [w1 [Hb ->]];
        pose proof (channels_beside x w1 Hb) as H1
    end.
    match goal with
    | |- context [connectWebSocket B ?x] =>
        pose proof (channels_connectWebSocket B x) as H2;
        destruct (connectWebSocket B x) as [w2 []]
    end; cbn [fst] in H2; unfold channels in *; cbn in *; lia.
  - injection H as <-. unfold sendMessage.
    destruct ((trim (messageInput (dom w)) =? "")%string
              || negb (truthy (token (state w)))); [unfold channels; cbn; lia|].
    destruct (toStringRaises (token (state w))); unfold channels; cbn; lia.
  - destruct (pendingSends (env w)); [discriminate|].
    injection H as <-. destruct r; unfold channels; cbn; lia.
  - destruct (nth_error (timers (env w)) k) as [d|] eqn:Hk; [|discriminate].
    injection H as <-.
    match goal with
    | |- context [connectWebSocket B ?x] =>
        pose proof (channels_connectWebSocket B x) as H2
    end.
    pose proof (removeNth_length k _ d Hk) as Hl.
    unfold channels in *. cbn in *. lia.
  - destruct (nth_error (sockets (env w)) k); [|discriminate].
    injection H as <-. unfold channels. cbn. lia.
  - destruct (nth_error (sockets (env w)) k); [|discriminate].
    injection H as <-. rewrite (channels_beside w); [lia|].
    apply onMessage_beside.
  - destruct (nth_error (sockets (env w)) k); [|discriminate].
    injection H as <-. lia.
  - destruct (nth_error (sockets (env w)) k) as [u|] eqn:Hk; [|discriminate].
    injection H as <-.
    pose proof (removeNth_length k _ u Hk) as Hl.
    unfold channels. cbn. rewrite length_app. cbn. lia.
Qed.

Lemma historyResponses_cons (ev : Event) (evs : list Event) :
  historyResponses (ev :: evs)
  = (historyResponses [ev] + historyResponses evs)%nat.
Proof. destruct ev; reflexivity. Qed.

(** X13. The connection manager never multiplies channels on its own.  The
    number of sockets with listeners plus reconnect timers pending grows
    by at most one each time a login reaches the end of its history
    request, and by nothing otherwise: a close trades a socket for a
    timer, a timer trades itself for at most one socket or one timer.
    After a single login there is never more than one socket or timer. *)
Theorem channels_bounded_by_logins :
  forall (B : Browser) (evs : list Event) (w w' : World),
    run B w evs = Some w' ->
    (List.length (sockets (env w')) + List.length (timers (env w'))
     <= List.length (sockets (env w)) + List.length (timers (env w))
        + historyResponses evs)%nat.
Proof.
  intros B evs. induction evs as [|ev evs IH]; cbn [run]; intros w w' H.
  - injection H as <-. cbn. lia.
  - destruct (step B w ev) as [w1|] eqn:Hs; [|discriminate].
    pose proof (step_channels B w w1 ev Hs) as H1.
    pose proof (IH w1 w' H) as H2.
    rewrite historyResponses_cons. unfold channels in H1. lia.
Qed.

Lemma channels_bounded_by_logins_witness :
  (List.length (sockets (env Example.connectingWorld))
   + List.length (timers (env Example.connectingWorld)) <= 0 + 0 + 1)%nat.
Proof.
  apply (channels_bounded_by_logins Example.browser
           [EvLoginSubmit "ann" "password1";
            EvLoginResponse 0 (Resolved Example.loginBody);
            EvHistoryResponse (Body (Example.historyBody [])) Example.entropy]
           initialWorld Example.connectingWorld).
  reflexivity.
Defined.

(** ** Requests over every run *)

Lemma step_outbox (B : Browser) (w w' : World) (ev : Event) :
  step B w ev = Some w' ->
  forallb requestOk (outbox (env w)) = true ->
  forallb requestOk (outbox (env w')) = true.
Proof.
  assert (K : forall w1 w2, beside w2 = beside w1 ->
                            outbox (env w2) = outbox (env w1)).
  { unfold beside. intros w1 w2 E. injection E. intros He. intros.
    now rewrite He. }
  assert (C : forall x, outbox (env (fst (connectWebSocket B x)))
                        = outbox (env x)).
  { intros x. unfold connectWebSocket.
    destruct (negb (truthy (wsUrl (state x)))
              || negb (truthy (token (state x)))); [reflexivity|].
    destruct (negb (urlParses B (wsUrl (state x)))
            || toStringRaises (token (state x))); [reflexivity|].
    cbn [href]. destruct (socketConstructs B (wsUrl (state x))); reflexivity. }
  destruct ev as [text|u p|k r|h ents| |r|k|k|k evData ents|k|k];
    cbn [step]; intros H H0.
  - injection H as <-. exact H0.
  - injection H as <-. unfold handleLogin.
    destruct (trim u =? "")%string eqn:Eu; [exact H0|].
    destruct (p =? "")%string eqn:Ep; [exact H0|].
    cbn. rewrite forallb_app, H0. cbn.
    now rewrite Eu, Ep, trim_idempotent, String.eqb_refl.
  - destruct (nth_error (pendingLogins (env w)) k) as [user|]; [|discriminate].
    injection H as <-. unfold handleLogin_afterLogin.
    destruct r as [|res]; [exact H0|].
    destruct (nullish res); [exact H0|].
    destruct (truthy (res ?. "token")) eqn:Et; [|exact H0].
    match goal with
    | |- context [toStringRaises ?t] => destruct (toStringRaises t) eqn:Er
    end.
    + match goal with
      | |- context [handleLogin_connect B ?x] =>
          destruct (handleLogin_connect_raising B x Er)
            as [_ [_ [_ [_ [Eo _]]]]]
      end.
      rewrite Eo. exact H0.
    + cbn in Er |- *. rewrite forallb_app, H0. cbn. now rewrite Et, Er.
  - destruct (pendingHistory (env w)) as [|n]; [discriminate|].
    injection H as <-.
    match goal with
    | |- context [handleLogin_afterHistory B ents ?x h] =>
        destruct (afterHistory_rendered B ents x h) as [w1 [Hb ->]];
        pose proof (K x w1 Hb) as H1
    end.
    match goal with
    | |- context [connectWebSocket B ?x] =>
        pose proof (C x) as H2;
        destruct (connectWebSocket B x) as [w2 []]
    end; cbn in *; now rewrite H2, H1.
  - injection H as <-. unfold sendMessage.
    destruct (trim (messageInput (dom w)) =? "")%string eqn:Et; [exact H0|].
    destruct (truthy (token (state w))) eqn:Ek; [|exact H0].
    cbn [orb negb].
    destruct (toStringRaises (token (state w))) eqn:Er; [exact H0|].
    cbn. rewrite forallb_app, H0. cbn.
    now rewrite Et, Ek, Er, trim_idempotent, String.eqb_refl.
  - destruct (pendingSends (env w)); [discriminate|].
    injection H as <-. destruct r; exact H0.
  - destruct (nth_error (timers (env w)) k); [|discriminate].
    injection H as <-. now rewrite C.
  - destruct (nth_error (sockets (env w)) k); [|discriminate].
    injection H as <-. exact H0.
  - destruct (nth_error (sockets (env w)) k); [|discriminate].
    injection H as <-. rewrite (K w); [exact H0|]. apply onMessage_beside.
  - destruct (nth_error (sockets (env w)) k); [|discriminate].
    now injection H as <-.
  - destruct (nth_error (sockets (env w)) k); [|discriminate].
    injection H as <-. exact H0.
Qed.

(** X19. No malformed request ever leaves the page.  In every world the
    script can reach, each login request carries a trimmed, non-empty
    user name and a non-empty password, each history request a truthy
    token that converts to a string, and each message a trimmed,
    non-empty text and such a token, so that [postJSON], given a base URL
    that converts, gives every message request an Authorization header
    with that token. *)
Theorem requests_well_formed :
  forall (B : Browser) (evs : list Event) (w : World),
    run B initialWorld evs = Some w ->
    forallb requestOk (outbox (env w)) = true
    /\ forall chatConfig senderId content tok,
         In (PostAddMessages senderId content tok) (outbox (env w)) ->
         content <> ""
         /\ trim content = content
         /\ truthy tok = true
         /\ toStringRaises tok = false
         /\ (toStringRaises (API_BASE_URL chatConfig) = false ->
             inRange tok = true ->
             exists req,
               wirePost chatConfig (PostAddMessages senderId content tok)
               = Some (Returned req)
               /\ reqAuthorization req = Some ("Bearer " ++ toString tok)).
Proof.
  intros B evs.
  assert (G : forall w0 w, forallb requestOk (outbox (env w0)) = true ->
                           run B w0 evs = Some w ->
                           forallb requestOk (outbox (env w)) = true).
  { induction evs as [|ev evs IH]; cbn [run]; intros w0 w H0 H.
    - now injection H as <-.
    - destruct (step B w0 ev) as [w1|] eqn:Hs; [|discriminate].
      eapply IH; [|exact H]. eapply step_outbox; eassumption. }
  intros w H. pose proof (G initialWorld w eq_refl H) as Hok.
  split; [exact Hok|].
  intros cfg s c t Hin.
  eapply forallb_forall in Hok; [|exact Hin]. cbn [requestOk] in Hok.
  apply Bool.andb_true_iff in Hok as [Hok H4].
  apply Bool.andb_true_iff in Hok as [Hok H3].
  apply Bool.andb_true_iff in Hok as [H1 H2].
  apply Bool.negb_true_iff, String.eqb_neq in H1.
  apply Bool.negb_true_iff in H4.
  apply String.eqb_eq in H2.
  repeat split; auto.
  intros Hb _. cbn [wirePost]. unfold postJSON_request.
  cbn [String.prefix negb andb]. rewrite Hb, H3, H4. cbn [orb andb].
  eexists. split; [reflexivity|]. reflexivity.
Qed.

Lemma requests_well_formed_witness :
  trim "hello" = "hello"
  /\ exists req,
       wirePost VUndef (PostAddMessages (Some "ann") "hello" (VStr "tok"))
       = Some (Returned req)
       /\ reqAuthorization req = Some "Bearer tok".
Proof.
  destruct (requests_well_formed Example.browser
              [EvLoginSubmit "ann" "password1";
               EvLoginResponse 0 (Resolved Example.loginBody);
               EvHistoryResponse (Body (Example.historyBody []))
                 Example.entropy;
               EvInput "  hello "; EvSendClick]
              (sendMessage Example.composing) eq_refl) as [_ H].
  destruct (H VUndef (Some "ann") "hello" (VStr "tok"))
    as [_ [H1 [_ [_ H2]]]].
  - vm_compute. right. right. left. reflexivity.
  - split; [exact H1 | exact (H2 eq_refl eq_refl)].
Defined.

(** ** Logging in *)

(** X17. A login that does not yield a truthy token creates no session and
    starts nothing: whether [fetch] rejects, the response is not ok, its
    body is not JSON (which [postJSON] turns into an empty object) or is
    JSON without a truthy [token], the state object is untouched, no
    history request is issued, no socket or timer appears, one alert is
    shown, the status reads Login failed and the button is enabled
    again. *)
Theorem failed_login_leaves_no_session :
  forall (B : Browser) (w : World) (user : string)
         (resp : option HttpResponse),
    resp = None
    \/ (exists r, resp = Some r
                  /\ (resOk r = false
                      \/ forall v, resJson r = Some v ->
                                   truthy (v ?. "token") = false)) ->
    let w' := handleLogin_afterLogin B w user (postJSON_settle resp) in
    state w' = state w
    /\ outbox (env w') = outbox (env w)
    /\ pendingHistory (env w') = pendingHistory (env w)
    /\ sockets (env w') = sockets (env w)
    /\ timers (env w') = timers (env w)
    /\ alerts (env w') = (alerts (env w) ++ [AlertLoginFailed])%list
    /\ statusText (dom w') = "Login failed"
    /\ loginBtnDisabled (dom w') = false
    /\ chatVisible (dom w') = chatVisible (dom w).
Proof.
  intros B w user resp H w'.
  assert (E : w' = loginFinally (loginCatch w)).
  { subst w'. destruct H as [->|[r [-> [Hr|Hr]]]].
    - reflexivity.
    - cbn. now rewrite Hr.
    - cbn. destruct (resOk r); [|reflexivity].
      unfold handleLogin_afterLogin.
      destruct (resJson r) as [v|].
      + destruct (nullish v); [reflexivity|]. now rewrite (Hr v eq_refl).
      + reflexivity. }
  rewrite E. repeat split.
Qed.

Lemma failed_login_leaves_no_session_witness :
  state (handleLogin_afterLogin Example.browser initialWorld "ann"
           (postJSON_settle (Some {| resOk := true; resJson := None |})))
  = initialState.
Proof.
  apply (failed_login_leaves_no_session Example.browser initialWorld "ann"
           (Some {| resOk := true; resJson := None |})).
  right. eexists. split; [reflexivity|]. right. discriminate.
Defined.

Lemma connectWebSocket_ok (B : Browser) (w : World) :
  truthy (wsUrl (state w)) = true ->
  truthy (token (state w)) = true ->
  urlParses B (wsUrl (state w)) = true ->
  toStringRaises (token (state w)) = false ->
  socketConstructs B (wsUrl (state w)) = true ->
  connectWebSocket B w
  = (let url := {| href := wsUrl (state w); paramToken := token (state w);
                   paramUsername := username (state w) |} in
     withEnv (fun e => setSockets (sockets e ++ [url]) e)
       (withState (setWs (Some url)) w), Normal).
Proof.
  intros H1 H2 H3 H5 H4. unfold connectWebSocket.
  rewrite H1, H2, H3, H5. cbn. now rewrite H4.
Qed.

(** X16. The live channel is opened when the history request settles,
    whatever its outcome: whether the history arrived, failed, was not
    JSON, or rendering it threw, a session whose endpoint is usable gets
    exactly one new socket, made with the session's endpoint, token and
    user name, no timer and no alert, and the button is enabled again. *)
Theorem channel_opened_whatever_the_history :
  forall (B : Browser) (ents : nat -> Entropy) (w : World)
         (h : HistoryOutcome),
    canConnect B w = true ->
    let w' := handleLogin_afterHistory B ents w h in
    let url := {| href := wsUrl (state w); paramToken := token (state w);
                  paramUsername := username (state w) |} in
    ws (state w') = Some url
    /\ sockets (env w') = (sockets (env w) ++ [url])%list
    /\ timers (env w') = timers (env w)
    /\ alerts (env w') = alerts (env w)
    /\ statusText (dom w') = "Connecting..."
    /\ loginBtnDisabled (dom w') = false.
Proof.
  intros B ents w h Hc w' url. subst w'.
  unfold canConnect in Hc.
  apply Bool.andb_true_iff in Hc as [Hc H4].
  apply Bool.andb_true_iff in Hc as [Hc H5].
  apply Bool.andb_true_iff in Hc as [Hc H3].
  apply Bool.andb_true_iff in Hc as [H1 H2].
  apply Bool.negb_true_iff in H5.
  destruct (afterHistory_rendered B ents w h) as [w1 [Hb ->]].
  destruct (beside_fields w w1 Hb) as [Eu [Et [El [Ew [Ee Ec]]]]].
  rewrite connectWebSocket_ok;
    try (cbn; rewrite ?El, ?Et; assumption).
  cbn. rewrite El, Et, Eu, Ee. repeat split.
Qed.

Lemma channel_opened_whatever_the_history_witness :
  sockets (env (handleLogin_afterHistory Example.browser Example.entropy
                  Example.connectingWorld FetchRejected))
  = (sockets (env Example.connectingWorld)
     ++ [{| href := VStr "wss://chat.example/ws"; paramToken := VStr "tok";
            paramUsername := Some "ann" |}])%list.
Proof.
  apply (channel_opened_whatever_the_history Example.browser Example.entropy
           Example.connectingWorld FetchRejected).
  reflexivity.
Defined.

(** X15. An endpoint that is not a URL stops the manager without a retry.
    [connectWebSocket] throws before anything is scheduled; at the end of
    a login this shows the Login failed alert although the session is in
    place and the chat is on screen; from a timer it uses the timer up
    and leaves no socket and no new timer behind. *)
Theorem unparseable_endpoint_is_not_retried :
  forall (B : Browser) (w : World),
    truthy (wsUrl (state w)) = true ->
    truthy (token (state w)) = true ->
    urlParses B (wsUrl (state w)) = false ->
    connectWebSocket B w = (w, Throw)
    /\ (forall ents h,
           let w' := handleLogin_afterHistory B ents w h in
           session w' = session w
           /\ chatVisible (dom w') = chatVisible (dom w)
           /\ alerts (env w') = (alerts (env w) ++ [AlertLoginFailed])%list
           /\ statusText (dom w') = "Login failed"
           /\ sockets (env w') = sockets (env w)
           /\ timers (env w') = timers (env w)
           /\ scheduled (env w') = scheduled (env w))
    /\ (forall k d,
           nth_error (timers (env w)) k = Some d ->
           exists w',
             step B w (EvTimer k) = Some w'
             /\ timers (env w') = removeNth k (timers (env w))
             /\ sockets (env w') = sockets (env w)
             /\ scheduled (env w') = scheduled (env w)).
Proof.
  intros B w H1 H2 H3.
  assert (C : forall x, wsUrl (state x) = wsUrl (state w) ->
                        token (state x) = token (state w) ->
                        connectWebSocket B x = (x, Throw)).
  { intros x Ex Et. unfold connectWebSocket.
    now rewrite Ex, Et, H1, H2, H3. }
  split; [now apply C|]. split.
  - intros ents h w'. subst w'.
    destruct (afterHistory_rendered B ents w h) as [w1 [Hb ->]].
    destruct (beside_fields w w1 Hb) as [Eu [Et [El [Ew [Ee Ec]]]]].
    rewrite C by assumption.
    unfold session. cbn. rewrite Eu, Et, El, Ee, Ec. repeat split.
  - intros k d Hk. cbn [step]. rewrite Hk.
    rewrite C by reflexivity.
    eexists. split; [reflexivity|]. repeat split.
Qed.

Lemma unparseable_endpoint_is_not_retried_witness :
  connectWebSocket Example.browser Sample.badEndpoint
  = (Sample.badEndpoint, Throw).
Proof.
  apply (unparseable_endpoint_is_not_retried Example.browser
           Sample.badEndpoint); reflexivity.
Defined.

(** ** A constructor that throws *)

Lemma constructor_failure_turn (B : Browser) (w : World) :
  truthy (wsUrl (state w)) = true ->
  truthy (token (state w)) = true ->
  urlParses B (wsUrl (state w)) = true ->
  toStringRaises (token (state w)) = false ->
  socketConstructs B (wsUrl (state w)) = false ->
  timers (env w) <> [] ->
  exists w',
    step B w (EvTimer 0) = Some w'
    /\ wsUrl (state w') = wsUrl (state w)
    /\ token (state w') = token (state w)
    /\ ws (state w') = ws (state w)
    /\ wsBackoffMs (state w') = wsBackoffMs (state w) * 2
    /\ wsMaxBackoffMs (state w') = wsMaxBackoffMs (state w)
    /\ scheduled (env w')
       = (scheduled (env w)
          ++ [Z.min (wsBackoffMs (state w) * 2) (wsMaxBackoffMs (state w))])%list
    /\ sockets (env w') = sockets (env w)
    /\ List.length (timers (env w')) = List.length (timers (env w)).
Proof.
  intros H1 H2 H3 H5 H4 Ht.
  destruct (timers (env w)) as [|d ds] eqn:Et; [contradiction|].
  cbn [step]. rewrite Et. cbn [nth_error].
  unfold connectWebSocket. cbn. rewrite H1, H2, H3, H5, H4. cbn.
  eexists. split; [reflexivity|]. cbn. rewrite Et. cbn.
  repeat split. rewrite length_app. cbn. lia.
Qed.

(** X14. A WebSocket constructor that throws is retried like a close, for
    ever: each firing of the timer sets one new timer, whose delay is the
    doubled backoff capped at the ceiling; no socket is made and the
    number of pending timers stays the same. *)
Theorem constructor_failures_back_off :
  forall (B : Browser) (n : nat) (w : World),
    truthy (wsUrl (state w)) = true ->
    truthy (token (state w)) = true ->
    urlParses B (wsUrl (state w)) = true ->
    toStringRaises (token (state w)) = false ->
    socketConstructs B (wsUrl (state w)) = false ->
    timers (env w) <> [] ->
    500 <= wsBackoffMs (state w) ->
    wsMaxBackoffMs (state w) = 15000 ->
    exists w',
      run B w (repeat (EvTimer 0) n) = Some w'
      /\ scheduled (env w')
         = (scheduled (env w)
            ++ map (fun k => Z.min (wsBackoffMs (state w) * 2 ^ Z.of_nat k)
                                   15000)
                   (seq 1 n))%list
      /\ sockets (env w') = sockets (env w)
      /\ ws (state w') = ws (state w)
      /\ List.length (timers (env w')) = List.length (timers (env w)).
Proof.
  intros B n.
  assert (G : forall w,
             truthy (wsUrl (state w)) = true ->
             truthy (token (state w)) = true ->
             urlParses B (wsUrl (state w)) = true ->
             toStringRaises (token (state w)) = false ->
             socketConstructs B (wsUrl (state w)) = false ->
             timers (env w) <> [] ->
             exists w',
               run B w (repeat (EvTimer 0) n) = Some w'
               /\ scheduled (env w')
                  = (scheduled (env w)
                     ++ map (fun k =>
                               Z.min (wsBackoffMs (state w) * 2 ^ Z.of_nat k)
                                     (wsMaxBackoffMs (state w)))
                            (seq 1 n))%list
               /\ wsBackoffMs (state w')
                  = wsBackoffMs (state w) * 2 ^ Z.of_nat n
               /\ sockets (env w') = sockets (env w)
               /\ ws (state w') = ws (state w)
               /\ List.length (timers (env w'))
                  = List.length (timers (env w))).
  { induction n as [|n IH]; intros w H1 H2 H3 H5 H4 Ht.
    - exists w. cbn. rewrite app_nil_r. repeat split; lia.
    - destruct (constructor_failure_turn B w H1 H2 H3 H5 H4 Ht)
        as [w1 [S1 [Eu [Ek [Ew [Eb [Em [Es [Eso El]]]]]]]]].
      destruct (IH w1) as [w' [R [Sc [Bk [So [Ws Ln]]]]]];
        try (rewrite ?Eu, ?Ek; assumption).
      { intros E. rewrite E in El. destruct (timers (env w));
          [contradiction | discriminate]. }
      exists w'. cbn [repeat run]. rewrite S1.
      split; [exact R|].
      rewrite Sc, Bk, So, Ws, Ln, Es, Eb, Em, Eso, Ew, El.
      rewrite Nat2Z.inj_succ, Z.pow_succ_r by lia.
      repeat split; try lia.
      rewrite <- app_assoc. f_equal. cbn [seq map app].
      rewrite <- (seq_shift n 1), map_map.
      apply (f_equal2 (@cons Z)).
      + change (Z.of_nat 1) with 1%Z. now rewrite Z.pow_1_r.
      + apply map_ext. intros k.
        rewrite Nat2Z.inj_succ, Z.pow_succ_r by lia. f_equal. lia. }
  intros w H1 H2 H3 H5 H4 Ht _ Hm.
  destruct (G w H1 H2 H3 H5 H4 Ht) as [w' [R [Sc [_ [So [Ws Ln]]]]]].
  exists w'. rewrite Hm in Sc. auto.
Qed.

Lemma constructor_failures_back_off_witness :
  exists w',
    run Sample.browser Sample.waiting (repeat (EvTimer 0) 5) = Some w'
    /\ scheduled (env w') = [1000; 2000; 4000; 8000; 15000; 15000]
    /\ sockets (env w') = [].
Proof.
  destruct (constructor_failures_back_off Sample.browser 5 Sample.waiting
              eq_refl eq_refl eq_refl eq_refl eq_refl ltac:(discriminate)
              ltac:(discriminate) eq_refl)
    as [w' [R [S [So _]]]].
  exists w'. split; [exact R|]. split; [exact S | exact So].
Defined.

(** ** Sending from the keyboard *)

Lemma sendMessage_ok (w : World) :
  trim (messageInput (dom w)) <> "" ->
  truthy (token (state w)) = true ->
  toStringRaises (token (state w)) = false ->
  sendMessage w
  = withEnv (fun e => setPending (pendingLogins e) (pendingHistory e)
                        (S (pendingSends e))
                        (pushRequest
                           (PostAddMessages (username (state w))
                              (trim (messageInput (dom w)))
                              (token (state w))) e))
      (withDom (setSendBtnDisabled true) w).
Proof.
  intros Ht Hk Hr. apply String.eqb_neq in Ht.
  unfold sendMessage. now rewrite Ht, Hk, Hr.
Qed.

(** X20. Only a plain Enter sends: any other key, and Enter with Shift, leave
    everything as it is.  Enter does not look at the send button, which is
    disabled while a request is in flight: with text in the composer and a
    session whose token converts to a string, pressing Enter twice before
    the response arrives issues the same request twice. *)
Theorem enter_key_ignores_disabled_button :
  forall (w : World) (key : string) (shiftKey : bool),
    (key <> "Enter" \/ shiftKey = true -> onKeydown w key shiftKey = w)
    /\ (trim (messageInput (dom w)) <> "" ->
        truthy (token (state w)) = true ->
        toStringRaises (token (state w)) = false ->
        let req := PostAddMessages (username (state w))
                     (trim (messageInput (dom w))) (token (state w)) in
        let w1 := onKeydown w "Enter" false in
        sendBtnDisabled (dom w1) = true
        /\ outbox (env (onKeydown w1 "Enter" false))
           = (outbox (env w) ++ [req; req])%list).
Proof.
  intros w key shiftKey. split.
  - intros [H|H]; unfold onKeydown.
    + apply String.eqb_neq in H. now rewrite H.
    + rewrite H. now rewrite Bool.andb_false_r.
  - intros Ht Hk Hr req w1. subst w1 req.
    change (onKeydown w "Enter" false) with (sendMessage w).
    rewrite (sendMessage_ok w Ht Hk Hr).
    split; [reflexivity|].
    match goal with
    | |- context [onKeydown ?x "Enter" false] =>
        change (onKeydown x "Enter" false) with (sendMessage x);
        rewrite (sendMessage_ok x Ht Hk Hr)
    end.
    cbn. now rewrite <- app_assoc.
Qed.

Lemma enter_key_ignores_disabled_button_witness :
  onKeydown Example.composing "Enter" true = Example.composing
  /\ outbox (env (onKeydown (onKeydown Example.composing "Enter" false)
                    "Enter" false))
     = (outbox (env Example.composing)
        ++ [PostAddMessages (Some "ann") "hello" (VStr "tok");
            PostAddMessages (Some "ann") "hello" (VStr "tok")])%list.
Proof.
  destruct (enter_key_ignores_disabled_button Example.composing "Enter" true)
    as [H1 H2].
  split.
  - apply H1. right. reflexivity.
  - apply H2; [discriminate | reflexivity | reflexivity].
Defined.

(** X21. What follows a send, in a session whose token converts to a
    string.  After a rejected request the composer still
    holds the text, one alert is shown, the button is enabled, and sending
    again issues the same request once more; after a resolved one the
    composer is empty, so that sending again does nothing. *)
Theorem send_then_response :
  forall (w : World) (v : JsVal),
    trim (messageInput (dom w)) <> "" ->
    truthy (token (state w)) = true ->
    toStringRaises (token (state w)) = false ->
    let req := PostAddMessages (username (state w))
                 (trim (messageInput (dom w))) (token (state w)) in
    let failed := sendMessage_afterPost (sendMessage w) Rejected in
    let sent := sendMessage_afterPost (sendMessage w) (Resolved v) in
    messageInput (dom failed) = messageInput (dom w)
    /\ alerts (env failed) = (alerts (env w) ++ [AlertSendFailed])%list
    /\ sendBtnDisabled (dom failed) = false
    /\ outbox (env (sendMessage failed)) = (outbox (env w) ++ [req; req])%list
    /\ messageInput (dom sent) = ""
    /\ sendBtnDisabled (dom sent) = false
    /\ alerts (env sent) = alerts (env w)
    /\ sendMessage sent = sent.
Proof.
  intros w v Ht Hk Hr req failed sent. subst req failed sent.
  rewrite (sendMessage_ok w Ht Hk Hr).
  split; [reflexivity|]. split; [reflexivity|]. split; [reflexivity|].
  split; [|repeat split].
  match goal with
  | |- context [sendMessage ?x] => rewrite (sendMessage_ok x Ht Hk Hr)
  end.
  cbn. now rewrite <- app_assoc.
Qed.

Lemma send_then_response_witness :
  messageInput (dom (sendMessage_afterPost (sendMessage Example.composing)
                       Rejected)) = "  hello "
  /\ messageInput (dom (sendMessage_afterPost (sendMessage Example.composing)
                          (Resolved (VObj 9 [])))) = "".
Proof.
  destruct (send_then_response Example.composing (VObj 9 [])
              ltac:(discriminate) eq_refl eq_refl)
    as [H1 [_ [_ [_ [H2 _]]]]].
  split; [exact H1 | exact H2].
Defined.

(** ** Registration *)

(** X22. A registration request is issued exactly when the trimmed user name
    is not empty and the password has at least eight characters; it then
    carries the trimmed name and the password as typed, and the sign-up
    button is disabled.  Otherwise one alert is shown and nothing else
    changes. *)
Theorem register_request_iff_valid :
  forall (w : World) (f : AuthForms),
    let user := trim (registerUsernameValue f) in
    let password := registerPasswordValue f in
    (user <> "" /\ (8 <= String.length password)%nat ->
     handleRegister w f
     = (setConnectionStatus false "Creating account..." w,
        setRegisterBtnDisabled true f, [PostRegister user password]))
    /\ (user = "" \/ (String.length password < 8)%nat ->
        exists a,
          handleRegister w f = (w, f, [a])
          /\ (a = AlertFillAllFields \/ a = AlertPasswordTooShort)).
Proof.
  intros w f user password. subst user password. unfold handleRegister.
  split.
  - intros [Hu Hp]. apply String.eqb_neq in Hu. rewrite Hu.
    destruct (registerPasswordValue f) as [|c p] eqn:Ep;
      [cbn in Hp; lia|].
    cbn [String.eqb orb].
    destruct (Nat.ltb_spec (String.length (String c p)) 8); [lia|].
    reflexivity.
  - intros [Hu|Hp].
    + rewrite Hu. cbn. eauto.
    + destruct ((trim (registerUsernameValue f) =? "")%string
                || (registerPasswordValue f =? "")%string); [eauto|].
      destruct (Nat.ltb_spec (String.length (registerPasswordValue f)) 8);
        [eauto | lia].
Qed.

Lemma register_request_iff_valid_witness :
  handleRegister initialWorld Sample.signingUp
  = (setConnectionStatus false "Creating account..." initialWorld,
     setRegisterBtnDisabled true Sample.signingUp,
     [PostRegister "ann" "password1"]).
Proof.
  apply (register_request_iff_valid initialWorld Sample.signingUp).
  split; [discriminate | cbn; lia].
Defined.

(** X23. Registering never logs in.  However the registration request
    settles, the state object, the store, the page's messages, the
    requests, sockets and timers are as before, and the sign-up button is
    enabled again.  A response with a truthy [message] or [username]
    switches to the sign-in tab with the new name filled in and the
    sign-up fields emptied; anything else leaves the form as typed and
    sets the status to Registration failed. *)
Theorem registration_never_logs_in :
  forall (w : World) (f : AuthForms) (user : string) (r : PostOutcome),
    let '(w', f', effects) := handleRegister_afterPost w f user r in
    state w' = state w
    /\ env w' = env w
    /\ shown w' = shown w
    /\ registerBtnDisabled f' = false
    /\ ((effects = [AlertAccountCreated]
         /\ w' = w
         /\ loginTabActive f' = true /\ registerTabActive f' = false
         /\ loginFormHidden f' = false /\ registerFormHidden f' = true
         /\ loginUsernameValue f' = user
         /\ registerUsernameValue f' = "" /\ registerPasswordValue f' = "")
        \/ (effects = [AlertRegistrationFailed]
            /\ statusText (dom w') = "Registration failed"
            /\ f' = setRegisterBtnDisabled false f)).
Proof.
  intros w f user r. unfold handleRegister_afterPost.
  destruct (match r with
            | Rejected => false
            | Resolved res =>
                negb (nullish res)
                && truthy (res ?. "message" <|> res ?. "username")
            end).
  - repeat split. left. repeat split.
  - repeat split. right. repeat split.
Qed.

(** ** Avatars *)

(** X24. Every non-empty user name gets one of the seventeen palette colours,
    chosen by its first character alone; the empty name gets none. *)
Theorem avatar_color_in_palette :
  forall (user : string),
    user <> "" ->
    (exists c, avatarColor user = VStr c /\ In c colors)
    /\ (forall other,
           charCodeAt0 other = charCodeAt0 user ->
           avatarColor other = avatarColor user)
    /\ avatarColor "" = VUndef.
Proof.
  intros user Hu. destruct user as [|a s]; [contradiction|].
  split; [|split].
  - unfold avatarColor. cbn [charCodeAt0].
    set (i := Z.to_nat (Z.of_nat (nat_of_ascii a)
                        mod Z.of_nat (List.length colors))).
    assert (Hi : (i < List.length colors)%nat).
    { subst i. cbn [colors List.length].
      pose proof (Z.mod_pos_bound (Z.of_nat (nat_of_ascii a)) 17). lia. }
    destruct (nth_error colors i) as [c|] eqn:E.
    + exists c. split; [reflexivity|]. eapply nth_error_In; exact E.
    + apply nth_error_None in E. lia.
  - intros other H. unfold avatarColor. now rewrite H.
  - reflexivity.
Qed.

Lemma avatar_color_in_palette_witness :
  exists c, avatarColor "ann" = VStr c /\ In c colors.
Proof.
  apply (avatar_color_in_palette "ann"). discriminate.
Defined.

(** ** The status indicator *)

Lemma connectWebSocket_indicator (B : Browser) (w : World) :
  connected (state (fst (connectWebSocket B w))) = connected (state w)
  /\ (statusConnected (dom (fst (connectWebSocket B w))) = true ->
      statusConnected (dom w) = true).
Proof.
  unfold connectWebSocket.
  destruct (negb (truthy (wsUrl (state w))) || negb (truthy (token (state w))));
    [split; [reflexivity | discriminate]|].
  destruct (negb (urlParses B (wsUrl (state w)))
            || toStringRaises (token (state w))); [split; auto|].
  cbn [href]. destruct (socketConstructs B (wsUrl (state w))); split; auto.
Qed.

Lemma step_indicator (B : Browser) (w w' : World) (ev : Event) :
  step B w ev = Some w' ->
  (statusConnected (dom w) = true -> connected (state w) = true) ->
  statusConnected (dom w') = true -> connected (state w') = true.
Proof.
  destruct ev as [text|u p|k r|h ents| |r|k|k|k evData ents|k|k];
    cbn [step]; intros H H0.
  - injection H as <-. exact H0.
  - injection H as <-. unfold handleLogin.
    destruct ((trim u =? "")%string || (p =? "")%string);
      [exact H0 | discriminate].
  - destruct (nth_error (pendingLogins (env w)) k) as [user|]; [|discriminate].
    injection H as <-. unfold handleLogin_afterLogin.
    destruct r as [|res]; [discriminate|].
    destruct (nullish res); [discriminate|].
    destruct (truthy (res ?. "token")); [|discriminate].
    match goal with
    | |- context [toStringRaises ?t] => destruct (toStringRaises t) eqn:Er
    end; [|discriminate].
    match goal with
    | |- context [handleLogin_connect B ?x] =>
        destruct (handleLogin_connect_raising B x Er)
          as [_ [_ [_ [_ [_ [_ [Ei _]]]]]]]
    end.
    rewrite Ei. discriminate.
  - destruct (pendingHistory (env w)) as [|n]; [discriminate|].
    injection H as <-.
    match goal with
    | |- context [handleLogin_afterHistory B ents ?x h] =>
        destruct (afterHistory_rendered B ents x h) as [w1 [Hb ->]]
    end.
    match goal with
    | |- context [connectWebSocket B ?x] =>
        destruct (connectWebSocket_indicator B x) as [_ H2];
        destruct (connectWebSocket B x) as [w2 []]
    end; cbn in *; [|discriminate].
    intros H3. apply H2 in H3. discriminate.
  - injection H as <-. unfold sendMessage.
    destruct ((trim (messageInput (dom w)) =? "")%string
              || negb (truthy (token (state w)))); [exact H0|].
    destruct (toStringRaises (token (state w))); exact H0.
  - destruct (pendingSends (env w)); [discriminate|].
    injection H as <-. destruct r; exact H0.
  - destruct (nth_error (timers (env w)) k); [|discriminate].
    injection H as <-.
    match goal with
    | |- context [connectWebSocket B ?x] =>
        destruct (connectWebSocket_indicator B x) as [H1 H2]
    end.
    intros H3. rewrite H1. apply H2 in H3. now apply H0.
  - destruct (nth_error (sockets (env w)) k); [|discriminate].
    injection H as <-. reflexivity.
  - destruct (nth_error (sockets (env w)) k); [|discriminate].
    injection H as <-.
    pose proof (onMessage_beside B ents w evData) as Hb.
    unfold beside in Hb. injection Hb. intros.
    replace (connected (state (fst (onMessage B ents w evData))))
      with (connected (state w)) by congruence.
    apply H0. congruence.
  - destruct (nth_error (sockets (env w)) k); [|discriminate].
    now injection H as <-.
  - destruct (nth_error (sockets (env w)) k); [|discriminate].
    injection H as <-. discriminate.
Qed.

(** X25. The indicator never claims a connection the script does not believe
    in: in every world the script can reach, a status shown as connected
    goes with [state.connected] being true, that is, with an open
    listener having run since the last close listener. *)
Theorem indicator_connected_only_when_connected :
  forall (B : Browser) (evs : list Event) (w : World),
    run B initialWorld evs = Some w ->
    statusConnected (dom w) = true ->
    connected (state w) = true.
Proof.
  intros B evs.
  assert (G : forall w0 w,
             (statusConnected (dom w0) = true -> connected (state w0) = true) ->
             run B w0 evs = Some w ->
             statusConnected (dom w) = true -> connected (state w) = true).
  { induction evs as [|ev evs IH]; cbn [run]; intros w0 w H0 H.
    - now injection H as <-.
    - destruct (step B w0 ev) as [w1|] eqn:Hs; [|discriminate].
      eapply IH; [|exact H]. eapply step_indicator; eassumption. }
  intros w H. apply (G initialWorld w); [discriminate | exact H].
Qed.

Lemma indicator_connected_only_when_connected_witness :
  connected (state (onOpen Example.connectingWorld)) = true.
Proof.
  apply (indicator_connected_only_when_connected Example.browser
           [EvLoginSubmit "ann" "password1";
            EvLoginResponse 0 (Resolved Example.loginBody);
            EvHistoryResponse (Body (Example.historyBody [])) Example.entropy;
            EvSocketOpen 0]);
    reflexivity.
Defined.

Lemma reachable_storeOk_witness :
  map fst (messages (state Sample.chatting))
  = [VStr "m1"; VStr "n1"; VStr "user-1700000000000-k3x90"]
  /\ storeOk (messages (state Sample.chatting)) = true.
Proof.
  split; [reflexivity|].
  apply (reachable_storeOk Example.browser
           (Sample.opening ++ Sample.arrival)).
  reflexivity.
Defined.

Lemma reachable_sessionOk_witness : sessionOk Example.connectingWorld.
Proof.
  apply (reachable_sessionOk Example.browser
           [EvLoginSubmit "ann" "password1";
            EvLoginResponse 0 (Resolved Example.loginBody);
            EvHistoryResponse (Body (Example.historyBody [])) Example.entropy]).
  reflexivity.
Defined.

(** ** Frames that are not messages *)

(** X11. What the message listener does with a frame that is not a message
    record.  A frame whose text is not JSON is shown as a message from
    "unknown" with that text as its body.  A frame that parses to null, a
    number or a boolean is dropped: the world is exactly as before and the
    listener returns normally. *)
Theorem frame_that_is_not_a_record :
  forall (B : Browser) (ents : nat -> Entropy) (w : World) (evData : string),
    (jsonParse B evData = None ->
     evData <> "" ->
     let m := {| id := VStr ("user-" ++ decimal (dateNowId (ents 0%nat))
                             ++ "-" ++ mathRandom (ents 0%nat));
                 userName := VStr "unknown";
                 message := VStr evData;
                 timestamp := VNum (Num (dateNowTs (ents 0%nat))) |} in
     Map_has (messages (state w)) (id m) = false ->
     snd (onMessage B ents w evData) = Normal
     /\ messages (state (fst (onMessage B ents w evData)))
        = (messages (state w) ++ [entryOf m])%list
     /\ messagesContainer (dom (fst (onMessage B ents w evData)))
        = (messagesContainer (dom w) ++ [m])%list)
    /\ (forall v,
           jsonParse B evData = Some v ->
           isObject v = false -> isString v = false ->
           onMessage B ents w evData = (w, Normal)).
Proof.
  intros B ents w evData. split.
  - intros Hp Hd m Hh. unfold onMessage. rewrite Hp. cbn [optGet].
    assert (E : normalizeMessageJs B (ents 0%nat) (VStr evData)
                = Returned (Some m))
      by (destruct evData; [contradiction | reflexivity]).
    rewrite E. now apply renderMessage_fresh.
  - intros v Hp Ho Hs. unfold onMessage. rewrite Hp.
    destruct v as [| |b|[|z]| | |]; try discriminate; try reflexivity.
    + destruct b; reflexivity.
    + unfold normalizeMessageJs. cbn. destruct (z =? 0)%Z; reflexivity.
Qed.

Lemma frame_that_is_not_a_record_witness :
  messages (state (fst (onMessage Example.browser Example.entropy
                          Example.connectingWorld "server restarting")))
  = [(VStr "user-1700000000000-k3x90",
      {| id := VStr "user-1700000000000-k3x90";
         userName := VStr "unknown";
         message := VStr "server restarting";
         timestamp := VNum (Num 1700000000000) |})].
Proof.
  destruct (frame_that_is_not_a_record Example.browser Example.entropy
              Example.connectingWorld "server restarting") as [H _].
  destruct (H eq_refl ltac:(discriminate) eq_refl) as [_ [H1 _]].
  exact H1.
Defined.
